(** * InstrumentedChrome: a shallow embedding of
      w3af/core/controllers/chrome/instrumented.py

    The controller drives a browser through the remote debugging protocol.
    The embedding follows the Python source function by function:

    - decoded JSON values ([pyval]) with the [in] and [[]] operators the
      handlers apply to them, and the exceptions these raise;
    - the instance attributes of [InstrumentedChrome] as a record, mutated
      through a small state-and-exception monad;
    - generators ([_paginate] and the page fetchers) as the trace of their
      fetches and yields;
    - the collaborators (proxy, browser process, protocol connection) as
      records that say how each external call answers. *)

From Stdlib Require Import ZArith List String Ascii Bool Lia Permutation.
From Stdlib Require Import DecimalString.
Import ListNotations.

Local Open Scope string_scope.
Local Open Scope Z_scope.
Set Warnings "-register-all".

(* ===================================================================== *)
(** ** Python values and exceptions *)
(* ===================================================================== *)

(** What [json.loads] produces for a protocol message.  Numbers are kept to
    the integers; a dict is the list of its items in iteration order.
    Floats are left out: no handler reads one, and the properties below
    that compare values ([==], [!=]) are about values without floats. *)
Inductive pyval : Type :=
| PNone
| PBool (b : bool)
| PInt (z : Z)
| PStr (s : string)
| PList (l : list pyval)
| PDict (d : list (string * pyval)).

(** Subclasses of [Exception] that the module meets. *)
Inductive pyexn : Type :=
| TypeError
| KeyError
| AttributeError
| AssertionError
| EventTimeout
| EventException
| InstrumentedChromeException
| OtherException (name : string).

Inductive result (A : Type) : Type :=
| Ok (a : A)
| Raise (e : pyexn).
Arguments Ok {A} a.
Arguments Raise {A} e.

Definition is_ok {A : Type} (r : result A) : bool :=
  match r with Ok _ => true | Raise _ => false end.

Definition and_then {A B : Type} (r : result A) (k : A -> result B) : result B :=
  match r with
  | Ok a => k a
  | Raise e => Raise e
  end.

(** [d.get(key)] on the items of a dict: the value of the first item whose
    key is [key]. *)
Fixpoint dict_get (key : string) (d : list (string * pyval)) : option pyval :=
  match d with
  | [] => None
  | (k, v) :: d' => if String.eqb k key then Some v else dict_get key d'
  end.

(** [v == 'text'] for a [str] literal on the right. *)
Definition py_eq_str (v : pyval) (text : string) : bool :=
  match v with
  | PStr s => String.eqb s text
  | _ => false
  end.

(** ['key' in v]: key membership for a dict, element membership for a list,
    substring test for a string, [TypeError] for anything else. *)
Definition py_in (key : string) (v : pyval) : result bool :=
  match v with
  | PDict d => Ok (match dict_get key d with Some _ => true | None => false end)
  | PList l => Ok (existsb (fun x => py_eq_str x key) l)
  | PStr s => Ok (match String.index 0 key s with Some _ => true | None => false end)
  | PNone | PBool _ | PInt _ => Raise TypeError
  end.

(** [v['key']] with a [str] subscript. *)
Definition py_getitem (v : pyval) (key : string) : result pyval :=
  match v with
  | PDict d => match dict_get key d with Some x => Ok x | None => Raise KeyError end
  | _ => Raise TypeError
  end.

(** [xs == ys] for two lists, given the comparison of their elements. *)
Definition list_eqb_with {A : Type} (eqb : A -> A -> bool) : list A -> list A -> bool :=
  fix go (xs ys : list A) {struct xs} : bool :=
    match xs, ys with
    | [], [] => true
    | x :: xs', y :: ys' => eqb x y && go xs' ys'
    | _, _ => false
    end.

(** Every item of [xs] has its key in [ys], with an equal value. *)
Definition items_eqb_with (eqb : pyval -> pyval -> bool) (ys : list (string * pyval))
  : list (string * pyval) -> bool :=
  fix go (xs : list (string * pyval)) {struct xs} : bool :=
    match xs with
    | [] => true
    | (k, v) :: xs' =>
        match dict_get k ys with
        | Some w => eqb v w
        | None => false
        end && go xs'
    end.

(** [a == b] on decoded values: [True == 1], lists compare element by
    element, dicts by length and by the value under each key. *)
Fixpoint py_eqb (a b : pyval) {struct a} : bool :=
  match a, b with
  | PNone, PNone => true
  | PBool x, PBool y => Bool.eqb x y
  | PBool x, PInt y => Z.eqb (Z.b2z x) y
  | PInt x, PBool y => Z.eqb x (Z.b2z y)
  | PInt x, PInt y => Z.eqb x y
  | PStr x, PStr y => String.eqb x y
  | PList xs, PList ys => list_eqb_with py_eqb xs ys
  | PDict xs, PDict ys =>
      Nat.eqb (List.length xs) (List.length ys) && items_eqb_with py_eqb ys xs
  | _, _ => false
  end.

(** [len(v)] *)
Definition py_len (v : pyval) : result Z :=
  match v with
  | PDict d => Ok (Z.of_nat (List.length d))
  | PList l => Ok (Z.of_nat (List.length l))
  | PStr s => Ok (Z.of_nat (String.length s))
  | PNone | PBool _ | PInt _ => Raise TypeError
  end.

(** The items [for x in v] runs over: the elements of a list, the keys of a
    dict, the characters of a string. *)
Definition py_iter (v : pyval) : result (list pyval) :=
  match v with
  | PList l => Ok l
  | PDict d => Ok (map (fun kv => PStr (fst kv)) d)
  | PStr s => Ok (map (fun c => PStr (String c EmptyString)) (list_ascii_of_string s))
  | PNone | PBool _ | PInt _ => Raise TypeError
  end.

(** ['%s' % v] for [None] or a string, and ['%s' % n], ['%i' % n] for an
    integer. *)
Definition fmt_int (z : Z) : string := NilZero.string_of_int (Z.to_int z).

Definition fmt_opt_str (v : option string) : string :=
  match v with Some s => s | None => "None" end.

Definition fmt_opt_int (v : option Z) : string :=
  match v with Some z => fmt_int z | None => "None" end.

(** Truth value of an attribute that holds [None], [True] or [False]. *)
Definition truthy (flag : option bool) : bool :=
  match flag with Some true => true | _ => false end.

(* ===================================================================== *)
(** ** Collaborators *)
(* ===================================================================== *)

(** The collaborators live outside this module; a record says how each call
    the controller makes on them answers. *)
Record LoggingProxy : Type := {
  get_bind_port : Z;
  proxy_stop : result unit
}.

Record ChromeProcess : Type := {
  get_devtools_port : Z;
  get_parent_pid : option Z;
  process_terminate : result unit
}.

Record DebugChromeInterface : Type := {
  send : string -> list (string * pyval) -> result pyval;
  conn_close : result unit
}.

(** An instance attribute: never assigned, [None], or an object. *)
Inductive attr (A : Type) : Type :=
| Unset
| IsNone
| Obj (a : A).
Arguments Unset {A}.
Arguments IsNone {A}.
Arguments Obj {A} a.

(* ===================================================================== *)
(** ** The controller's attributes *)
(* ===================================================================== *)

Definition PAGE_STATE_NONE : Z := 0.
Definition PAGE_STATE_LOADING : Z := 1.
Definition PAGE_STATE_LOADED : Z := 2.
Definition PAGINATION_PAGE_COUNT : Z := 20.

Record InstrumentedChrome : Type := {
  _frame_stopped_loading_event : option bool;
  _frame_scheduled_navigation : option bool;
  _network_almost_idle_event : option bool;
  _execution_context_created : option bool;
  _page_state : Z;
  id : string;
  debugging_id : option string;
  proxy : attr LoggingProxy;
  chrome_process : attr ChromeProcess;
  chrome_conn : attr DebugChromeInterface
}.

Record EventListener : Type := { _event_as_dict : pyval }.

(** Effects on the outside world, in the order they happen: log lines,
    calls on the collaborators, and the items a generator yields. *)
Inductive effect : Type :=
| Debug (msg : string)
| DebugFailure (msg : string) (e : pyexn)
| ProxyStop
| ConnClose
| ProcessTerminate
| LoggingDisable (level : Z)
| SetDialogHandler
| Command (method : string) (params : list (string * pyval))
| Fetch (start count : Z)
| Yield (item : EventListener).

Record world : Type := {
  self : InstrumentedChrome;
  effects : list effect;
  logging_disable : Z
}.

(* ===================================================================== *)
(** ** State and exceptions *)
(* ===================================================================== *)

Definition M (A : Type) : Type := world -> result A * world.

Definition ret {A : Type} (a : A) : M A := fun w => (Ok a, w).

Definition bind {A B : Type} (c : M A) (k : A -> M B) : M B :=
  fun w =>
    match c w with
    | (Ok a, w') => k a w'
    | (Raise e, w') => (Raise e, w')
    end.

Definition raise {A : Type} (e : pyexn) : M A := fun w => (Raise e, w).

Definition lift {A : Type} (r : result A) : M A := fun w => (r, w).

(** [try: body except Exception, e: handler(e)] *)
Definition try_except (body : M unit) (handler : pyexn -> M unit) : M unit :=
  fun w =>
    match body w with
    | (Ok tt, w') => (Ok tt, w')
    | (Raise e, w') => handler e w'
    end.

Definition get_self : M InstrumentedChrome := fun w => (Ok (self w), w).

Definition set_self (f : InstrumentedChrome -> InstrumentedChrome) : M unit :=
  fun w => (Ok tt, {| self := f (self w);
                      effects := effects w;
                      logging_disable := logging_disable w |}).

Definition emit (e : effect) : M unit :=
  fun w => (Ok tt, {| self := self w;
                      effects := effects w ++ [e];
                      logging_disable := logging_disable w |}).

Declare Scope py_scope.
Delimit Scope py_scope with py.
Notation "x <- c ;; k" := (bind c (fun x => k))
  (at level 61, c at next level, right associativity) : py_scope.
Notation "c ;; k" := (bind c (fun _ => k))
  (at level 61, right associativity) : py_scope.
Local Open Scope py_scope.

(** Attribute assignments. *)
Definition set_frame_stopped_loading_event (v : option bool) (o : InstrumentedChrome) :=
  {| _frame_stopped_loading_event := v;
     _frame_scheduled_navigation := _frame_scheduled_navigation o;
     _network_almost_idle_event := _network_almost_idle_event o;
     _execution_context_created := _execution_context_created o;
     _page_state := _page_state o;
     id := id o; debugging_id := debugging_id o;
     proxy := proxy o; chrome_process := chrome_process o;
     chrome_conn := chrome_conn o |}.

Definition set_frame_scheduled_navigation (v : option bool) (o : InstrumentedChrome) :=
  {| _frame_stopped_loading_event := _frame_stopped_loading_event o;
     _frame_scheduled_navigation := v;
     _network_almost_idle_event := _network_almost_idle_event o;
     _execution_context_created := _execution_context_created o;
     _page_state := _page_state o;
     id := id o; debugging_id := debugging_id o;
     proxy := proxy o; chrome_process := chrome_process o;
     chrome_conn := chrome_conn o |}.

Definition set_network_almost_idle_event (v : option bool) (o : InstrumentedChrome) :=
  {| _frame_stopped_loading_event := _frame_stopped_loading_event o;
     _frame_scheduled_navigation := _frame_scheduled_navigation o;
     _network_almost_idle_event := v;
     _execution_context_created := _execution_context_created o;
     _page_state := _page_state o;
     id := id o; debugging_id := debugging_id o;
     proxy := proxy o; chrome_process := chrome_process o;
     chrome_conn := chrome_conn o |}.

Definition set_execution_context_created (v : option bool) (o : InstrumentedChrome) :=
  {| _frame_stopped_loading_event := _frame_stopped_loading_event o;
     _frame_scheduled_navigation := _frame_scheduled_navigation o;
     _network_almost_idle_event := _network_almost_idle_event o;
     _execution_context_created := v;
     _page_state := _page_state o;
     id := id o; debugging_id := debugging_id o;
     proxy := proxy o; chrome_process := chrome_process o;
     chrome_conn := chrome_conn o |}.

Definition set_page_state (v : Z) (o : InstrumentedChrome) :=
  {| _frame_stopped_loading_event := _frame_stopped_loading_event o;
     _frame_scheduled_navigation := _frame_scheduled_navigation o;
     _network_almost_idle_event := _network_almost_idle_event o;
     _execution_context_created := _execution_context_created o;
     _page_state := v;
     id := id o; debugging_id := debugging_id o;
     proxy := proxy o; chrome_process := chrome_process o;
     chrome_conn := chrome_conn o |}.

(* ===================================================================== *)
(** ** Page state handlers *)
(* ===================================================================== *)

Definition _navigator_started_handler (message : pyval) : M unit :=
  has_method <- lift (py_in "method" message) ;;
  if negb has_method then ret tt
  else
    method <- lift (py_getitem message "method") ;;
    if py_eq_str method "Page.frameScheduledNavigation" then
      set_self (set_frame_scheduled_navigation (Some true)) ;;
      set_self (set_frame_stopped_loading_event (Some false)) ;;
      set_self (set_network_almost_idle_event (Some false)) ;;
      set_self (set_execution_context_created (Some false)) ;;
      set_self (set_page_state PAGE_STATE_LOADING)
    else ret tt.

(** The [if]/[elif] chain of [_load_url_finished_handler]; the result says
    whether a [return] inside the chain left the function. *)
Definition load_url_finished_chain (message : pyval) : M bool :=
  method <- lift (py_getitem message "method") ;;
  if py_eq_str method "Page.frameStoppedLoading" then
    set_self (set_frame_scheduled_navigation (Some false)) ;;
    set_self (set_frame_stopped_loading_event (Some true)) ;;
    ret false
  else if py_eq_str method "Page.lifecycleEvent" then
    has_params <- lift (py_in "params" message) ;;
    if negb has_params then ret true
    else
      params <- lift (py_getitem message "params") ;;
      has_name <- lift (py_in "name" params) ;;
      if negb has_name then ret true
      else
        name <- lift (py_getitem params "name") ;;
        if py_eq_str name "networkAlmostIdle" then
          set_self (set_frame_scheduled_navigation (Some false)) ;;
          set_self (set_network_almost_idle_event (Some true)) ;;
          ret false
        else ret false
  else if py_eq_str method "Runtime.executionContextCreated" then
    set_self (set_frame_scheduled_navigation (Some false)) ;;
    set_self (set_execution_context_created (Some true)) ;;
    ret false
  else ret false.

Definition _load_url_finished_handler (message : pyval) : M unit :=
  has_method <- lift (py_in "method" message) ;;
  if negb has_method then ret tt
  else
    returned <- load_url_finished_chain message ;;
    if returned then ret tt
    else
      o <- get_self ;;
      if truthy (_network_almost_idle_event o)
         && truthy (_frame_stopped_loading_event o)
         && truthy (_execution_context_created o)
      then set_self (set_page_state PAGE_STATE_LOADED)
      else ret tt.

Definition _page_state_handler (message : pyval) : M unit :=
  _navigator_started_handler message ;;
  _load_url_finished_handler message.

(* ===================================================================== *)
(** ** Commands on the protocol connection *)
(* ===================================================================== *)

Definition PAGE_LOAD_TIMEOUT : Z := 10.

(** [self.chrome_conn.Domain.command(params)]: looking the command up
    on a missing or [None] connection raises [AttributeError]; otherwise the
    command goes out and the connection answers. *)
Definition conn_command (method : string) (params : list (string * pyval)) : M pyval :=
  o <- get_self ;;
  match chrome_conn o with
  | Obj c => emit (Command method params) ;; lift (send c method params)
  | Unset | IsNone => raise AttributeError
  end.

Definition load_url (url : string) : M unit :=
  set_self (set_page_state PAGE_STATE_LOADING) ;;
  _ <- conn_command "Page.navigate"
         [("url", PStr url); ("timeout", PInt PAGE_LOAD_TIMEOUT)] ;;
  ret tt.

Definition load_about_blank : M unit := load_url "about:blank".

Definition stop : M unit :=
  set_self (set_page_state PAGE_STATE_LOADED) ;;
  _ <- conn_command "Page.stopLoading" [] ;;
  ret tt.

Definition navigate_to_history_index (index : Z) : M unit :=
  set_self (set_page_state PAGE_STATE_LOADING) ;;
  _ <- conn_command "Page.navigateToHistoryEntry" [("entryId", PInt index)] ;;
  ret tt.

(** [self.chrome_conn.set_dialog_handler(dialog_handler)] *)
Definition set_dialog_handler : M unit :=
  o <- get_self ;;
  match chrome_conn o with
  | Obj _ => emit SetDialogHandler
  | Unset | IsNone => raise AttributeError
  end.

(** [dom_analyzer_source] is what [get_dom_analyzer_source] reads from the
    JavaScript files shipped with the package. *)
Definition set_chrome_settings (dom_analyzer_source : string) : M unit :=
  _ <- conn_command "Security.setIgnoreCertificateErrors" [("ignore", PBool true)] ;;
  _ <- conn_command "Page.setBypassCSP" [("enabled", PBool false)] ;;
  _ <- conn_command "Page.setDownloadBehavior" [("behavior", PStr "deny")] ;;
  _ <- conn_command "Page.addScriptToEvaluateOnNewDocument"
         [("source", PStr dom_analyzer_source)] ;;
  set_dialog_handler ;;
  _ <- conn_command "Page.enable" [] ;;
  _ <- conn_command "Page.setLifecycleEventsEnabled" [("enabled", PBool true)] ;;
  _ <- conn_command "Runtime.enable" [] ;;
  ret tt.

(* ===================================================================== *)
(** ** Evaluating JavaScript *)
(* ===================================================================== *)

(** The checks [_js_runtime_evaluate] makes on the answer of
    [Runtime.evaluate]. *)
Definition decode_evaluate_result (answer : pyval) : result pyval :=
  match answer with
  | PNone => Ok PNone
  | _ =>
    and_then (py_in "result" answer) (fun has_result =>
    if negb has_result then Ok PNone
    else
      and_then (py_getitem answer "result") (fun outer =>
      and_then (py_in "result" outer) (fun has_inner =>
      if negb has_inner then Ok PNone
      else
        and_then (py_getitem outer "result") (fun inner =>
        and_then (py_in "value" inner) (fun has_value =>
        if negb has_value then Ok PNone
        else py_getitem inner "value")))))
  end.

(** The keyword arguments of the [Runtime.evaluate] call. *)
Definition evaluate_params (expression : string) (timeout : Z) : list (string * pyval) :=
  [("expression", PStr expression);
   ("returnByValue", PBool true);
   ("generatePreview", PBool true);
   ("awaitPromise", PBool true);
   ("timeout", PInt (timeout * 1000))].

Definition _js_runtime_evaluate (expression : string) (timeout : Z) : M pyval :=
  result <- conn_command "Runtime.evaluate" (evaluate_params expression timeout) ;;
  lift (decode_evaluate_result result).

Definition get_js_variable_value (variable_name : string) : M pyval :=
  _js_runtime_evaluate variable_name 5.

(** [get_dom] looks at [exceptionDetails] before it reads the value. *)
Definition get_dom : M pyval :=
  result <- conn_command "Runtime.evaluate"
              [("expression", PStr "document.documentElement.outerHTML")] ;;
  match result with
  | PNone => ret PNone
  | PDict d =>
      let outer := match dict_get "result" d with Some x => x | None => PDict [] end in
      match outer with
      | PDict od =>
          let exception_details :=
            match dict_get "exceptionDetails" od with Some x => x | None => PDict [] end in
          let raised :=
            match exception_details with
            | PNone | PBool false | PInt 0 | PStr EmptyString | PList [] | PDict [] => false
            | _ => true
            end in
          if raised then ret PNone
          else
            r1 <- lift (py_getitem result "result") ;;
            r2 <- lift (py_getitem r1 "result") ;;
            lift (py_getitem r2 "value")
      | _ => raise AttributeError
      end
  | _ => raise AttributeError
  end.

(* ===================================================================== *)
(** ** Input validation and event dispatch *)
(* ===================================================================== *)

Definition ascii_between (lo hi c : ascii) : bool :=
  (nat_of_ascii lo <=? nat_of_ascii c)%nat && (nat_of_ascii c <=? nat_of_ascii hi)%nat.

(** The character class [[a-zA-Z.]] of [EVENT_TYPE_RE]. *)
Definition EVENT_TYPE_class (c : ascii) : bool :=
  ascii_between "a" "z" c || ascii_between "A" "Z" c || Ascii.eqb c ".".

(** The longest prefix of [s] made of characters of the class. *)
Fixpoint span (cls : ascii -> bool) (s : string) : string :=
  match s with
  | EmptyString => EmptyString
  | String c s' => if cls c then String c (span cls s') else EmptyString
  end.

(** [re.compile('[cls]+').match(s)]: the match starts at position 0, takes
    the longest run of class characters and needs at least one; nothing is
    asked of what follows the run.  The answer is the matched text or
    [None]. *)
Definition re_match_plus (cls : ascii -> bool) (s : string) : option string :=
  match span cls s with
  | EmptyString => None
  | matched => Some matched
  end.

Definition EVENT_TYPE_RE_match : string -> option string := re_match_plus EVENT_TYPE_class.

(** [bool(self.EVENT_TYPE_RE.match(event_type))]: a match object is true. *)
Definition _is_valid_event_type (event_type : string) : bool :=
  match EVENT_TYPE_RE_match event_type with
  | Some _ => true
  | None => false
  end.

Definition double_quote : ascii := "034".
Definition backslash : ascii := "092".

(** [text.replace(double quote, backslash + double quote)] *)
Fixpoint _escape_js_string (text : string) : string :=
  match text with
  | EmptyString => EmptyString
  | String c text' =>
      if Ascii.eqb c double_quote
      then String backslash (String double_quote (_escape_js_string text'))
      else String c (_escape_js_string text')
  end.

Definition quoted (s : string) : string :=
  String double_quote (s ++ String double_quote EmptyString).

(** The call of [dispatchCustomEvent] on the page analyzer, with both
    arguments in double quotes. *)
Definition dispatch_cmd (selector event_type : string) : string :=
  "window._DOMAnalyzer.dispatchCustomEvent(" ++ quoted selector ++ ", "
    ++ quoted event_type ++ ")".

Definition dispatch_js_event (selector event_type : string) : M bool :=
  if negb (_is_valid_event_type event_type) then raise AssertionError
  else
    let selector := _escape_js_string selector in
    result <- _js_runtime_evaluate (dispatch_cmd selector event_type) 5 ;;
    match result with
    | PNone => raise EventTimeout
    | PBool false => raise EventException
    | _ => ret true
    end.

(* ===================================================================== *)
(** ** Event listener records *)
(* ===================================================================== *)

Module EventListener.

(** [self._event_as_dict.get(item)]: [None] when the field is absent. *)
Definition get (self : EventListener) (item : string) : result pyval :=
  match _event_as_dict self with
  | PDict d => Ok (match dict_get item d with Some v => v | None => PNone end)
  | _ => Raise AttributeError
  end.

Definition __getitem__ (self : EventListener) (item : string) : result pyval :=
  py_getitem (_event_as_dict self) item.

Definition __len__ (self : EventListener) : result Z :=
  py_len (_event_as_dict self).

Definition get_type_selector (self : EventListener) : result (pyval * pyval) :=
  match __getitem__ self "event_type" with
  | Raise e => Raise e
  | Ok t =>
      match __getitem__ self "selector" with
      | Raise e => Raise e
      | Ok s => Ok (t, s)
      end
  end.

(** The loop of [__eq__] over [self._event_as_dict.iteritems()]. *)
Fixpoint eq_items (items : list (string * pyval)) (other : EventListener) : result bool :=
  match items with
  | [] => Ok true
  | (key, value) :: items' =>
      match get other key with
      | Raise e => Raise e
      | Ok other_value =>
          if negb (py_eqb value other_value) then Ok false
          else eq_items items' other
      end
  end.

Definition __eq__ (self other : EventListener) : result bool :=
  match __len__ other with
  | Raise e => Raise e
  | Ok other_len =>
      match py_len (_event_as_dict self) with
      | Raise e => Raise e
      | Ok self_len =>
          if negb (other_len =? self_len) then Ok false
          else
            match _event_as_dict self with
            | PDict d => eq_items d other
            | _ => Raise AttributeError
            end
      end
  end.

End EventListener.

(* ===================================================================== *)
(** ** Pagination *)
(* ===================================================================== *)

(** [repr] of a [str]: single quotes unless the text has a single quote and
    no double quote; the quote and the backslash are escaped, tab, newline
    and carriage return are written symbolically and other bytes outside
    the printable range in hexadecimal. *)
Definition hex_digit (n : nat) : ascii :=
  match String.get n "0123456789abcdef" with Some c => c | None => "0"%char end.

Definition has_char (c : ascii) (s : string) : bool :=
  existsb (Ascii.eqb c) (list_ascii_of_string s).

Definition repr_char (quote c : ascii) : string :=
  let n := nat_of_ascii c in
  if Ascii.eqb c quote || Ascii.eqb c backslash then String backslash (String c EmptyString)
  else if Ascii.eqb c "009" then String backslash "t"
  else if Ascii.eqb c "010" then String backslash "n"
  else if Ascii.eqb c "013" then String backslash "r"
  else if (n <? 32)%nat || (127 <=? n)%nat then
    String backslash (String "x" (String (hex_digit (n / 16)) (String (hex_digit (n mod 16)) EmptyString)))
  else String c EmptyString.

Definition repr_str (s : string) : string :=
  let quote : ascii :=
    if has_char "'" s && negb (has_char double_quote s) then double_quote else "'"%char in
  String quote
    (String.concat EmptyString (map (repr_char quote) (list_ascii_of_string s))
       ++ String quote EmptyString).

Definition repr_list (l : list string) : string :=
  "[" ++ String.concat ", " (map repr_str l) ++ "]".

(** [repr(list(event_filter or []))] *)
Definition repr_filter (filter : option (list string)) : string :=
  repr_list (match filter with Some l => l | None => [] end).

Definition analyzer_call (function : string) (event_filter tag_name_filter : option (list string))
    (start count : Z) : string :=
  "window._DOMAnalyzer." ++ function ++ "(" ++ repr_filter event_filter ++ ", "
    ++ repr_filter tag_name_filter ++ ", " ++ fmt_int start ++ ", " ++ fmt_int count ++ ")".

(** The two page fetchers differ in the analyzer function they call. *)
Definition event_listeners_page (function : string)
    (event_filter tag_name_filter : option (list string)) (start count : Z)
  : M (list EventListener) :=
  event_listeners <- get_js_variable_value
                       (analyzer_call function event_filter tag_name_filter start count) ;;
  match event_listeners with
  | PNone => ret []
  | _ =>
      items <- lift (py_iter event_listeners) ;;
      ret (map Build_EventListener items)
  end.

Definition get_js_event_listeners_paginated (start count : Z)
    (event_filter tag_name_filter : option (list string)) : M (list EventListener) :=
  event_listeners_page "getEventListeners" event_filter tag_name_filter start count.

Definition get_html_event_listeners_paginated (start count : Z)
    (event_filter tag_name_filter : option (list string)) : M (list EventListener) :=
  event_listeners_page "getElementsWithEventHandlers" event_filter tag_name_filter start count.

Fixpoint yield_all (items : list EventListener) : M unit :=
  match items with
  | [] => ret tt
  | item :: items' => emit (Yield item) ;; yield_all items'
  end.

(** The [while True] loop of [_paginate] for a page size [page_count],
    unrolled at most [fuel] times.  [functor start page_count] answers with
    the items of one page.  The result is [true] when the loop reached its
    [break] and [false] when the fuel ran out first. *)
Fixpoint paginate_from (page_count : Z) (fuel : nat)
    (functor : Z -> Z -> M (list EventListener)) (start : Z) : M bool :=
  match fuel with
  | O => ret false
  | S fuel' =>
      page <- functor start page_count ;;
      yield_all page ;;
      let page_items := Z.of_nat (List.length page) in
      if page_items <? page_count then ret true
      else paginate_from page_count fuel' functor (start + page_count)
  end.

Definition _paginate (fuel : nat) (functor : Z -> Z -> M (list EventListener)) : M bool :=
  paginate_from PAGINATION_PAGE_COUNT fuel functor 0.

Definition get_js_event_listeners_iter (fuel : nat)
    (event_filter tag_name_filter : option (list string)) : M bool :=
  _paginate fuel
    (fun start count => get_js_event_listeners_paginated start count event_filter tag_name_filter).

Definition get_html_event_listeners_iter (fuel : nat)
    (event_filter tag_name_filter : option (list string)) : M bool :=
  _paginate fuel
    (fun start count => get_html_event_listeners_paginated start count event_filter tag_name_filter).

(** A page-fetch function over a fixed dataset: the call is recorded and
    answers with the items at positions [start .. start + count - 1] that
    exist. *)
Definition serve_page (data : list EventListener) (start count : Z) : M (list EventListener) :=
  emit (Fetch start count) ;;
  ret (firstn (Z.to_nat count) (skipn (Z.to_nat start) data)).

(** The items yielded and the fetches made, read off the effects. *)
Fixpoint yielded (es : list effect) : list EventListener :=
  match es with
  | [] => []
  | Yield item :: es' => item :: yielded es'
  | _ :: es' => yielded es'
  end.

Fixpoint fetches (es : list effect) : list (Z * Z) :=
  match es with
  | [] => []
  | Fetch start count :: es' => (start, count) :: fetches es'
  | _ :: es' => fetches es'
  end.

Definition is_evaluate (e : effect) : bool :=
  match e with
  | Command method _ => String.eqb method "Runtime.evaluate"
  | _ => false
  end.

Definition ceil_div (n p : Z) : Z := (n + p - 1) / p.

(* ===================================================================== *)
(** ** Teardown *)
(* ===================================================================== *)

Definition set_proxy (v : attr LoggingProxy) (o : InstrumentedChrome) :=
  {| _frame_stopped_loading_event := _frame_stopped_loading_event o;
     _frame_scheduled_navigation := _frame_scheduled_navigation o;
     _network_almost_idle_event := _network_almost_idle_event o;
     _execution_context_created := _execution_context_created o;
     _page_state := _page_state o;
     id := id o; debugging_id := debugging_id o;
     proxy := v; chrome_process := chrome_process o;
     chrome_conn := chrome_conn o |}.

Definition set_chrome_process (v : attr ChromeProcess) (o : InstrumentedChrome) :=
  {| _frame_stopped_loading_event := _frame_stopped_loading_event o;
     _frame_scheduled_navigation := _frame_scheduled_navigation o;
     _network_almost_idle_event := _network_almost_idle_event o;
     _execution_context_created := _execution_context_created o;
     _page_state := _page_state o;
     id := id o; debugging_id := debugging_id o;
     proxy := proxy o; chrome_process := v;
     chrome_conn := chrome_conn o |}.

Definition set_chrome_conn (v : attr DebugChromeInterface) (o : InstrumentedChrome) :=
  {| _frame_stopped_loading_event := _frame_stopped_loading_event o;
     _frame_scheduled_navigation := _frame_scheduled_navigation o;
     _network_almost_idle_event := _network_almost_idle_event o;
     _execution_context_created := _execution_context_created o;
     _page_state := _page_state o;
     id := id o; debugging_id := debugging_id o;
     proxy := proxy o; chrome_process := chrome_process o;
     chrome_conn := v |}.

(** [get_pid]: the attribute is read before it is compared with [None]. *)
Definition get_pid (o : InstrumentedChrome) : result (option Z) :=
  match chrome_process o with
  | Unset => Raise AttributeError
  | IsNone => Ok None
  | Obj p => Ok (get_parent_pid p)
  end.

(** [__str__]: each [is not None] test reads its attribute first. *)
Definition __str__ (o : InstrumentedChrome) : result string :=
  match proxy o with
  | Unset => Raise AttributeError
  | proxy_attr =>
      let proxy_port :=
        match proxy_attr with Obj p => Some (get_bind_port p) | _ => None end in
      match chrome_process o with
      | Unset => Raise AttributeError
      | process_attr =>
          let devtools_port :=
            match process_attr with Obj p => Some (get_devtools_port p) | _ => None end in
          match get_pid o with
          | Raise e => Raise e
          | Ok pid =>
              Ok ("<InstrumentedChrome (id:" ++ id o
                    ++ ", proxy:" ++ fmt_opt_int proxy_port
                    ++ ", process_id: " ++ fmt_opt_int pid
                    ++ ", devtools:" ++ fmt_opt_int devtools_port ++ ")>")
          end
      end
  end.

Definition logging_CRITICAL : Z := 50.

Definition set_logging_disable (level : Z) : M unit :=
  fun w => (Ok tt, {| self := self w;
                      effects := effects w ++ [LoggingDisable level];
                      logging_disable := level |}).

(** [with AllLoggingDisabled(): body].  [__exit__] restores the level and
    answers [False], so what the body raised goes on. *)
Definition AllLoggingDisabled (body : M unit) : M unit :=
  fun w =>
    let previous_level := logging_disable w in
    match set_logging_disable logging_CRITICAL w with
    | (_, w1) =>
        match body w1 with
        | (r, w2) => (r, snd (set_logging_disable previous_level w2))
        end
    end.

(** A method call on an attribute that may be missing or [None]. *)
Definition attr_call {A : Type} (a : attr A) (called : effect) (answer : A -> result unit)
  : M unit :=
  match a with
  | Obj x => emit called ;; lift (answer x)
  | Unset | IsNone => raise AttributeError
  end.

Definition terminate : M unit :=
  o <- get_self ;;
  text <- lift (__str__ o) ;;
  emit (Debug ("Terminating " ++ text ++ " (did: " ++ fmt_opt_str (debugging_id o) ++ ")")) ;;
  try_except
    (attr_call (proxy o) ProxyStop proxy_stop)
    (fun e => emit (DebugFailure "Failed to stop proxy server" e)) ;;
  try_except
    (AllLoggingDisabled (attr_call (chrome_conn o) ConnClose conn_close))
    (fun e => emit (DebugFailure "Failed to close chrome connection" e)) ;;
  try_except
    (attr_call (chrome_process o) ProcessTerminate process_terminate)
    (fun e => emit (DebugFailure "Failed to terminate chrome process" e)) ;;
  set_self (set_proxy IsNone) ;;
  set_self (set_chrome_process IsNone) ;;
  set_self (set_chrome_conn IsNone) ;;
  set_self (set_page_state PAGE_STATE_NONE).

(* ===================================================================== *)
(** ** Runs of the controller *)
(* ===================================================================== *)

(** The attributes as [__init__] leaves them once the three collaborators
    are up. *)
Definition constructed (ident : string) (p : LoggingProxy) (cp : ChromeProcess)
    (c : DebugChromeInterface) : InstrumentedChrome :=
  {| _frame_stopped_loading_event := None;
     _frame_scheduled_navigation := None;
     _network_almost_idle_event := None;
     _execution_context_created := None;
     _page_state := PAGE_STATE_NONE;
     id := ident; debugging_id := None;
     proxy := Obj p; chrome_process := Obj cp; chrome_conn := Obj c |}.

Definition world_of (o : InstrumentedChrome) : world :=
  {| self := o; effects := []; logging_disable := 0 |}.

(** What can happen to a controller between construction and teardown: the
    caller's navigation commands and the events the connection delivers. *)
Inductive action : Type :=
| DoLoadUrl (url : string)
| DoNavigateToHistoryIndex (index : Z)
| DoStop
| Event (message : pyval).

Definition perform (a : action) : M unit :=
  match a with
  | DoLoadUrl url => load_url url
  | DoNavigateToHistoryIndex index => navigate_to_history_index index
  | DoStop => stop
  | Event message => _page_state_handler message
  end.

(** An exception ends the call that raised it; the attributes keep what the
    call had assigned so far. *)
Fixpoint run (actions : list action) (w : world) : world :=
  match actions with
  | [] => w
  | a :: actions' => run actions' (snd (perform a w))
  end.

Definition deliver (messages : list pyval) (w : world) : world :=
  run (map Event messages) w.




Definition all_flags (o : InstrumentedChrome) : bool :=
  truthy (_network_almost_idle_event o)
  && truthy (_frame_stopped_loading_event o)
  && truthy (_execution_context_created o).

(** The kinds of message the handlers know. *)
Definition method_is (name : string) (message : pyval) : Prop :=
  exists d, message = PDict d /\ dict_get "method" d = Some (PStr name).

Definition navigation_scheduled (message : pyval) : Prop :=
  method_is "Page.frameScheduledNavigation" message.

Definition frame_stopped_loading (message : pyval) : Prop :=
  method_is "Page.frameStoppedLoading" message.

Definition execution_context_created (message : pyval) : Prop :=
  method_is "Runtime.executionContextCreated" message.

Definition network_almost_idle (message : pyval) : Prop :=
  exists d params,
    message = PDict d
    /\ dict_get "method" d = Some (PStr "Page.lifecycleEvent")
    /\ dict_get "params" d = Some (PDict params)
    /\ dict_get "name" params = Some (PStr "networkAlmostIdle").

(** The transition table of the page lifecycle, row by row, as functions on
    the attributes; the handlers are compared with it below. *)
Definition with_self (w : world) (o : InstrumentedChrome) : world :=
  {| self := o; effects := effects w; logging_disable := logging_disable w |}.

Definition join (o : InstrumentedChrome) : InstrumentedChrome :=
  if all_flags o then set_page_state PAGE_STATE_LOADED o else o.

Definition on_navigation_scheduled (o : InstrumentedChrome) : InstrumentedChrome :=
  set_page_state PAGE_STATE_LOADING
    (set_execution_context_created (Some false)
       (set_network_almost_idle_event (Some false)
          (set_frame_stopped_loading_event (Some false)
             (set_frame_scheduled_navigation (Some true) o)))).

Definition on_frame_stopped_loading (o : InstrumentedChrome) : InstrumentedChrome :=
  join (set_frame_stopped_loading_event (Some true)
          (set_frame_scheduled_navigation (Some false) o)).

Definition on_network_almost_idle (o : InstrumentedChrome) : InstrumentedChrome :=
  join (set_network_almost_idle_event (Some true)
          (set_frame_scheduled_navigation (Some false) o)).

Definition on_execution_context_created (o : InstrumentedChrome) : InstrumentedChrome :=
  join (set_execution_context_created (Some true)
          (set_frame_scheduled_navigation (Some false) o)).

(** The four lifecycle flags together. *)
Definition page_flags (o : InstrumentedChrome)
  : option bool * option bool * option bool * option bool :=
  (_frame_stopped_loading_event o, _frame_scheduled_navigation o,
   _network_almost_idle_event o, _execution_context_created o).

(** Messages the handlers have no row for. *)
Definition missing_method (message : pyval) : Prop :=
  exists d, message = PDict d /\ dict_get "method" d = None.

Definition lifecycle_missing_params (message : pyval) : Prop :=
  exists d,
    message = PDict d
    /\ dict_get "method" d = Some (PStr "Page.lifecycleEvent")
    /\ dict_get "params" d = None.

Definition lifecycle_missing_name (message : pyval) : Prop :=
  exists d params,
    message = PDict d
    /\ dict_get "method" d = Some (PStr "Page.lifecycleEvent")
    /\ dict_get "params" d = Some (PDict params)
    /\ dict_get "name" params = None.

Definition unrecognized_method (message : pyval) : Prop :=
  exists d v,
    message = PDict d
    /\ dict_get "method" d = Some v
    /\ py_eq_str v "Page.frameScheduledNavigation" = false
    /\ py_eq_str v "Page.frameStoppedLoading" = false
    /\ py_eq_str v "Page.lifecycleEvent" = false
    /\ py_eq_str v "Runtime.executionContextCreated" = false.




(** The [Page.setBypassCSP] commands among the effects. *)
Definition is_bypass_csp (e : effect) : bool :=
  match e with
  | Command method _ => String.eqb method "Page.setBypassCSP"
  | _ => false
  end.

(** The value [other.get(key)] compares with, for a dict. *)
Definition get_or_none (key : string) (d : list (string * pyval)) : pyval :=
  match dict_get key d with Some v => v | None => PNone end.

(** A field value that is a string, a number or a boolean. *)
Definition is_plain (v : pyval) : bool :=
  match v with
  | PBool _ | PInt _ | PStr _ => true
  | PNone | PList _ | PDict _ => false
  end.

(** A field mapping with no key twice and plain values only. *)
Definition plain_fields (d : list (string * pyval)) : Prop :=
  NoDup (map fst d) /\ Forall (fun kv => is_plain (snd kv) = true) d.

(** ** Sample data *)

Definition sample_proxy : LoggingProxy :=
  {| get_bind_port := 44444; proxy_stop := Ok tt |}.

Definition sample_process : ChromeProcess :=
  {| get_devtools_port := 9222; get_parent_pid := Some 4321; process_terminate := Ok tt |}.

Definition sample_conn : DebugChromeInterface :=
  {| send := fun _ _ => Ok PNone; conn_close := Ok tt |}.

Definition sample_chrome : InstrumentedChrome :=
  constructed "a1b2c3d4" sample_proxy sample_process sample_conn.

Definition sample_world : world := world_of sample_chrome.

Definition msg_navigation_scheduled : pyval :=
  PDict [("method", PStr "Page.frameScheduledNavigation");
         ("params", PDict [("frameId", PStr "F1"); ("delay", PInt 0)])].

Definition msg_frame_stopped_loading : pyval :=
  PDict [("method", PStr "Page.frameStoppedLoading");
         ("params", PDict [("frameId", PStr "F1")])].

Definition msg_network_almost_idle : pyval :=
  PDict [("method", PStr "Page.lifecycleEvent");
         ("params", PDict [("frameId", PStr "F1"); ("name", PStr "networkAlmostIdle")])].

Definition msg_execution_context_created : pyval :=
  PDict [("method", PStr "Runtime.executionContextCreated");
         ("params", PDict [("context", PDict [("id", PInt 1)])])].

Definition msg_request_will_be_sent : pyval :=
  PDict [("method", PStr "Network.requestWillBeSent");
         ("params", PDict [("requestId", PStr "R1")])].

Definition msg_without_method : pyval :=
  PDict [("id", PInt 7); ("result", PDict [])].

(** The answer of [Runtime.evaluate] when the expression evaluates to
    [value]. *)
Definition value_response (value : pyval) : pyval :=
  PDict [("id", PInt 1);
         ("result", PDict [("result", PDict [("type", PStr "object"); ("value", value)])])].

(** The answer of [Runtime.evaluate] for [throw 1]: the thrown value is the
    result, and [exceptionDetails] says that it was thrown. *)
Definition thrown_response : pyval :=
  PDict [("id", PInt 1);
         ("result",
          PDict [("result", PDict [("type", PStr "number"); ("value", PInt 1);
                                   ("description", PStr "1")]);
                 ("exceptionDetails",
                  PDict [("exceptionId", PInt 1); ("text", PStr "Uncaught");
                         ("lineNumber", PInt 0); ("columnNumber", PInt 0)])])].

Definition throwing_conn : DebugChromeInterface :=
  {| send := fun _ _ => Ok thrown_response; conn_close := Ok tt |}.

Definition throwing_world : world :=
  world_of (constructed "a1b2c3d4" sample_proxy sample_process throwing_conn).

(** An event type that starts with letters and goes on with JavaScript. *)
Definition injected_event_type : string :=
  "click" ++ String double_quote ");alert(1);//".

Definition true_conn : DebugChromeInterface :=
  {| send := fun _ _ => Ok (value_response (PBool true)); conn_close := Ok tt |}.

Definition true_world : world :=
  world_of (constructed "a1b2c3d4" sample_proxy sample_process true_conn).

(** A string made of class characters only. *)
Definition all_in_class (cls : ascii -> bool) (s : string) : bool :=
  forallb cls (list_ascii_of_string s).

(** The teardown calls among the effects, and the calls [terminate] owes to
    the collaborators a controller holds. *)
Definition is_teardown (e : effect) : bool :=
  match e with
  | ProxyStop | ConnClose | ProcessTerminate => true
  | _ => false
  end.

Definition call_if_held {A : Type} (a : attr A) (called : effect) : list effect :=
  match a with
  | Obj _ => [called]
  | Unset | IsNone => []
  end.

Definition teardown_calls (o : InstrumentedChrome) : list effect :=
  call_if_held (proxy o) ProxyStop
    ++ call_if_held (chrome_conn o) ConnClose
    ++ call_if_held (chrome_process o) ProcessTerminate.

Definition torn_down (o : InstrumentedChrome) : Prop :=
  proxy o = IsNone /\ chrome_process o = IsNone /\ chrome_conn o = IsNone
  /\ _page_state o = PAGE_STATE_NONE.

(** Collaborators whose teardown calls all fail. *)
Definition failing_proxy : LoggingProxy :=
  {| get_bind_port := 44444; proxy_stop := Raise (OtherException "socket.error") |}.

Definition failing_process : ChromeProcess :=
  {| get_devtools_port := 9222; get_parent_pid := Some 4321;
     process_terminate := Raise (OtherException "OSError") |}.

Definition failing_conn : DebugChromeInterface :=
  {| send := fun _ _ => Ok PNone;
     conn_close := Raise (OtherException "WebSocketConnectionClosedException") |}.

Definition failing_world : world :=
  world_of (constructed "a1b2c3d4" failing_proxy failing_process failing_conn).

(** [__init__] left when [start_chrome_process] raised: the proxy runs, the
    process and the connection were never assigned. *)
Definition construction_failed_at_process : InstrumentedChrome :=
  {| _frame_stopped_loading_event := None;
     _frame_scheduled_navigation := None;
     _network_almost_idle_event := None;
     _execution_context_created := None;
     _page_state := PAGE_STATE_NONE;
     id := "a1b2c3d4"; debugging_id := None;
     proxy := Obj sample_proxy; chrome_process := Unset; chrome_conn := Unset |}.

(** [__init__] left when [connect_to_chrome] raised. *)
Definition construction_failed_at_connection : InstrumentedChrome :=
  {| _frame_stopped_loading_event := None;
     _frame_scheduled_navigation := None;
     _network_almost_idle_event := None;
     _execution_context_created := None;
     _page_state := PAGE_STATE_NONE;
     id := "a1b2c3d4"; debugging_id := None;
     proxy := Obj sample_proxy; chrome_process := Obj sample_process;
     chrome_conn := Unset |}.

(** The world after more effects. *)
Definition add_effects (w : world) (es : list effect) : world :=
  {| self := self w; effects := effects w ++ es; logging_disable := logging_disable w |}.

(** The number of items a fetch at [start] for [count] items gets from
    [data]. *)
Definition page_length (data : list EventListener) (start count : Z) : Z :=
  Z.of_nat (List.length (firstn (Z.to_nat count) (skipn (Z.to_nat start) data))).

(** The cursors of the first [n] fetches. *)
Definition cursors (start page_count : Z) (n : nat) : list (Z * Z) :=
  map (fun i => (start + Z.of_nat i * page_count, page_count)) (seq 0 n).

Definition sample_item (n : Z) : EventListener :=
  {| _event_as_dict :=
       PDict [("event_type", PStr "click"); ("tag_name", PStr "a"); ("node_id", PInt n)] |}.

Definition five_items : list EventListener :=
  map sample_item [1; 2; 3; 4; 5].

Definition forty_items : list EventListener :=
  map sample_item (map Z.of_nat (seq 0 40)).

(** A connection that serves the first page of twenty listeners and then
    answers nothing, as on a timeout. *)
Definition twenty_listeners : list pyval :=
  map (fun n => PDict [("event_type", PStr "click"); ("tag_name", PStr "a");
                       ("node_id", PInt (Z.of_nat n))])
      (seq 0 20).

Definition flaky_conn : DebugChromeInterface :=
  {| send := fun _ params =>
       match dict_get "expression" params with
       | Some (PStr e) =>
           if String.eqb e (analyzer_call "getEventListeners" None None 0 20)
           then Ok (value_response (PList twenty_listeners))
           else Ok PNone
       | _ => Ok PNone
       end;
     conn_close := Ok tt |}.

Definition flaky_world : world :=
  world_of (constructed "a1b2c3d4" sample_proxy sample_process flaky_conn).

(** A connection whose analyzer has nothing to list. *)
Definition empty_conn : DebugChromeInterface :=
  {| send := fun _ _ => Ok (value_response (PList [])); conn_close := Ok tt |}.

Definition empty_world : world :=
  world_of (constructed "a1b2c3d4" sample_proxy sample_process empty_conn).

(** Two listener records of three fields each: one has a handler field
    holding [None], the other a text field. *)
Definition listener_with_null : EventListener :=
  {| _event_as_dict :=
       PDict [("event_type", PStr "click"); ("selector", PStr "#go"); ("handler", PNone)] |}.

Definition listener_with_text : EventListener :=
  {| _event_as_dict :=
       PDict [("event_type", PStr "click"); ("selector", PStr "#go");
              ("text_content", PStr "Go")] |}.

Definition listener_reordered : EventListener :=
  {| _event_as_dict :=
       PDict [("handler", PNone); ("selector", PStr "#go"); ("event_type", PStr "click")] |}.

(** Values in which no dict, at any depth, has a key twice. *)
Inductive wf_pyval : pyval -> Prop :=
| wf_none : wf_pyval PNone
| wf_bool (b : bool) : wf_pyval (PBool b)
| wf_int (z : Z) : wf_pyval (PInt z)
| wf_str (s : string) : wf_pyval (PStr s)
| wf_list (l : list pyval) : Forall wf_pyval l -> wf_pyval (PList l)
| wf_dict (d : list (string * pyval)) :
    NoDup (map fst d) -> Forall (fun kv => wf_pyval (snd kv)) d -> wf_pyval (PDict d).

(** Induction on values that reaches into lists and dicts. *)
Fixpoint pyval_rect_nested (P : pyval -> Prop)
    (HNone : P PNone) (HBool : forall b, P (PBool b)) (HInt : forall z, P (PInt z))
    (HStr : forall s, P (PStr s))
    (HList : forall l, Forall P l -> P (PList l))
    (HDict : forall d, Forall (fun kv => P (snd kv)) d -> P (PDict d))
    (v : pyval) {struct v} : P v :=
  match v with
  | PNone => HNone
  | PBool b => HBool b
  | PInt z => HInt z
  | PStr s => HStr s
  | PList l =>
      HList l
        ((fix go (l : list pyval) : Forall P l :=
            match l with
            | [] => Forall_nil P
            | x :: l' =>
                Forall_cons x
                  (pyval_rect_nested P HNone HBool HInt HStr HList HDict x) (go l')
            end) l)
  | PDict d =>
      HDict d
        ((fix go (d : list (string * pyval)) : Forall (fun kv => P (snd kv)) d :=
            match d with
            | [] => Forall_nil _
            | kv :: d' =>
                Forall_cons kv
                  (pyval_rect_nested P HNone HBool HInt HStr HList HDict (snd kv)) (go d')
            end) d)
  end.

(** [stop], then one full page load as the events report it. *)
Definition stopped_then_loaded : list action :=
  [DoStop;
   Event msg_navigation_scheduled;
   Event msg_execution_context_created;
   Event msg_frame_stopped_loading;
   Event msg_network_almost_idle].

(** One full page load followed by a second [load_url]. *)
Definition second_load : list action :=
  [DoLoadUrl "http://example.test/";
   Event msg_navigation_scheduled;
   Event msg_execution_context_created;
   Event msg_frame_stopped_loading;
   Event msg_network_almost_idle;
   DoLoadUrl "http://example.test/next"].

(* ===================================================================== *)
(** ** Further methods of the controller *)
(* ===================================================================== *)

Definition IndexError : pyexn := OtherException "IndexError".
Definition ConnectionError : pyexn := OtherException "ConnectionError".

(** [from requests import ConnectionError]: an exception is named by its
    class, and [except ConnectionError] catches the class and the classes
    that derive from it, which in [requests.exceptions] are these three. *)
Definition ConnectionError_subclasses : list string :=
  ["ProxyError"; "SSLError"; "ConnectTimeout"].

Definition is_ConnectionError (e : pyexn) : bool :=
  match e with
  | OtherException name =>
      String.eqb name "ConnectionError"
      || existsb (String.eqb name) ConnectionError_subclasses
  | _ => false
  end.

(** [l[i]] for an integer subscript: a negative subscript counts from the
    end, one outside the list raises [IndexError]. *)
Definition py_index_list (l : list pyval) (i : Z) : result pyval :=
  let n := Z.of_nat (List.length l) in
  let j := if i <? 0 then i + n else i in
  if (j <? 0) || (n <=? j) then Raise IndexError
  else
    match nth_error l (Z.to_nat j) with
    | Some x => Ok x
    | None => Raise IndexError
    end.

(** [v[key]] for a subscript that is itself a decoded value.  A boolean
    subscript is the integer 0 or 1; a list or a dict cannot be a key. *)
Definition py_subscript (v key : pyval) : result pyval :=
  match v, key with
  | PList l, PInt i => py_index_list l i
  | PList l, PBool b => py_index_list l (Z.b2z b)
  | PList _, _ => Raise TypeError
  | PDict d, PStr k => py_getitem (PDict d) k
  | PDict _, (PList _ | PDict _) => Raise TypeError
  | PDict _, _ => Raise KeyError
  | PStr s, PInt i =>
      py_index_list (map (fun c => PStr (String c EmptyString)) (list_ascii_of_string s)) i
  | PStr s, PBool b =>
      py_index_list (map (fun c => PStr (String c EmptyString)) (list_ascii_of_string s))
        (Z.b2z b)
  | _, _ => Raise TypeError
  end.


Definition get_navigation_history : M pyval :=
  result <- conn_command "Page.getNavigationHistory" [] ;;
  lift (py_getitem result "result").

Definition get_navigation_history_index : M pyval :=
  navigation_history <- get_navigation_history ;;
  entries <- lift (py_getitem navigation_history "entries") ;;
  index <- lift (py_getitem navigation_history "currentIndex") ;;
  entry <- lift (py_subscript entries index) ;;
  lift (py_getitem entry "id").

Definition capture_screenshot : M pyval :=
  response <- conn_command "Page.captureScreenshot" [] ;;
  r1 <- lift (py_getitem response "result") ;;
  lift (py_getitem r1 "data").

Definition get_js_errors : M pyval := get_js_variable_value "window.errors".

(** The timer listings return what the evaluation gave, as it is. *)
Definition timers_call (function : string) (start count : Z) : string :=
  "window._DOMAnalyzer." ++ function ++ "(" ++ fmt_int start ++ ", " ++ fmt_int count ++ ")".

Definition get_js_set_timeouts_paginated (start count : Z) : M pyval :=
  get_js_variable_value (timers_call "getSetTimeouts" start count).

Definition get_js_set_intervals_paginated (start count : Z) : M pyval :=
  get_js_variable_value (timers_call "getSetIntervals" start count).

(** [list(self._paginate(functor))]: the loop of [_paginate] run to its end
    by [list], which keeps the items.  [functor start page_count] answers
    with the items the [for] statement gets from one page.  The result is
    [None] when the fuel ran out before the [break]. *)
Fixpoint list_paginate_from {A : Type} (page_count : Z) (fuel : nat)
    (functor : Z -> Z -> M (list A)) (start : Z) : M (option (list A)) :=
  match fuel with
  | O => ret None
  | S fuel' =>
      page <- functor start page_count ;;
      let page_items := Z.of_nat (List.length page) in
      if page_items <? page_count then ret (Some page)
      else
        rest <- list_paginate_from page_count fuel' functor (start + page_count) ;;
        ret (option_map (fun items => page ++ items)%list rest)
  end.

Definition list_paginate {A : Type} (fuel : nat) (functor : Z -> Z -> M (list A))
  : M (option (list A)) :=
  list_paginate_from PAGINATION_PAGE_COUNT fuel functor 0.

(** The [for] statement of [_paginate] over what a timer listing returned. *)
Definition iterate (page : M pyval) : M (list pyval) :=
  value <- page ;;
  lift (py_iter value).

Definition get_js_set_timeouts (fuel : nat) : M (option (list pyval)) :=
  list_paginate fuel (fun start count => iterate (get_js_set_timeouts_paginated start count)).

Definition get_js_set_intervals (fuel : nat) : M (option (list pyval)) :=
  list_paginate fuel (fun start count => iterate (get_js_set_intervals_paginated start count)).

Definition get_js_event_listeners (fuel : nat)
    (event_filter tag_name_filter : option (list string)) : M (option (list EventListener)) :=
  list_paginate fuel
    (fun start count =>
       get_js_event_listeners_paginated start count event_filter tag_name_filter).

Definition get_html_event_listeners (fuel : nat)
    (event_filter tag_name_filter : option (list string)) : M (option (list EventListener)) :=
  list_paginate fuel
    (fun start count =>
       get_html_event_listeners_paginated start count event_filter tag_name_filter).

(** The listeners set from JavaScript, then those set in HTML.  The result
    says whether both loops reached their [break]. *)
Definition get_all_event_listeners (fuel : nat)
    (event_filter tag_name_filter : option (list string)) : M bool :=
  finished <- get_js_event_listeners_iter fuel event_filter tag_name_filter ;;
  if finished then get_html_event_listeners_iter fuel event_filter tag_name_filter
  else ret false.

(** [d[key] = value] on the items of a dict: the value of an existing key
    is replaced where it stands, a new key goes to the end. *)
Fixpoint dict_set (key : string) (value : pyval) (d : list (string * pyval))
  : list (string * pyval) :=
  match d with
  | [] => [(key, value)]
  | (k, v) :: d' =>
      if String.eqb k key then (k, value) :: d' else (k, v) :: dict_set key value d'
  end.

Module EventListenerItems.

(** [self._event_as_dict[key] = value]; the answer is the record after the
    assignment. *)
Definition __setitem__ (self : EventListener) (key : string) (value : pyval)
  : result EventListener :=
  match _event_as_dict self with
  | PDict d => Ok {| _event_as_dict := PDict (dict_set key value d) |}
  | _ => Raise TypeError
  end.

End EventListenerItems.

(** No double quote stands in [s] without a backslash right before it;
    [escaped] says whether the character before [s] is a backslash. *)
Fixpoint quotes_follow_backslash (escaped : bool) (s : string) : bool :=
  match s with
  | EmptyString => true
  | String c s' =>
      (if Ascii.eqb c double_quote then escaped else true)
      && quotes_follow_backslash (Ascii.eqb c backslash) s'
  end.

Fixpoint count_char (c : ascii) (s : string) : nat :=
  match s with
  | EmptyString => O
  | String c' s' => (if Ascii.eqb c' c then 1 else 0) + count_char c s'
  end.


Definition is_yield (e : effect) : bool :=
  match e with Yield _ => true | _ => false end.

(** A navigation history as [Page.getNavigationHistory] answers it. *)
Definition history_answer (entries : list pyval) (current : Z) : pyval :=
  PDict [("id", PInt 3);
         ("result", PDict [("currentIndex", PInt current); ("entries", PList entries)])].

Definition history_entry (ident : Z) (url : string) : pyval :=
  PDict [("id", PInt ident); ("url", PStr url); ("userTypedURL", PStr url);
         ("title", PStr "page"); ("transitionType", PStr "typed")].

Definition sample_entries : list pyval :=
  [history_entry 1 "about:blank"; history_entry 3 "http://127.0.0.1:45571/";
   history_entry 5 "http://127.0.0.1:45571/a"].

Definition history_conn : DebugChromeInterface :=
  {| send := fun _ _ => Ok (history_answer sample_entries 2); conn_close := Ok tt |}.

Definition history_world : world :=
  world_of (constructed "a1b2c3d4" sample_proxy sample_process history_conn).

(** An answer with a result that has no value, and one with exception
    details. *)
Definition no_value_answer : pyval :=
  PDict [("id", PInt 1);
         ("result", PDict [("result", PDict [("type", PStr "undefined")])])].

Definition no_value_conn : DebugChromeInterface :=
  {| send := fun _ _ => Ok no_value_answer; conn_close := Ok tt |}.

Definition no_value_world : world :=
  world_of (constructed "a1b2c3d4" sample_proxy sample_process no_value_conn).

Definition not_yield (e : effect) : bool := negb (is_yield e).

(** The iterator and the list made from it end the same way: both reach the
    [break] with the same items, or both run out of fuel, or both raise the
    same exception. *)
Definition same_outcome (iterated : result bool)
    (listed : result (option (list EventListener))) (items : list EventListener) : Prop :=
  match iterated, listed with
  | Ok true, Ok (Some l) => l = items
  | Ok false, Ok None => True
  | Raise e, Raise e' => e = e'
  | _, _ => False
  end.

(** A connection that lists two listeners set from JavaScript and one set
    in HTML. *)
Definition js_listeners : list pyval :=
  [PDict [("event_type", PStr "click"); ("tag_name", PStr "a"); ("node_id", PInt 1)];
   PDict [("event_type", PStr "keyup"); ("tag_name", PStr "input"); ("node_id", PInt 2)]].

Definition html_listeners : list pyval :=
  [PDict [("event_type", PStr "click"); ("tag_name", PStr "div"); ("node_id", PInt 3)]].

Definition listing_conn : DebugChromeInterface :=
  {| send := fun _ params =>
       match dict_get "expression" params with
       | Some (PStr e) =>
           if String.eqb e (analyzer_call "getEventListeners" None None 0 20)
           then Ok (value_response (PList js_listeners))
           else if String.eqb e (analyzer_call "getElementsWithEventHandlers" None None 0 20)
           then Ok (value_response (PList html_listeners))
           else Ok PNone
       | _ => Ok PNone
       end;
     conn_close := Ok tt |}.

Definition listing_world : world :=
  world_of (constructed "a1b2c3d4" sample_proxy sample_process listing_conn).

(** A connection that refuses every command. *)
Definition refusing_conn : DebugChromeInterface :=
  {| send := fun _ _ => Raise (OtherException "ChromeInterfaceException");
     conn_close := Ok tt |}.

Definition refusing_world : world :=
  world_of (constructed "a1b2c3d4" sample_proxy sample_process refusing_conn).

(** The answer of [dispatch_js_event] for what the evaluation gave. *)
Definition dispatch_outcome (value : pyval) : result bool :=
  match value with
  | PNone => Raise EventTimeout
  | PBool false => Raise EventException
  | _ => Ok true
  end.

(* ===================================================================== *)
(** ** Construction *)
(* ===================================================================== *)

Definition set_id (v : string) (o : InstrumentedChrome) :=
  {| _frame_stopped_loading_event := _frame_stopped_loading_event o;
     _frame_scheduled_navigation := _frame_scheduled_navigation o;
     _network_almost_idle_event := _network_almost_idle_event o;
     _execution_context_created := _execution_context_created o;
     _page_state := _page_state o;
     id := v; debugging_id := debugging_id o;
     proxy := proxy o; chrome_process := chrome_process o;
     chrome_conn := chrome_conn o |}.

Definition set_debugging_id_attr (v : option string) (o : InstrumentedChrome) :=
  {| _frame_stopped_loading_event := _frame_stopped_loading_event o;
     _frame_scheduled_navigation := _frame_scheduled_navigation o;
     _network_almost_idle_event := _network_almost_idle_event o;
     _execution_context_created := _execution_context_created o;
     _page_state := _page_state o;
     id := id o; debugging_id := v;
     proxy := proxy o; chrome_process := chrome_process o;
     chrome_conn := chrome_conn o |}.

(** How the world outside answers when the controller brings up its
    collaborators: creating and starting the proxy, creating and starting
    the browser behind the proxy port, and opening the protocol connection
    to the devtools port. *)
Record environment : Type := {
  new_proxy : result LoggingProxy;
  new_chrome_process : Z -> result ChromeProcess;
  new_chrome_conn : Z -> result DebugChromeInterface
}.

Definition start_proxy (env : environment) : M LoggingProxy :=
  lift (new_proxy env).

Definition start_chrome_process (env : environment) : M ChromeProcess :=
  o <- get_self ;;
  match proxy o with
  | Obj p => lift (new_chrome_process env (get_bind_port p))
  | Unset | IsNone => raise AttributeError
  end.

(** [except ConnectionError] around the constructor of the connection. *)
Definition connect_to_chrome (env : environment) : M DebugChromeInterface :=
  o <- get_self ;;
  match chrome_process o with
  | Obj cp =>
      match new_chrome_conn env (get_devtools_port cp) with
      | Ok c => ret c
      | Raise e =>
          if is_ConnectionError e then raise InstrumentedChromeException
          else raise e
      end
  | Unset | IsNone => raise AttributeError
  end.

(** [ident] is what [rand_alnum(8)] gave. *)
Definition __init__ (env : environment) (ident dom_analyzer_source : string) : M unit :=
  set_self (set_frame_stopped_loading_event None) ;;
  set_self (set_frame_scheduled_navigation None) ;;
  set_self (set_network_almost_idle_event None) ;;
  set_self (set_execution_context_created None) ;;
  set_self (set_page_state PAGE_STATE_NONE) ;;
  set_self (set_id ident) ;;
  set_self (set_debugging_id_attr None) ;;
  p <- start_proxy env ;;
  set_self (set_proxy (Obj p)) ;;
  cp <- start_chrome_process env ;;
  set_self (set_chrome_process (Obj cp)) ;;
  c <- connect_to_chrome env ;;
  set_self (set_chrome_conn (Obj c)) ;;
  set_chrome_settings dom_analyzer_source.

(** What [connect_to_chrome] raises for what the constructor raised. *)
Definition connection_failure (e : pyexn) : pyexn :=
  if is_ConnectionError e then InstrumentedChromeException else e.

(** An object on which [__init__] has not run yet: no handle is assigned. *)
Definition unassigned (o : InstrumentedChrome) : Prop :=
  proxy o = Unset /\ chrome_process o = Unset /\ chrome_conn o = Unset.

Definition fresh_object : InstrumentedChrome :=
  {| _frame_stopped_loading_event := None;
     _frame_scheduled_navigation := None;
     _network_almost_idle_event := None;
     _execution_context_created := None;
     _page_state := PAGE_STATE_NONE;
     id := EmptyString; debugging_id := None;
     proxy := Unset; chrome_process := Unset; chrome_conn := Unset |}.

(** The commands of [set_chrome_settings]. *)
Definition settings_effects (dom_analyzer_source : string) : list effect :=
  [Command "Security.setIgnoreCertificateErrors" [("ignore", PBool true)];
   Command "Page.setBypassCSP" [("enabled", PBool false)];
   Command "Page.setDownloadBehavior" [("behavior", PStr "deny")];
   Command "Page.addScriptToEvaluateOnNewDocument" [("source", PStr dom_analyzer_source)];
   SetDialogHandler;
   Command "Page.enable" [];
   Command "Page.setLifecycleEventsEnabled" [("enabled", PBool true)];
   Command "Runtime.enable" []].

Definition working_environment : environment :=
  {| new_proxy := Ok sample_proxy;
     new_chrome_process := fun _ => Ok sample_process;
     new_chrome_conn := fun _ => Ok sample_conn |}.

Definition no_browser_environment : environment :=
  {| new_proxy := Ok sample_proxy;
     new_chrome_process := fun _ => Raise (OtherException "ChromeProcessException");
     new_chrome_conn := fun _ => Ok sample_conn |}.

Definition no_connection_environment : environment :=
  {| new_proxy := Ok sample_proxy;
     new_chrome_process := fun _ => Ok sample_process;
     new_chrome_conn := fun _ => Raise ConnectionError |}.

(** The connection fails with a class that derives from [ConnectionError],
    and with one that does not. *)
Definition proxy_error_environment : environment :=
  {| new_proxy := Ok sample_proxy;
     new_chrome_process := fun _ => Ok sample_process;
     new_chrome_conn := fun _ => Raise (OtherException "ProxyError") |}.

Definition value_error_environment : environment :=
  {| new_proxy := Ok sample_proxy;
     new_chrome_process := fun _ => Ok sample_process;
     new_chrome_conn := fun _ => Raise (OtherException "ValueError") |}.

(* ===================================================================== *)
(** * Scan log analysis

    [scan_log_analysis/data]: three readers of a scan log.  Each gets the
    open log file, rewinds it, reads it line by line and answers with a
    [KeyValueOutput]. *)
(* ===================================================================== *)

(** An open text file: its lines, and how many of them have been read. *)
Record logfile : Type := {
  log_lines : list string;
  log_position : nat
}.

(** [scan.seek(0)] *)
Definition seek_start (scan : logfile) : logfile :=
  {| log_lines := log_lines scan; log_position := 0 |}.

(** [for line in scan]: the lines from the position on; the file is left at
    its end. *)
Definition read_lines (scan : logfile) : list string * logfile :=
  (skipn (log_position scan) (log_lines scan),
   {| log_lines := log_lines scan; log_position := List.length (log_lines scan) |}).

(** [KeyValueOutput(name, title, values)]; [values] is [None] when the call
    gives two arguments. *)
Record KeyValueOutput : Type := {
  kv_name : string;
  kv_title : string;
  kv_values : option pyval
}.

(** [needle in line] for two strings. *)
Definition str_contains (needle line : string) : bool :=
  match String.index 0 needle line with
  | Some _ => true
  | None => false
  end.

(** ** The regular expressions of the readers

    The patterns are sequences of literal text and of lazy runs [.*?],
    captured or not. *)
Inductive atom : Type :=
| Lit (text : string)
| Lazy (captured : bool).

Definition regex : Type := list atom.

Definition newline : ascii := "010".

(** The rest of [s] after the prefix [text], if [s] starts with it. *)
Fixpoint drop_prefix (text s : string) : option string :=
  match text with
  | EmptyString => Some s
  | String a text' =>
      match s with
      | String b s' => if Ascii.eqb a b then drop_prefix text' s' else None
      | EmptyString => None
      end
  end.

(** A lazy run [.*?] before the rest of a pattern, [next]: it first tries
    to go on with what it has taken, and takes one more character, never a
    newline, when the rest fails. *)
Fixpoint lazy_run (next : string -> option (list string * string)) (captured : bool)
    (s taken : string) {struct s} : option (list string * string) :=
  match next s with
  | Some (groups, matched) =>
      Some (if captured then taken :: groups else groups, taken ++ matched)
  | None =>
      match s with
      | String c s' =>
          if Ascii.eqb c newline then None
          else lazy_run next captured s' (taken ++ String c EmptyString)
      | EmptyString => None
      end
  end.

(** A match of [re] at the start of [s]: the captured groups and the text
    matched. *)
Fixpoint match_here (re : regex) : string -> option (list string * string) :=
  match re with
  | [] => fun _ => Some ([], EmptyString)
  | Lit text :: re' =>
      fun s =>
        match drop_prefix text s with
        | Some rest =>
            match match_here re' rest with
            | Some (groups, matched) => Some (groups, text ++ matched)
            | None => None
            end
        | None => None
        end
  | Lazy captured :: re' =>
      fun s => lazy_run (match_here re') captured s EmptyString
  end.

(** [re.search(line)]: the match at the leftmost position that has one. *)
Fixpoint search (re : regex) (s : string) : option (list string * string) :=
  match match_here re s with
  | Some m => Some m
  | None =>
      match s with
      | String _ s' => search re s'
      | EmptyString => None
      end
  end.

(** [match.group(0)] and [match.group(1)] *)
Definition group0 (m : list string * string) : string := snd m.
Definition group1 (m : list string * string) : string := nth 0 (fst m) EmptyString.

(** ** bruteforce.py *)

Definition FINISHED_BRUTEFORCE : list regex :=
  [ [Lit ("Finished bruteforcing " ++ String double_quote EmptyString);
     Lazy false;
     Lit (String double_quote " (spent ");
     Lazy true;
     Lit ")"];
    [Lit ("Finished basic authentication bruteforce on " ++ String double_quote EmptyString);
     Lazy false;
     Lit (String double_quote " (spent ");
     Lazy true;
     Lit ")"] ].

(** The inner [for] of [get_bruteforce_data] on one line. *)
Definition finished_times (line : string) : list string :=
  flat_map (fun finished_re =>
              match search finished_re line with
              | Some m => [group1 m]
              | None => []
              end)
           FINISHED_BRUTEFORCE.

Definition bruteforce_times (lines : list string) : list string :=
  flat_map (fun line => if negb (str_contains "brute" line) then [] else finished_times line)
           lines.

Definition get_bruteforce_data (scan : logfile) : KeyValueOutput * logfile :=
  let (lines, scan') := read_lines (seek_start scan) in
  let times := bruteforce_times lines in
  ({| kv_name := "bruteforce_performance";
      kv_title := "Time spent brute-forcing";
      kv_values := Some (PDict [("count", PInt (Z.of_nat (List.length times)));
                                ("times", PList (map PStr times))]) |},
   scan').

(** ** consumer_join_times.py *)

Definition JOIN_TIMES : regex :=
  [Lazy true; Lit " took "; Lazy true; Lit " seconds to join()"].

Definition join_times_of (lines : list string) : list string :=
  flat_map (fun line =>
              if negb (str_contains "seconds to join" line) then []
              else
                match search JOIN_TIMES line with
                | Some m => [group0 m]
                | None => []
                end)
           lines.

Definition get_consumer_join_times (scan : logfile) : KeyValueOutput * logfile :=
  let (lines, scan') := read_lines (seek_start scan) in
  let join_times := join_times_of lines in
  (match join_times with
   | _ :: _ =>
       {| kv_name := "consumer_join_times";
          kv_title := "These consumers have been join()ed";
          kv_values := Some (PList (map PStr join_times)) |}
   | [] =>
       {| kv_name := "consumer_join_times";
          kv_title := "The scan log has no calls to join()";
          kv_values := None |}
   end,
   scan').

(** ** dbms_queue_size_exceeded.py *)

Definition SQLITE_MAX_REACHED : string :=
  "The SQLiteExecutor.in_queue length has reached its max".

(** [sum(SQLITE_MAX_REACHED in line for line in scan)] *)
Definition count_max_reached (lines : list string) : Z :=
  fold_right (fun line total => Z.b2z (str_contains SQLITE_MAX_REACHED line) + total) 0 lines.

Definition get_dbms_queue_size_exceeded (scan : logfile) : KeyValueOutput * logfile :=
  let (lines, scan') := read_lines (seek_start scan) in
  ({| kv_name := "sqlite_limit_reached";
      kv_title := "SQLite queue limit reached";
      kv_values := Some (PInt (count_max_reached lines)) |},
   scan').

(** What a successful match looks like: the matched text is the literals of
    the pattern with a run without newline for each lazy atom, and the
    groups are the captured runs, in order. *)
Inductive matches : regex -> string -> list string -> Prop :=
| matches_nil : matches [] EmptyString []
| matches_lit (text : string) (re : regex) (matched : string) (groups : list string) :
    matches re matched groups ->
    matches (Lit text :: re) (text ++ matched) groups
| matches_lazy (captured : bool) (re : regex) (taken matched : string)
    (groups : list string) :
    count_char newline taken = O ->
    matches re matched groups ->
    matches (Lazy captured :: re) (taken ++ matched)
      (if captured then taken :: groups else groups).

Definition sample_log : logfile :=
  {| log_lines :=
       ["[worker] Finished bruteforcing " ++ String double_quote "http://t/login"
          ++ String double_quote " (spent 12.5 seconds)" ++ String newline EmptyString;
        "CrawlInfra took 0.25 seconds to join()" ++ String newline EmptyString;
        "The SQLiteExecutor.in_queue length has reached its max (100)"
          ++ String newline EmptyString;
        "nothing to see here" ++ String newline EmptyString];
     log_position := 2 |}.

(** The file after a reader has gone through it. *)
Definition at_end (scan : logfile) : logfile :=
  {| log_lines := log_lines scan; log_position := List.length (log_lines scan) |}.



(** What [JOIN_TIMES] finds in one line, with no look at the line before. *)
Definition join_match (line : string) : list string :=
  match search JOIN_TIMES line with
  | Some m => [group0 m]
  | None => []
  end.

(** A page-fetch function that never runs short: twenty items at every
    cursor. *)
Definition endless_page (start count : Z) : M (list EventListener) :=
  emit (Fetch start count) ;;
  ret (map (fun n => sample_item (start + Z.of_nat n)) (seq 0 (Z.to_nat count))).

(** An answer whose wrappers, as far as they go, are dicts. *)
Definition wrappers_are_dicts (d : list (string * pyval)) : Prop :=
  forall outer,
    dict_get "result" d = Some outer ->
    exists od,
      outer = PDict od
      /\ forall inner, dict_get "result" od = Some inner -> exists id, inner = PDict id.

Definition plain_record : list (string * pyval) :=
  [("event_type", PStr "click"); ("selector", PStr "#go"); ("node_id", PInt 7)].

Definition plain_record_reordered : list (string * pyval) :=
  [("node_id", PInt 7); ("event_type", PStr "click"); ("selector", PStr "#go")].

(* ===================================================================== *)
(** * Properties *)
(* ===================================================================== *)

(** ** The handlers against the transition table *)

Lemma with_self_self (w : world) : with_self w (self w) = w.
Proof. destruct w; reflexivity. Qed.

Lemma handler_navigation_scheduled (m : pyval) (w : world) :
  navigation_scheduled m ->
  _page_state_handler m w = (Ok tt, with_self w (on_navigation_scheduled (self w))).
Proof.
  intros (d & -> & Hm).
  unfold _page_state_handler, _navigator_started_handler, _load_url_finished_handler,
    load_url_finished_chain, bind, lift; cbn.
  rewrite Hm; cbn. reflexivity.
Qed.

Lemma handler_frame_stopped_loading (m : pyval) (w : world) :
  frame_stopped_loading m ->
  _page_state_handler m w = (Ok tt, with_self w (on_frame_stopped_loading (self w))).
Proof.
  intros (d & -> & Hm).
  unfold _page_state_handler, _navigator_started_handler, _load_url_finished_handler,
    load_url_finished_chain, bind, lift; cbn.
  rewrite Hm; cbn.
  unfold on_frame_stopped_loading, join, all_flags; cbn.
  destruct (_network_almost_idle_event (self w)) as [[|]|];
    destruct (_execution_context_created (self w)) as [[|]|]; reflexivity.
Qed.

Lemma handler_network_almost_idle (m : pyval) (w : world) :
  network_almost_idle m ->
  _page_state_handler m w = (Ok tt, with_self w (on_network_almost_idle (self w))).
Proof.
  intros (d & params & -> & Hm & Hp & Hn).
  unfold _page_state_handler, _navigator_started_handler, _load_url_finished_handler,
    load_url_finished_chain, bind, lift; cbn.
  rewrite Hm; cbn. rewrite Hp; cbn. rewrite Hn; cbn.
  unfold on_network_almost_idle, join, all_flags; cbn.
  destruct (_frame_stopped_loading_event (self w)) as [[|]|];
    destruct (_execution_context_created (self w)) as [[|]|]; reflexivity.
Qed.

Lemma handler_execution_context_created (m : pyval) (w : world) :
  execution_context_created m ->
  _page_state_handler m w = (Ok tt, with_self w (on_execution_context_created (self w))).
Proof.
  intros (d & -> & Hm).
  unfold _page_state_handler, _navigator_started_handler, _load_url_finished_handler,
    load_url_finished_chain, bind, lift; cbn.
  rewrite Hm; cbn.
  unfold on_execution_context_created, join, all_flags; cbn.
  destruct (_network_almost_idle_event (self w)) as [[|]|];
    destruct (_frame_stopped_loading_event (self w)) as [[|]|]; reflexivity.
Qed.

Lemma join_flags_false (w : world) (o : InstrumentedChrome) :
  all_flags o = false ->
  (if all_flags o then (Ok tt, with_self w (set_page_state PAGE_STATE_LOADED o))
   else (Ok tt, with_self w o)) = (Ok tt, with_self w (join o)).
Proof. intros H. unfold join. rewrite H. reflexivity. Qed.


(** ** C1: the join of the three load events *)

Lemma Permutation_three {A : Type} (a b c : A) (l : list A) :
  Permutation [a; b; c] l ->
  l = [a; b; c] \/ l = [a; c; b] \/ l = [b; a; c]
  \/ l = [b; c; a] \/ l = [c; a; b] \/ l = [c; b; a].
Proof.
  intros H.
  destruct (Permutation_vs_cons_inv (Permutation_sym H)) as (l1 & l2 & ->).
  apply Permutation_cons_app_inv, Permutation_length_2_inv in H.
  destruct l1 as [ | x [ | y [ | z l1 ] ] ]; cbn in H;
    destruct H as [H | H]; inversion H; subst; cbn; auto 7.
Qed.

Ltac handle_known Hnav Ha Hb Hc :=
  unfold deliver; cbn [map run perform];
  repeat first
    [ rewrite (handler_navigation_scheduled _ _ Hnav)
    | rewrite (handler_frame_stopped_loading _ _ Ha)
    | rewrite (handler_network_almost_idle _ _ Hb)
    | rewrite (handler_execution_context_created _ _ Hc) ];
  vm_compute.

(** C1.  After a navigation-scheduled event, delivering frame-stopped-loading,
    lifecycle networkAlmostIdle and execution-context-created in any of
    their six orders raises nothing, leaves the page state different from
    LOADED until the third of them has been handled, makes it LOADED then,
    and ends in the same world whatever the order was. *)
Theorem loaded_after_three_events_in_any_order
    (w : world) (nav a b c e1 e2 e3 : pyval) :
  navigation_scheduled nav ->
  frame_stopped_loading a ->
  network_almost_idle b ->
  execution_context_created c ->
  Permutation [a; b; c] [e1; e2; e3] ->
  (forall m w', In m [nav; e1; e2; e3] -> fst (_page_state_handler m w') = Ok tt)
  /\ _page_state (self (deliver [nav] w)) <> PAGE_STATE_LOADED
  /\ _page_state (self (deliver [nav; e1] w)) <> PAGE_STATE_LOADED
  /\ _page_state (self (deliver [nav; e1; e2] w)) <> PAGE_STATE_LOADED
  /\ _page_state (self (deliver [nav; e1; e2; e3] w)) = PAGE_STATE_LOADED
  /\ deliver [nav; e1; e2; e3] w = deliver [nav; a; b; c] w.
Proof.
  intros Hnav Ha Hb Hc Hperm.
  split.
  { intros m w' Hin.
    assert (Hm : m = nav \/ In m [a; b; c]).
    { destruct Hin as [<- | Hin]; [ now left | right ].
      eapply Permutation_in; [ apply Permutation_sym, Hperm | exact Hin ]. }
    destruct Hm as [-> | [<- | [<- | [<- | []]]]].
    - now rewrite handler_navigation_scheduled.
    - now rewrite handler_frame_stopped_loading.
    - now rewrite handler_network_almost_idle.
    - now rewrite handler_execution_context_created. }
  apply Permutation_three in Hperm.
  destruct w as [[fsl fsn nai ecc ps ident did p cp cn] es ld].
  destruct Hperm as [H | [H | [H | [H | [H | H]]]]];
    injection H as -> -> ->;
    handle_known Hnav Ha Hb Hc;
    repeat split; try discriminate; reflexivity.
Qed.

Lemma loaded_after_three_events_in_any_order_witness :
  navigation_scheduled msg_navigation_scheduled
  /\ frame_stopped_loading msg_frame_stopped_loading
  /\ network_almost_idle msg_network_almost_idle
  /\ execution_context_created msg_execution_context_created
  /\ _page_state
       (self (deliver [msg_navigation_scheduled; msg_execution_context_created;
                       msg_frame_stopped_loading; msg_network_almost_idle] sample_world))
     = PAGE_STATE_LOADED
  /\ _page_state
       (self (deliver [msg_navigation_scheduled; msg_execution_context_created;
                       msg_frame_stopped_loading] sample_world))
     <> PAGE_STATE_LOADED.
Proof.
  assert (Hnav : navigation_scheduled msg_navigation_scheduled)
    by (eexists; split; reflexivity).
  assert (Ha : frame_stopped_loading msg_frame_stopped_loading)
    by (eexists; split; reflexivity).
  assert (Hb : network_almost_idle msg_network_almost_idle)
    by (do 2 eexists; repeat split; reflexivity).
  assert (Hc : execution_context_created msg_execution_context_created)
    by (eexists; split; reflexivity).
  assert (Hp : Permutation
                 [msg_frame_stopped_loading; msg_network_almost_idle;
                  msg_execution_context_created]
                 [msg_execution_context_created; msg_frame_stopped_loading;
                  msg_network_almost_idle]).
  { apply Permutation_sym.
    exact (Permutation_cons_append
             [msg_frame_stopped_loading; msg_network_almost_idle]
             msg_execution_context_created). }
  pose proof (loaded_after_three_events_in_any_order sample_world _ _ _ _ _ _ _
                Hnav Ha Hb Hc Hp) as (_ & _ & _ & H2 & H3 & _).
  repeat split; assumption.
Defined.

(** ** C9: messages the handlers have no row for *)

Lemma handler_missing_method (m : pyval) (w : world) :
  missing_method m -> _page_state_handler m w = (Ok tt, w).
Proof.
  intros (d & -> & Hm).
  unfold _page_state_handler, _navigator_started_handler, _load_url_finished_handler,
    bind, lift; cbn.
  rewrite Hm. reflexivity.
Qed.

Lemma handler_lifecycle_missing_params (m : pyval) (w : world) :
  lifecycle_missing_params m -> _page_state_handler m w = (Ok tt, w).
Proof.
  intros (d & -> & Hm & Hp).
  unfold _page_state_handler, _navigator_started_handler, _load_url_finished_handler,
    load_url_finished_chain, bind, lift; cbn.
  rewrite Hm; cbn. rewrite Hp. reflexivity.
Qed.

Lemma handler_lifecycle_missing_name (m : pyval) (w : world) :
  lifecycle_missing_name m -> _page_state_handler m w = (Ok tt, w).
Proof.
  intros (d & params & -> & Hm & Hp & Hn).
  unfold _page_state_handler, _navigator_started_handler, _load_url_finished_handler,
    load_url_finished_chain, bind, lift; cbn.
  rewrite Hm; cbn. rewrite Hp; cbn. rewrite Hn. reflexivity.
Qed.

(** An unrecognized method still reaches the test that closes
    [_load_url_finished_handler]. *)
Lemma handler_unrecognized_method (m : pyval) (w : world) :
  unrecognized_method m ->
  _page_state_handler m w = (Ok tt, with_self w (join (self w))).
Proof.
  intros (d & v & -> & Hm & E1 & E2 & E3 & E4).
  unfold _page_state_handler, _navigator_started_handler, _load_url_finished_handler,
    load_url_finished_chain, bind, lift; cbn.
  rewrite Hm; cbn. rewrite E1; cbn. rewrite E2, E3, E4; cbn.
  unfold join, all_flags. destruct (_ && _); cbn;
    [ reflexivity | now rewrite with_self_self ].
Qed.

Lemma join_page_flags (o : InstrumentedChrome) : page_flags (join o) = page_flags o.
Proof. unfold join. destruct (all_flags o); reflexivity. Qed.

Lemma join_unchanged (o : InstrumentedChrome) :
  all_flags o = false \/ _page_state o = PAGE_STATE_LOADED -> join o = o.
Proof.
  unfold join. intros [H | H].
  - now rewrite H.
  - destruct (all_flags o); [ | reflexivity ].
    destruct o; cbn in *. now subst.
Qed.

(** C9, as the code has it.  A message without a method, a lifecycle event
    without params, and a lifecycle event whose params lack a name raise
    nothing and change nothing.  A message with an unrecognized method
    raises nothing and leaves the four lifecycle flags as they were; the
    page state too is as it was when the three sub-flags are not all true
    or the state is LOADED already. *)
Theorem unknown_message_ignored (m : pyval) (w : world) :
  missing_method m \/ lifecycle_missing_params m \/ lifecycle_missing_name m
    \/ unrecognized_method m ->
  fst (_page_state_handler m w) = Ok tt
  /\ page_flags (self (snd (_page_state_handler m w))) = page_flags (self w)
  /\ (missing_method m \/ lifecycle_missing_params m \/ lifecycle_missing_name m
        \/ all_flags (self w) = false \/ _page_state (self w) = PAGE_STATE_LOADED ->
      snd (_page_state_handler m w) = w).
Proof.
  intros [H | [H | [H | H]]].
  - rewrite (handler_missing_method m w H). cbn. auto.
  - rewrite (handler_lifecycle_missing_params m w H). cbn. auto.
  - rewrite (handler_lifecycle_missing_name m w H). cbn. auto.
  - rewrite (handler_unrecognized_method m w H). cbn.
    split; [ reflexivity | split ].
    + apply join_page_flags.
    + intros Hcase.
      assert (Hrow : _page_state_handler m w = (Ok tt, with_self w (join (self w))))
        by exact (handler_unrecognized_method m w H).
      destruct Hcase as [H1 | [H1 | [H1 | H1]]].
      * rewrite (handler_missing_method m w H1) in Hrow.
        injection Hrow as <-. reflexivity.
      * rewrite (handler_lifecycle_missing_params m w H1) in Hrow.
        injection Hrow as <-. reflexivity.
      * rewrite (handler_lifecycle_missing_name m w H1) in Hrow.
        injection Hrow as <-. reflexivity.
      * rewrite (join_unchanged (self w) H1). apply with_self_self.
Qed.

Lemma unknown_message_ignored_witness :
  unrecognized_method msg_request_will_be_sent
  /\ fst (_page_state_handler msg_request_will_be_sent sample_world) = Ok tt
  /\ snd (_page_state_handler msg_request_will_be_sent sample_world) = sample_world.
Proof.
  assert (H : unrecognized_method msg_request_will_be_sent)
    by (do 2 eexists; repeat split; reflexivity).
  split; [ exact H | ].
  pose proof (unknown_message_ignored msg_request_will_be_sent sample_world
                (or_intror (or_intror (or_intror H)))) as (H1 & _ & H3).
  split; [ exact H1 | ].
  apply H3. do 3 right. left. reflexivity.
Defined.

(** C9 as stated fails: after a page load and a second [load_url] the three
    sub-flags are still true, and a message with an unrecognized method
    moves the page state from LOADING to LOADED. *)
Lemma unrecognized_method_sets_loaded :
  let w := run second_load sample_world in
  unrecognized_method msg_request_will_be_sent
  /\ _page_state (self w) = PAGE_STATE_LOADING
  /\ fst (_page_state_handler msg_request_will_be_sent w) = Ok tt
  /\ _page_state (self (snd (_page_state_handler msg_request_will_be_sent w)))
     = PAGE_STATE_LOADED.
Proof.
  cbv zeta. split; [ do 2 eexists; repeat split; reflexivity | ].
  vm_compute. repeat split; reflexivity.
Qed.

(** ** C4: LOADED and the three sub-flags along a run *)

Lemma load_url_self (url : string) (w : world) :
  self (snd (load_url url w)) = set_page_state PAGE_STATE_LOADING (self w).
Proof.
  unfold load_url, conn_command, bind, get_self, set_self, emit, lift, raise, ret; cbn.
  destruct (chrome_conn (self w)) as [ | | c ]; cbn; try reflexivity.
  destruct (send c _ _); reflexivity.
Qed.

Lemma navigate_to_history_index_self (index : Z) (w : world) :
  self (snd (navigate_to_history_index index w))
  = set_page_state PAGE_STATE_LOADING (self w).
Proof.
  unfold navigate_to_history_index, conn_command, bind, get_self, set_self, emit, lift,
    raise, ret; cbn.
  destruct (chrome_conn (self w)) as [ | | c ]; cbn; try reflexivity.
  destruct (send c _ _); reflexivity.
Qed.


















(** [navigate_to_history_index] after a finished load does what the second
    [load_url] does: LOADING with the three sub-flags still true. *)
Lemma history_navigation_not_tied_to_flags :
  let w := run (stopped_then_loaded ++ [DoNavigateToHistoryIndex 0])%list sample_world in
  all_flags (self w) = true /\ _page_state (self w) <> PAGE_STATE_LOADED.
Proof.
  vm_compute. split; [ reflexivity | discriminate ].
Qed.

(** ** C5: what [_js_runtime_evaluate] makes of the answer *)

Lemma decode_none : decode_evaluate_result PNone = Ok PNone.
Proof. reflexivity. Qed.

Lemma decode_missing_wrapper (d : list (string * pyval)) :
  dict_get "result" d = None -> decode_evaluate_result (PDict d) = Ok PNone.
Proof. intros H. cbn. rewrite H. reflexivity. Qed.

Lemma decode_missing_inner (d outer : list (string * pyval)) :
  dict_get "result" d = Some (PDict outer) ->
  dict_get "result" outer = None ->
  decode_evaluate_result (PDict d) = Ok PNone.
Proof. intros H1 H2. cbn. rewrite H1. cbn. rewrite H2. reflexivity. Qed.

Lemma decode_missing_value (d outer inner : list (string * pyval)) :
  dict_get "result" d = Some (PDict outer) ->
  dict_get "result" outer = Some (PDict inner) ->
  dict_get "value" inner = None ->
  decode_evaluate_result (PDict d) = Ok PNone.
Proof.
  intros H1 H2 H3. cbn. rewrite H1. cbn. rewrite H2. cbn. rewrite H3. reflexivity.
Qed.

Lemma decode_value (d outer inner : list (string * pyval)) (value : pyval) :
  dict_get "result" d = Some (PDict outer) ->
  dict_get "result" outer = Some (PDict inner) ->
  dict_get "value" inner = Some value ->
  decode_evaluate_result (PDict d) = Ok value.
Proof.
  intros H1 H2 H3. cbn. rewrite H1. cbn. rewrite H2. cbn. rewrite H3. reflexivity.
Qed.

(** The wrapper never looks at [exceptionDetails]: whatever else the outer
    result holds, a value that is there is returned. *)
Lemma decode_ignores_exception_details
    (d outer inner : list (string * pyval)) (details value : pyval) :
  dict_get "result" d = Some (PDict outer) ->
  dict_get "exceptionDetails" outer = Some details ->
  dict_get "result" outer = Some (PDict inner) ->
  dict_get "value" inner = Some value ->
  decode_evaluate_result (PDict d) = Ok value.
Proof. intros H1 _. now apply decode_value. Qed.

(** C5 at the failing input.  For the answer to [throw 1], which carries
    [exceptionDetails] next to the thrown value, [_js_runtime_evaluate]
    returns the value 1 and not [None]; [get_dom], which tests
    [exceptionDetails], returns [None] for the same answer. *)
Theorem js_exception_value_is_returned :
  fst (_js_runtime_evaluate "throw 1" 5 throwing_world) = Ok (PInt 1)
  /\ fst (get_dom throwing_world) = Ok PNone.
Proof. split; reflexivity. Qed.

(** ** C2: the event type check *)

Lemma span_nonempty (cls : ascii -> bool) (s : string) :
  span cls s <> EmptyString <->
  exists c rest, s = String c rest /\ cls c = true.
Proof.
  destruct s as [ | c rest ]; cbn.
  - split; [ congruence | intros (c & rest & H & _); discriminate H ].
  - destruct (cls c) eqn:E; split.
    + intros _. now exists c, rest.
    + discriminate.
    + congruence.
    + intros (c' & rest' & H & Hc). injection H as <- <-. congruence.
Qed.

(** What the check accepts: any string whose first character is a letter
    or a dot. *)
Lemma _is_valid_event_type_first_char (event_type : string) :
  _is_valid_event_type event_type = true <->
  exists c rest, event_type = String c rest /\ EVENT_TYPE_class c = true.
Proof.
  unfold _is_valid_event_type, EVENT_TYPE_RE_match, re_match_plus.
  rewrite <- span_nonempty.
  destruct (span EVENT_TYPE_class event_type); split; congruence.
Qed.

(** Strings of letters and dots are accepted. *)
Lemma _is_valid_event_type_all_in_class (event_type : string) :
  event_type <> EmptyString ->
  all_in_class EVENT_TYPE_class event_type = true ->
  _is_valid_event_type event_type = true.
Proof.
  intros Hne Hall. apply _is_valid_event_type_first_char.
  destruct event_type as [ | c rest ]; [ congruence | ].
  exists c, rest. split; [ reflexivity | ].
  unfold all_in_class in Hall. cbn in Hall.
  now apply andb_true_iff in Hall.
Qed.

(** A rejected event type ends [dispatch_js_event] with the assertion, the
    world as it was: no command has gone out. *)
Lemma dispatch_js_event_rejected (selector event_type : string) (w : world) :
  _is_valid_event_type event_type = false ->
  dispatch_js_event selector event_type w = (Raise AssertionError, w).
Proof. intros H. unfold dispatch_js_event. rewrite H. reflexivity. Qed.

(** C2 at the failing input.  The event type [injected_event_type] has
    characters outside the class, the check accepts it, and
    [dispatch_js_event] sends the browser an expression in which the text
    after the quote is code. *)
Theorem injected_event_type_is_dispatched :
  all_in_class EVENT_TYPE_class injected_event_type = false
  /\ _is_valid_event_type injected_event_type = true
  /\ fst (dispatch_js_event "#go" injected_event_type true_world) = Ok true
  /\ effects (snd (dispatch_js_event "#go" injected_event_type true_world))
     = [Command "Runtime.evaluate"
          (evaluate_params
             ("window._DOMAnalyzer.dispatchCustomEvent("
                ++ String double_quote "#go" ++ String double_quote ", "
                ++ String double_quote "click" ++ String double_quote ");alert(1);//"
                ++ String double_quote ")")
             5)].
Proof. repeat split; reflexivity. Qed.

(** ** C8: the baseline configuration *)

Lemma set_chrome_settings_commands (source : string) :
  effects (snd (set_chrome_settings source sample_world))
  = [Command "Security.setIgnoreCertificateErrors" [("ignore", PBool true)];
     Command "Page.setBypassCSP" [("enabled", PBool false)];
     Command "Page.setDownloadBehavior" [("behavior", PStr "deny")];
     Command "Page.addScriptToEvaluateOnNewDocument" [("source", PStr source)];
     SetDialogHandler;
     Command "Page.enable" [];
     Command "Page.setLifecycleEventsEnabled" [("enabled", PBool true)];
     Command "Runtime.enable" []].
Proof. reflexivity. Qed.

(** Whatever the connection answers, [set_chrome_settings] sends no
    [Page.setBypassCSP] other than the one with [enabled] false. *)
Lemma bypass_csp_never_enabled (source : string) (w : world) (e : effect) :
  In e (effects (snd (set_chrome_settings source w))) ->
  is_bypass_csp e = true ->
  In e (effects w) \/ e = Command "Page.setBypassCSP" [("enabled", PBool false)].
Proof.
  destruct w as [[fsl fsn nai ecc ps ident did p cp cn] es ld].
  unfold set_chrome_settings, set_dialog_handler, conn_command, bind, get_self, emit,
    lift, raise, ret.
  destruct cn as [ | | c ]; cbn; [ now left | now left | ].
  repeat (match goal with
          | |- context [send c ?m ?ps] => destruct (send c m ps); cbn
          end);
    intros Hin Hb; rewrite <- ?app_assoc in Hin; cbn [app] in Hin;
    apply in_app_or in Hin; (destruct Hin as [Hin | Hin]; [ now left | ]);
    cbn [In] in Hin;
    repeat (destruct Hin as [<- | Hin]; [ first [ discriminate Hb | now right ] | ]);
    destruct Hin.
Qed.

(** C8 at the failing input.  During construction [set_chrome_settings]
    issues [Page.setBypassCSP] once, with [enabled] false: the bypass is
    switched off, and the browser goes on enforcing the policy. *)
Theorem bypass_csp_is_sent_disabled (source : string) :
  fst (set_chrome_settings source sample_world) = Ok tt
  /\ filter is_bypass_csp (effects (snd (set_chrome_settings source sample_world)))
     = [Command "Page.setBypassCSP" [("enabled", PBool false)]].
Proof. split; reflexivity. Qed.

(** ** C6: teardown *)

(** C6, as the code has it.  Whenever the proxy and the process attributes
    have been assigned (after construction, after an earlier [terminate],
    or when construction failed at connecting), [terminate] raises nothing
    whatever the three teardown calls answer, calls each collaborator it
    holds in the order proxy, connection, process, restores the logging
    level, and leaves the three handles [None] and the page state NONE; a
    second [terminate] does the same and calls nothing. *)
Theorem terminate_completes (w : world) :
  proxy (self w) <> Unset ->
  chrome_process (self w) <> Unset ->
  fst (terminate w) = Ok tt
  /\ torn_down (self (snd (terminate w)))
  /\ logging_disable (snd (terminate w)) = logging_disable w
  /\ filter is_teardown (effects (snd (terminate w)))
     = (filter is_teardown (effects w) ++ teardown_calls (self w))%list
  /\ fst (terminate (snd (terminate w))) = Ok tt
  /\ torn_down (self (snd (terminate (snd (terminate w)))))
  /\ filter is_teardown (effects (snd (terminate (snd (terminate w)))))
     = filter is_teardown (effects (snd (terminate w))).
Proof.
  destruct w as [[fsl fsn nai ecc ps ident did p cp cn] es ld]; cbn [self proxy chrome_process].
  intros Hp Hcp.
  destruct p as [ | | [pport [[] | pe]] ]; [ congruence | .. ];
    (destruct cp as [ | | [cport cpid [[] | cpe]] ]; [ congruence | .. ]);
    destruct cn as [ | | [csend [[] | ce]] ];
    unfold terminate, try_except, AllLoggingDisabled, attr_call, set_logging_disable,
      bind, get_self, set_self, emit, lift, raise, ret, torn_down, teardown_calls;
    cbn -[fmt_opt_int fmt_opt_str String.append];
    rewrite ?filter_app; cbn [filter is_teardown app];
    rewrite ?app_nil_r, <- ?app_assoc; cbn [app];
    repeat split; reflexivity.
Qed.

Lemma terminate_completes_witness :
  proxy (self failing_world) <> Unset
  /\ chrome_process (self failing_world) <> Unset
  /\ fst (terminate failing_world) = Ok tt
  /\ torn_down (self (snd (terminate failing_world)))
  /\ filter is_teardown (effects (snd (terminate failing_world)))
     = [ProxyStop; ConnClose; ProcessTerminate].
Proof.
  assert (Hp : proxy (self failing_world) <> Unset) by discriminate.
  assert (Hcp : chrome_process (self failing_world) <> Unset) by discriminate.
  pose proof (terminate_completes failing_world Hp Hcp) as (H1 & H2 & _ & H4 & _).
  repeat split; try assumption; apply H2.
Defined.

(** C6 as stated fails after a construction that stopped before the browser
    process was assigned: the log line that opens [terminate] formats the
    controller, reading the missing attribute raises, no teardown call is
    made and the proxy handle stays. *)
Lemma terminate_raises_after_partial_construction :
  terminate (world_of construction_failed_at_process)
  = (Raise AttributeError, world_of construction_failed_at_process)
  /\ proxy construction_failed_at_process = Obj sample_proxy.
Proof. split; reflexivity. Qed.

(** When construction stopped at connecting, teardown goes through. *)
Lemma terminate_after_failed_connection :
  fst (terminate (world_of construction_failed_at_connection)) = Ok tt
  /\ filter is_teardown
       (effects (snd (terminate (world_of construction_failed_at_connection))))
     = [ProxyStop; ProcessTerminate].
Proof. split; reflexivity. Qed.

(** ** C3: pagination over a dataset *)

Lemma yielded_app (es1 es2 : list effect) :
  yielded (es1 ++ es2) = (yielded es1 ++ yielded es2)%list.
Proof.
  induction es1 as [ | e es1 IH ]; [ reflexivity | ].
  destruct e; cbn; rewrite IH; reflexivity.
Qed.

Lemma fetches_app (es1 es2 : list effect) :
  fetches (es1 ++ es2) = (fetches es1 ++ fetches es2)%list.
Proof.
  induction es1 as [ | e es1 IH ]; [ reflexivity | ].
  destruct e; cbn; rewrite IH; reflexivity.
Qed.

Lemma yielded_yields (items : list EventListener) : yielded (map Yield items) = items.
Proof. induction items as [ | x items IH ]; cbn; [ | rewrite IH ]; reflexivity. Qed.

Lemma fetches_yields (items : list EventListener) : fetches (map Yield items) = [].
Proof. induction items as [ | x items IH ]; cbn; [ | rewrite IH ]; reflexivity. Qed.

Lemma add_effects_nil (w : world) : add_effects w [] = w.
Proof. destruct w; unfold add_effects; cbn. now rewrite app_nil_r. Qed.

Lemma add_effects_app (w : world) (es1 es2 : list effect) :
  add_effects (add_effects w es1) es2 = add_effects w (es1 ++ es2).
Proof. unfold add_effects; cbn. now rewrite app_assoc. Qed.

Lemma yield_all_run (items : list EventListener) (w : world) :
  yield_all items w = (Ok tt, add_effects w (map Yield items)).
Proof.
  revert w. induction items as [ | x items IH ]; intros w; cbn.
  - now rewrite add_effects_nil.
  - unfold bind, emit. rewrite IH. unfold add_effects; cbn. now rewrite <- app_assoc.
Qed.

Lemma cursors_succ (start page_count : Z) (n : nat) :
  cursors start page_count (S n)
  = (start, page_count) :: cursors (start + page_count) page_count n.
Proof.
  unfold cursors. cbn [seq map]. f_equal.
  - f_equal. cbn. lia.
  - rewrite <- seq_shift, map_map. apply map_ext. intros i. f_equal. lia.
Qed.

Lemma page_length_min (data : list EventListener) (start count : Z) :
  0 <= start -> 0 <= count ->
  page_length data start count
  = Z.min count (Z.max 0 (Z.of_nat (List.length data) - start)).
Proof.
  intros Hs Hc. unfold page_length. rewrite length_firstn, length_skipn. lia.
Qed.

Lemma serve_page_run (data : list EventListener) (start count : Z) (w : world) :
  serve_page data start count w
  = (Ok (firstn (Z.to_nat count) (skipn (Z.to_nat start) data)),
     add_effects w [Fetch start count]).
Proof. reflexivity. Qed.

(** One turn of the loop, for a fetch that answers. *)
Lemma paginate_from_step (page_count : Z) (fuel : nat)
    (functor : Z -> Z -> M (list EventListener)) (start : Z) (w w1 : world)
    (page : list EventListener) :
  functor start page_count w = (Ok page, w1) ->
  paginate_from page_count (S fuel) functor start w
  = if Z.of_nat (List.length page) <? page_count
    then (Ok true, add_effects w1 (map Yield page))
    else paginate_from page_count fuel functor (start + page_count)
           (add_effects w1 (map Yield page)).
Proof.
  intros Hpage. cbn [paginate_from]. unfold bind at 1. rewrite Hpage.
  unfold bind at 1. rewrite yield_all_run.
  destruct (Z.of_nat (List.length page) <? page_count); reflexivity.
Qed.

(** A fetch that raises ends the loop with its exception. *)
Lemma paginate_from_raise (page_count : Z) (fuel : nat)
    (functor : Z -> Z -> M (list EventListener)) (start : Z) (w w1 : world) (e : pyexn) :
  functor start page_count w = (Raise e, w1) ->
  paginate_from page_count (S fuel) functor start w = (Raise e, w1).
Proof. intros H. cbn [paginate_from]. unfold bind at 1. now rewrite H. Qed.

Lemma paginate_serve_from (data : list EventListener) (P : Z) :
  0 < P ->
  forall (fuel : nat) (start : Z) (w : world),
    0 <= start ->
    Z.of_nat (List.length (skipn (Z.to_nat start) data)) / P < Z.of_nat fuel ->
    exists trace,
      paginate_from P fuel (serve_page data) start w = (Ok true, add_effects w trace)
      /\ yielded trace = skipn (Z.to_nat start) data
      /\ fetches trace
         = cursors start P
             (S (Z.to_nat (Z.of_nat (List.length (skipn (Z.to_nat start) data)) / P))).
Proof.
  intros HP. induction fuel as [ | fuel IH ]; intros start w Hs Hfuel.
  - exfalso.
    assert (0 <= Z.of_nat (List.length (skipn (Z.to_nat start) data)) / P)
      by (apply Z.div_pos; lia).
    lia.
  - set (rest := skipn (Z.to_nat start) data) in *.
    rewrite (paginate_from_step P fuel (serve_page data) start w _ _
               (serve_page_run data start P w)).
    fold rest.
    destruct (Z.of_nat (List.length (firstn (Z.to_nat P) rest)) <? P) eqn:Hshort.
    + apply Z.ltb_lt in Hshort. rewrite length_firstn in Hshort.
      assert (Hlen : Z.of_nat (List.length rest) < P) by lia.
      exists (Fetch start P :: map Yield (firstn (Z.to_nat P) rest)).
      rewrite add_effects_app.
      rewrite firstn_all2 by lia.
      split; [ reflexivity | ]. split.
      * cbn. apply yielded_yields.
      * cbn [fetches]. rewrite fetches_yields.
        rewrite Z.div_small by lia. cbn. do 2 f_equal. lia.
    + apply Z.ltb_ge in Hshort. rewrite length_firstn in Hshort.
      assert (Hlen : P <= Z.of_nat (List.length rest)) by lia.
      assert (Hrest : skipn (Z.to_nat (start + P)) data = skipn (Z.to_nat P) rest).
      { unfold rest. rewrite skipn_skipn. f_equal. lia. }
      assert (Hdiv : Z.of_nat (List.length (skipn (Z.to_nat P) rest))
                     = Z.of_nat (List.length rest) - P)
        by (rewrite length_skipn; lia).
      assert (Hquot : (Z.of_nat (List.length rest) - P) / P
                      = Z.of_nat (List.length rest) / P - 1).
      { replace (Z.of_nat (List.length rest) - P)
          with (Z.of_nat (List.length rest) + (-1) * P) by lia.
        rewrite Z.div_add by lia. lia. }
      destruct (IH (start + P)
                  (add_effects (add_effects w [Fetch start P])
                     (map Yield (firstn (Z.to_nat P) rest))))
        as (trace & Hrun & Hy & Hf).
      { lia. }
      { rewrite Hrest, Hdiv, Hquot. lia. }
      exists ((Fetch start P :: map Yield (firstn (Z.to_nat P) rest)) ++ trace)%list.
      rewrite Hrun, !add_effects_app.
      split; [ reflexivity | ]. split.
      * rewrite yielded_app. cbn [yielded]. rewrite yielded_yields, Hy, Hrest.
        apply firstn_skipn.
      * rewrite fetches_app. cbn [fetches]. rewrite fetches_yields, Hf. cbn [app].
        rewrite Hrest, Hdiv, Hquot.
        assert (Hq : 1 <= Z.of_nat (List.length rest) / P).
        { apply Z.div_le_lower_bound; lia. }
        replace (S (Z.to_nat (Z.of_nat (List.length rest) / P)))
          with (S (S (Z.to_nat (Z.of_nat (List.length rest) / P - 1)))) by lia.
        symmetry. apply cursors_succ.
Qed.

(** The loop for any page size P over a dataset of N items. *)
Lemma paginate_from_over_dataset
    (data : list EventListener) (P : Z) (fuel : nat) (w : world) :
  0 < P ->
  Z.of_nat (List.length data) / P < Z.of_nat fuel ->
  exists trace,
    paginate_from P fuel (serve_page data) 0 w = (Ok true, add_effects w trace)
    /\ yielded trace = data
    /\ fetches trace = cursors 0 P (S (Z.to_nat (Z.of_nat (List.length data) / P)))
    /\ Z.of_nat (List.length (fetches trace)) = Z.of_nat (List.length data) / P + 1
    /\ (Z.of_nat (List.length data) mod P <> 0 ->
        Z.of_nat (List.length (fetches trace)) = ceil_div (Z.of_nat (List.length data)) P)
    /\ (forall i, 0 <= i < Z.of_nat (List.length data) / P ->
                  page_length data (i * P) P = P)
    /\ page_length data (Z.of_nat (List.length data) / P * P) P
       = Z.of_nat (List.length data) mod P
    /\ Z.of_nat (List.length data) mod P < P.
Proof.
  intros HP Hfuel.
  set (N := Z.of_nat (List.length data)) in *.
  assert (HN : 0 <= N) by (unfold N; lia).
  assert (Hq : 0 <= N / P) by (apply Z.div_pos; lia).
  pose proof (Z.div_mod N P ltac:(lia)) as Hdm.
  pose proof (Z.mod_pos_bound N P HP) as Hmod.
  destruct (paginate_serve_from data P HP fuel 0 w ltac:(lia)) as (trace & Hrun & Hy & Hf).
  { cbn [Z.to_nat skipn]. exact Hfuel. }
  cbn [Z.to_nat skipn] in Hy, Hf. fold N in Hf.
  assert (Hcount : Z.of_nat (List.length (fetches trace)) = N / P + 1).
  { rewrite Hf. unfold cursors. rewrite length_map, length_seq. lia. }
  exists trace. repeat split; try assumption; try lia.
  - intros Hnz. rewrite Hcount. unfold ceil_div.
    replace (N + P - 1) with ((N mod P - 1) + (N / P + 1) * P) by lia.
    rewrite Z.div_add by lia.
    rewrite (Z.div_small (N mod P - 1) P) by lia. lia.
  - intros i Hi. rewrite page_length_min by lia. fold N. nia.
  - rewrite page_length_min by lia. fold N. lia.
Qed.

(** C3.  Over a dataset of N items, [_paginate], whose page size P is
    [PAGINATION_PAGE_COUNT], with fuel for more than N / P turns reaches
    its [break], yields the N items once each and in order, and fetches at
    the cursors 0, P, 2P, ..., (N / P) * P: that is N / P + 1 calls, which
    is ceil(N / P) when P does not divide N.  Every fetch before the last
    gets P items and the last gets N mod P, fewer than P.  The loop does
    the same for every other page size P above zero. *)
Theorem paginate_over_dataset (data : list EventListener) (fuel : nat) (w : world) :
  Z.of_nat (List.length data) / PAGINATION_PAGE_COUNT < Z.of_nat fuel ->
  (exists trace,
      _paginate fuel (serve_page data) w = (Ok true, add_effects w trace)
      /\ yielded trace = data
      /\ fetches trace
         = cursors 0 PAGINATION_PAGE_COUNT
             (S (Z.to_nat (Z.of_nat (List.length data) / PAGINATION_PAGE_COUNT)))
      /\ Z.of_nat (List.length (fetches trace))
         = Z.of_nat (List.length data) / PAGINATION_PAGE_COUNT + 1
      /\ (Z.of_nat (List.length data) mod PAGINATION_PAGE_COUNT <> 0 ->
          Z.of_nat (List.length (fetches trace))
          = ceil_div (Z.of_nat (List.length data)) PAGINATION_PAGE_COUNT)
      /\ (forall i, 0 <= i < Z.of_nat (List.length data) / PAGINATION_PAGE_COUNT ->
                    page_length data (i * PAGINATION_PAGE_COUNT) PAGINATION_PAGE_COUNT
                    = PAGINATION_PAGE_COUNT)
      /\ page_length data
           (Z.of_nat (List.length data) / PAGINATION_PAGE_COUNT * PAGINATION_PAGE_COUNT)
           PAGINATION_PAGE_COUNT
         = Z.of_nat (List.length data) mod PAGINATION_PAGE_COUNT
      /\ Z.of_nat (List.length data) mod PAGINATION_PAGE_COUNT < PAGINATION_PAGE_COUNT)
  /\ (forall (P : Z) (fuel' : nat),
        0 < P ->
        Z.of_nat (List.length data) / P < Z.of_nat fuel' ->
        exists trace,
          paginate_from P fuel' (serve_page data) 0 w = (Ok true, add_effects w trace)
          /\ yielded trace = data
          /\ fetches trace = cursors 0 P (S (Z.to_nat (Z.of_nat (List.length data) / P)))
          /\ Z.of_nat (List.length (fetches trace)) = Z.of_nat (List.length data) / P + 1
          /\ (Z.of_nat (List.length data) mod P <> 0 ->
              Z.of_nat (List.length (fetches trace))
              = ceil_div (Z.of_nat (List.length data)) P)
          /\ (forall i, 0 <= i < Z.of_nat (List.length data) / P ->
                        page_length data (i * P) P = P)
          /\ page_length data (Z.of_nat (List.length data) / P * P) P
             = Z.of_nat (List.length data) mod P
          /\ Z.of_nat (List.length data) mod P < P).
Proof.
  intros Hfuel. split.
  - unfold _paginate.
    apply (paginate_from_over_dataset data PAGINATION_PAGE_COUNT fuel w);
      [ reflexivity | exact Hfuel ].
  - intros P fuel' HP Hfuel'. now apply paginate_from_over_dataset.
Qed.

Lemma paginate_over_dataset_witness :
  Z.of_nat (List.length forty_items) / PAGINATION_PAGE_COUNT < Z.of_nat 3
  /\ exists trace,
       _paginate 3 (serve_page forty_items) sample_world
       = (Ok true, add_effects sample_world trace)
       /\ yielded trace = forty_items
       /\ fetches trace = [(0, 20); (20, 20); (40, 20)].
Proof.
  assert (Hfuel : Z.of_nat (List.length forty_items) / PAGINATION_PAGE_COUNT < Z.of_nat 3)
    by (vm_compute; reflexivity).
  split; [ exact Hfuel | ].
  destruct (proj1 (paginate_over_dataset forty_items 3 sample_world Hfuel))
    as (trace & Hrun & Hy & Hf & _).
  exists trace. split; [ exact Hrun | split; [ exact Hy | exact Hf ] ].
Defined.

(** The page size of the controller is 20: a dataset of 40 items takes
    three fetches, the last one empty. *)
Lemma _paginate_forty_items :
  let data := map sample_item (map Z.of_nat (seq 0 40)) in
  fst (_paginate 3 (serve_page data) sample_world) = Ok true
  /\ yielded (effects (snd (_paginate 3 (serve_page data) sample_world))) = data
  /\ fetches (effects (snd (_paginate 3 (serve_page data) sample_world)))
     = [(0, 20); (20, 20); (40, 20)].
Proof. vm_compute. repeat split; reflexivity. Qed.

(** ** C10: an evaluation that gives no result, inside a pagination *)

Lemma _js_runtime_evaluate_effects (expression : string) (timeout : Z) (w : world)
    (value : pyval) :
  fst (_js_runtime_evaluate expression timeout w) = Ok value ->
  snd (_js_runtime_evaluate expression timeout w)
  = add_effects w [Command "Runtime.evaluate" (evaluate_params expression timeout)].
Proof.
  unfold _js_runtime_evaluate, conn_command, bind, get_self, emit, lift, raise.
  destruct (chrome_conn (self w)) as [ | | c ]; cbn; try discriminate.
  destruct (send c _ _); cbn; [ reflexivity | discriminate ].
Qed.

Lemma event_listeners_page_run (function : string)
    (event_filter tag_name_filter : option (list string)) (start count : Z) (w : world)
    (value : pyval) :
  fst (get_js_variable_value
         (analyzer_call function event_filter tag_name_filter start count) w) = Ok value ->
  event_listeners_page function event_filter tag_name_filter start count w
  = (match value with
     | PNone => Ok []
     | _ => and_then (py_iter value) (fun items => Ok (map Build_EventListener items))
     end,
     add_effects w
       [Command "Runtime.evaluate"
          (evaluate_params
             (analyzer_call function event_filter tag_name_filter start count) 5)]).
Proof.
  intros H. unfold get_js_variable_value in H.
  pose proof (_js_runtime_evaluate_effects _ _ _ _ H) as Hw.
  unfold event_listeners_page, get_js_variable_value, bind.
  destruct (_js_runtime_evaluate _ 5 w) as [r w1]. cbn in H, Hw. subst r w1.
  destruct value; try reflexivity; cbn; unfold lift, bind, ret; cbn;
    try reflexivity.
Qed.

(** C10.  At any cursor of a pagination over event listeners (those set
    from JavaScript or those set in HTML, by the analyzer function called),
    when the evaluation gives [None] the page fetch raises nothing and has
    no item, the loop takes this for a short page and ends normally, and
    nothing is yielded any more.  The caller sees the same result and the
    same effects as when the evaluation gives an empty list, the end of the
    data. *)
Theorem evaluation_failure_ends_pagination
    (function : string) (event_filter tag_name_filter : option (list string))
    (fuel : nat) (start : Z) (w w_end : world) :
  let cmd := analyzer_call function event_filter tag_name_filter start
               PAGINATION_PAGE_COUNT in
  let functor := event_listeners_page function event_filter tag_name_filter in
  fst (get_js_variable_value cmd w) = Ok PNone ->
  fst (get_js_variable_value cmd w_end) = Ok (PList []) ->
  effects w_end = effects w ->
  fst (functor start PAGINATION_PAGE_COUNT w) = Ok []
  /\ fst (paginate_from PAGINATION_PAGE_COUNT (S fuel) functor start w) = Ok true
  /\ yielded (effects (snd (paginate_from PAGINATION_PAGE_COUNT (S fuel) functor start w)))
     = yielded (effects w)
  /\ fst (paginate_from PAGINATION_PAGE_COUNT (S fuel) functor start w_end) = Ok true
  /\ effects (snd (paginate_from PAGINATION_PAGE_COUNT (S fuel) functor start w_end))
     = effects (snd (paginate_from PAGINATION_PAGE_COUNT (S fuel) functor start w)).
Proof.
  cbv zeta. intros Hfail Hend Heff.
  pose proof (event_listeners_page_run _ _ _ _ _ _ _ Hfail) as Hpage.
  pose proof (event_listeners_page_run _ _ _ _ _ _ _ Hend) as Hpage_end.
  cbn [py_iter and_then map] in Hpage_end.
  rewrite (paginate_from_step _ fuel _ start w _ [] Hpage).
  rewrite (paginate_from_step _ fuel _ start w_end _ [] Hpage_end).
  rewrite Hpage. cbn.
  rewrite Heff, !app_nil_r, yielded_app. cbn. rewrite app_nil_r.
  repeat split; reflexivity.
Qed.

Lemma evaluation_failure_ends_pagination_witness :
  fst (get_js_variable_value
         (analyzer_call "getEventListeners" None None 20 PAGINATION_PAGE_COUNT)
         flaky_world) = Ok PNone
  /\ fst (get_js_variable_value
            (analyzer_call "getEventListeners" None None 20 PAGINATION_PAGE_COUNT)
            empty_world) = Ok (PList [])
  /\ effects empty_world = effects flaky_world
  /\ fst (get_js_event_listeners_paginated 20 PAGINATION_PAGE_COUNT None None flaky_world)
     = Ok []
  /\ fst (paginate_from PAGINATION_PAGE_COUNT 1
            (event_listeners_page "getEventListeners" None None) 20 flaky_world)
     = Ok true.
Proof.
  assert (Hfail : fst (get_js_variable_value
                         (analyzer_call "getEventListeners" None None 20
                            PAGINATION_PAGE_COUNT) flaky_world) = Ok PNone)
    by (vm_compute; reflexivity).
  assert (Hend : fst (get_js_variable_value
                        (analyzer_call "getEventListeners" None None 20
                           PAGINATION_PAGE_COUNT) empty_world) = Ok (PList []))
    by (vm_compute; reflexivity).
  assert (Heff : effects empty_world = effects flaky_world) by reflexivity.
  pose proof (evaluation_failure_ends_pagination "getEventListeners" None None 0 20
                flaky_world empty_world Hfail Hend Heff) as (H1 & H2 & _).
  repeat split; assumption.
Defined.

(** In the middle of an iteration: the browser holds more than twenty
    listeners, the second evaluation gives no result, and the caller gets
    twenty listeners from an iteration that ends normally after two
    evaluations. *)
Lemma failure_after_first_page_truncates :
  fst (get_js_event_listeners_iter 5 None None flaky_world) = Ok true
  /\ yielded (effects (snd (get_js_event_listeners_iter 5 None None flaky_world)))
     = map Build_EventListener twenty_listeners
  /\ List.length (filter is_evaluate
                    (effects (snd (get_js_event_listeners_iter 5 None None flaky_world))))
     = 2%nat.
Proof. vm_compute. repeat split; reflexivity. Qed.

(** ** C7: equality of event listener records *)

Lemma dict_get_in (k : string) (v : pyval) (d : list (string * pyval)) :
  NoDup (map fst d) -> In (k, v) d -> dict_get k d = Some v.
Proof.
  induction d as [ | [k' v'] d IH ]; intros Hnd Hin; [ destruct Hin | ].
  cbn in Hnd. inversion Hnd as [ | ? ? Hnotin Hnd' ]; subst.
  cbn. destruct Hin as [Heq | Hin].
  - injection Heq as -> ->. now rewrite String.eqb_refl.
  - destruct (String.eqb k' k) eqn:E.
    + apply String.eqb_eq in E. subst k'. exfalso. apply Hnotin.
      change k with (fst (k, v)). now apply in_map.
    + now apply IH.
Qed.

Lemma dict_get_perm (k : string) (d d' : list (string * pyval)) :
  Permutation d d' -> NoDup (map fst d) -> dict_get k d = dict_get k d'.
Proof.
  induction 1 as [ | [k1 v1] d d' Hperm IH | [k1 v1] [k2 v2] d | d d' d'' H1 IH1 H2 IH2 ];
    intros Hnd.
  - reflexivity.
  - cbn. inversion Hnd; subst. destruct (String.eqb k1 k); [ reflexivity | now apply IH ].
  - cbn. cbn in Hnd. inversion Hnd as [ | ? ? Hnotin _ ]; subst.
    destruct (String.eqb k1 k) eqn:E1; destruct (String.eqb k2 k) eqn:E2; try reflexivity.
    apply String.eqb_eq in E1, E2. subst. exfalso. apply Hnotin. now left.
  - rewrite IH1 by exact Hnd. apply IH2.
    eapply Permutation_NoDup; [ apply Permutation_map, H1 | exact Hnd ].
Qed.

Lemma list_eqb_with_refl (l : list pyval) :
  Forall (fun v => py_eqb v v = true) l -> list_eqb_with py_eqb l l = true.
Proof.
  induction 1 as [ | v l Hv _ IH ]; cbn; [ reflexivity | ].
  now rewrite Hv, IH.
Qed.

Lemma items_eqb_with_refl (d xs : list (string * pyval)) :
  NoDup (map fst d) -> incl xs d ->
  Forall (fun kv => py_eqb (snd kv) (snd kv) = true) xs ->
  items_eqb_with py_eqb d xs = true.
Proof.
  intros Hnd. induction xs as [ | [k v] xs IH ]; intros Hincl Hall; [ reflexivity | ].
  inversion Hall as [ | ? ? Hv Hall' ]; subst. cbn in Hv |- *.
  rewrite (dict_get_in k v d Hnd) by (apply Hincl; now left).
  rewrite Hv. cbn. apply IH; [ | exact Hall' ].
  intros x Hx. apply Hincl. now right.
Qed.

(** [v == v] for every value without duplicate keys. *)
Lemma py_eqb_refl (v : pyval) : wf_pyval v -> py_eqb v v = true.
Proof.
  induction v as [ | b | z | s | l IH | d IH ] using pyval_rect_nested; intros Hwf.
  - reflexivity.
  - cbn. now destruct b.
  - cbn. apply Z.eqb_refl.
  - cbn. apply String.eqb_refl.
  - inversion Hwf as [ | | | | l' Hl | ]; subst.
    cbn. apply list_eqb_with_refl.
    rewrite Forall_forall in *. auto.
  - inversion Hwf as [ | | | | | d' Hnd Hd ]; subst.
    cbn. rewrite Nat.eqb_refl. cbn.
    apply items_eqb_with_refl; [ exact Hnd | apply incl_refl | ].
    rewrite Forall_forall in *. auto.
Qed.

Lemma forallb_perm {A : Type} (f : A -> bool) (l l' : list A) :
  Permutation l l' -> forallb f l = forallb f l'.
Proof.
  induction 1 as [ | x l l' _ IH | x y l | l l' l'' _ IH1 _ IH2 ]; cbn.
  - reflexivity.
  - now rewrite IH.
  - destruct (f x), (f y); reflexivity.
  - now rewrite IH1.
Qed.

Lemma forallb_pointwise {A : Type} (f g : A -> bool) (l : list A) :
  (forall x, f x = g x) -> forallb f l = forallb g l.
Proof.
  intros Hfg. induction l as [ | x l IH ]; cbn; [ reflexivity | ].
  now rewrite Hfg, IH.
Qed.

Lemma eq_items_dict (items other : list (string * pyval)) :
  EventListener.eq_items items {| _event_as_dict := PDict other |}
  = Ok (forallb (fun kv => py_eqb (snd kv) (get_or_none (fst kv) other)) items).
Proof.
  induction items as [ | [k v] items IH ]; [ reflexivity | ].
  cbn. fold (get_or_none k other).
  destruct (py_eqb v (get_or_none k other)); cbn; [ exact IH | reflexivity ].
Qed.

Lemma eq_items_not_dict (items : list (string * pyval)) (other : EventListener) :
  (forall d, _event_as_dict other <> PDict d) ->
  EventListener.eq_items items other
  = match items with [] => Ok true | _ => Raise AttributeError end.
Proof.
  intros Hnd. destruct items as [ | [k v] items ]; [ reflexivity | ].
  cbn. unfold EventListener.get.
  destruct (_event_as_dict other); try reflexivity.
  exfalso. now apply (Hnd d).
Qed.

(** Records with a differing number of fields are not equal. *)
Lemma eq_differing_count (d1 d2 : list (string * pyval)) :
  List.length d1 <> List.length d2 ->
  EventListener.__eq__ {| _event_as_dict := PDict d1 |} {| _event_as_dict := PDict d2 |}
  = Ok false.
Proof.
  intros Hlen. unfold EventListener.__eq__, EventListener.__len__. cbn.
  destruct (Z.of_nat (List.length d2) =? Z.of_nat (List.length d1)) eqn:E;
    [ | reflexivity ].
  apply Z.eqb_eq in E. lia.
Qed.

(** X26.  A record whose values are [None], booleans, integers, strings,
    lists and dicts, with no key twice in a dict, is equal to itself.
    [pyval] has no floats, and the property stops there: [__eq__] compares
    the values with [!=], and a field that holds NaN differs from itself. *)
Lemma eq_reflexive (d : list (string * pyval)) :
  wf_pyval (PDict d) ->
  EventListener.__eq__ {| _event_as_dict := PDict d |} {| _event_as_dict := PDict d |}
  = Ok true.
Proof.
  intros Hwf. inversion Hwf as [ | | | | | d' Hnd Hd ]; subst.
  unfold EventListener.__eq__, EventListener.__len__. cbn.
  rewrite Z.eqb_refl. cbn. rewrite eq_items_dict. f_equal.
  apply forallb_forall. intros [k v] Hin. cbn.
  unfold get_or_none. rewrite (dict_get_in k v d Hnd Hin).
  apply py_eqb_refl. rewrite Forall_forall in Hd. exact (Hd (k, v) Hin).
Qed.

Lemma eq_items_perm (d d' : list (string * pyval)) (other : EventListener) :
  Permutation d d' ->
  EventListener.eq_items d other = EventListener.eq_items d' other.
Proof.
  intros Hperm.
  destruct other as [[ | b | z | s | l | od ]];
    try (rewrite !eq_items_not_dict by (cbn; congruence);
         destruct d as [ | x d ]; destruct d' as [ | x' d' ]; try reflexivity;
         [ apply Permutation_nil in Hperm
         | apply Permutation_sym, Permutation_nil in Hperm ]; discriminate Hperm).
  rewrite !eq_items_dict. f_equal. now apply forallb_perm.
Qed.

(** The order of the fields does not matter, on either side. *)
Lemma eq_field_order (d d' : list (string * pyval)) (other : EventListener) :
  Permutation d d' ->
  NoDup (map fst d) ->
  EventListener.__eq__ {| _event_as_dict := PDict d |} other
  = EventListener.__eq__ {| _event_as_dict := PDict d' |} other
  /\ EventListener.__eq__ other {| _event_as_dict := PDict d |}
     = EventListener.__eq__ other {| _event_as_dict := PDict d' |}.
Proof.
  intros Hperm Hnd. pose proof (Permutation_length Hperm) as Hlen. split.
  - unfold EventListener.__eq__. cbn. rewrite <- Hlen.
    now rewrite (eq_items_perm d d' other Hperm).
  - unfold EventListener.__eq__, EventListener.__len__. cbn. rewrite <- Hlen.
    destruct (py_len (_event_as_dict other)) as [n | e]; [ | reflexivity ].
    destruct (negb (Z.of_nat (List.length d) =? n)); [ reflexivity | ].
    destruct (_event_as_dict other) as [ | b | z | s | l | od ]; try reflexivity.
    rewrite !eq_items_dict. f_equal. apply forallb_pointwise. intros [k v]. cbn.
    unfold get_or_none. now rewrite (dict_get_perm k d d' Hperm Hnd).
Qed.

(** C7 at the failing input.  Two records of three fields each, one with a
    field holding [None] that the other lacks: the first equals the second
    and the second does not equal the first.  Their field names differ, so
    the first answer is not the equality of the data model either. *)
Theorem eq_is_not_symmetric :
  EventListener.__eq__ listener_with_null listener_with_text = Ok true
  /\ EventListener.__eq__ listener_with_text listener_with_null = Ok false
  /\ EventListener.__len__ listener_with_null = EventListener.__len__ listener_with_text.
Proof. repeat split; reflexivity. Qed.

(** The same two records the other way round in their fields. *)
Lemma eq_reordered :
  EventListener.__eq__ listener_with_null listener_reordered = Ok true
  /\ EventListener.__eq__ listener_reordered listener_with_null = Ok true.
Proof. split; reflexivity. Qed.

(** Where the defect ends: on records whose fields all hold strings, numbers
    or booleans, [__eq__] gives the same answer both ways. *)
Lemma py_eqb_plain_sym (a b : pyval) :
  is_plain a = true -> py_eqb a b = py_eqb b a.
Proof.
  destruct a as [ | x | x | x | l | d ]; intros Ha; try discriminate Ha;
    destruct b as [ | y | y | y | l' | d' ]; cbn; try reflexivity.
  - now destruct x, y.
  - apply Z.eqb_sym.
  - apply Z.eqb_sym.
  - apply Z.eqb_sym.
  - apply String.eqb_sym.
Qed.

Lemma in_keys (k : string) (d : list (string * pyval)) :
  In k (map fst d) -> exists v, In (k, v) d.
Proof.
  rewrite in_map_iff. intros ([k' v] & Hk & Hin). cbn in Hk. subst k'. now exists v.
Qed.

Lemma dict_get_some_in (k : string) (v : pyval) (d : list (string * pyval)) :
  dict_get k d = Some v -> In (k, v) d.
Proof.
  induction d as [ | [k' v'] d IH ]; cbn; [ discriminate | ].
  destruct (String.eqb k' k) eqn:E.
  - apply String.eqb_eq in E. intros H. injection H as ->. subst. now left.
  - intros H. right. now apply IH.
Qed.

Lemma eq_items_plain_forward (d1 d2 : list (string * pyval)) :
  plain_fields d1 -> plain_fields d2 ->
  List.length d1 = List.length d2 ->
  forallb (fun kv => py_eqb (snd kv) (get_or_none (fst kv) d2)) d1 = true ->
  forallb (fun kv => py_eqb (snd kv) (get_or_none (fst kv) d1)) d2 = true.
Proof.
  intros [Hnd1 Hpl1] [Hnd2 Hpl2] Hlen Hall.
  rewrite forallb_forall in Hall. rewrite Forall_forall in Hpl1, Hpl2.
  assert (Hfound : forall k v, In (k, v) d1 ->
                     exists w, dict_get k d2 = Some w /\ py_eqb v w = true).
  { intros k v Hin. pose proof (Hall (k, v) Hin) as Heq. cbn in Heq.
    pose proof (Hpl1 (k, v) Hin) as Hplain. cbn in Hplain.
    unfold get_or_none in Heq. destruct (dict_get k d2) as [w | ].
    - now exists w.
    - destruct v; discriminate. }
  assert (Hincl : incl (map fst d2) (map fst d1)).
  { apply NoDup_length_incl; [ exact Hnd1 | rewrite !length_map; lia | ].
    intros k Hk. apply in_keys in Hk as (v & Hin).
    destruct (Hfound k v Hin) as (w & Hget & _).
    apply dict_get_some_in in Hget.
    change k with (fst (k, w)). now apply in_map. }
  apply forallb_forall. intros [k w] Hin2. cbn.
  assert (Hk : In k (map fst d1)).
  { apply Hincl. change k with (fst (k, w)). now apply in_map. }
  apply in_keys in Hk as (v & Hin1).
  destruct (Hfound k v Hin1) as (w' & Hget & Heq).
  rewrite (dict_get_in k w d2 Hnd2 Hin2) in Hget. injection Hget as <-.
  unfold get_or_none. rewrite (dict_get_in k v d1 Hnd1 Hin1).
  rewrite <- py_eqb_plain_sym; [ exact Heq | ].
  exact (Hpl1 (k, v) Hin1).
Qed.

Lemma eq_symmetric_on_plain_fields (d1 d2 : list (string * pyval)) :
  plain_fields d1 -> plain_fields d2 ->
  EventListener.__eq__ {| _event_as_dict := PDict d1 |} {| _event_as_dict := PDict d2 |}
  = EventListener.__eq__ {| _event_as_dict := PDict d2 |} {| _event_as_dict := PDict d1 |}.
Proof.
  intros H1 H2. unfold EventListener.__eq__, EventListener.__len__. cbn.
  rewrite (Z.eqb_sym (Z.of_nat (List.length d1))).
  destruct (Z.of_nat (List.length d2) =? Z.of_nat (List.length d1)) eqn:E;
    [ | reflexivity ].
  apply Z.eqb_eq in E. cbn. rewrite !eq_items_dict. f_equal.
  destruct (forallb _ d1) eqn:F1; destruct (forallb _ d2) eqn:F2; try reflexivity.
  - rewrite (eq_items_plain_forward d1 d2 H1 H2 ltac:(lia) F1) in F2. discriminate F2.
  - rewrite (eq_items_plain_forward d2 d1 H2 H1 ltac:(lia) F2) in F1. discriminate F1.
Qed.

(* ===================================================================== *)
(** * Further properties of the controller *)
(* ===================================================================== *)

(** ** Escaping *)

Lemma _escape_js_string_quotes (escaped : bool) (text : string) :
  quotes_follow_backslash escaped (_escape_js_string text) = true.
Proof.
  revert escaped. induction text as [ | c text IH ]; intros escaped; [ reflexivity | ].
  cbn [_escape_js_string].
  destruct (Ascii.eqb c double_quote) eqn:E.
  - cbn. rewrite IH. reflexivity.
  - cbn. rewrite E, IH. reflexivity.
Qed.

Lemma _escape_js_string_length (text : string) :
  String.length (_escape_js_string text)
  = (String.length text + count_char double_quote text)%nat.
Proof.
  induction text as [ | c text IH ]; [ reflexivity | ].
  cbn [_escape_js_string count_char String.length].
  destruct (Ascii.eqb c double_quote); cbn [String.length]; rewrite IH; lia.
Qed.

(** X1.  In the text [_escape_js_string] returns, every double quote has a
    backslash right before it, and the text is longer than the argument by
    the number of double quotes in the argument. *)
Theorem _escape_js_string_escapes_every_quote (text : string) :
  quotes_follow_backslash false (_escape_js_string text) = true
  /\ String.length (_escape_js_string text)
     = (String.length text + count_char double_quote text)%nat.
Proof.
  split; [ apply _escape_js_string_quotes | apply _escape_js_string_length ].
Qed.

(** X2.  [_escape_js_string] returns its argument unchanged exactly when the
    argument has no double quote; backslashes are never touched. *)
Theorem _escape_js_string_unchanged_iff (text : string) :
  _escape_js_string text = text <-> count_char double_quote text = O.
Proof.
  split.
  - intros H.
    pose proof (_escape_js_string_length text) as Hlen.
    rewrite H in Hlen. lia.
  - induction text as [ | c text IH ]; [ reflexivity | ].
    cbn [count_char _escape_js_string].
    destruct (Ascii.eqb c double_quote); [ discriminate | ].
    intros H. now rewrite IH.
Qed.

(** ** Reading answers of the connection *)

Lemma conn_command_run (method : string) (params : list (string * pyval)) (w : world)
    (c : DebugChromeInterface) :
  chrome_conn (self w) = Obj c ->
  conn_command method params w = (send c method params, add_effects w [Command method params]).
Proof.
  intros Hc. unfold conn_command, bind, get_self, emit, lift. cbn. rewrite Hc. reflexivity.
Qed.

Lemma conn_command_no_connection (method : string) (params : list (string * pyval))
    (w : world) :
  (forall c, chrome_conn (self w) <> Obj c) ->
  conn_command method params w = (Raise AttributeError, w).
Proof.
  intros Hc. unfold conn_command, bind, get_self, raise. cbn.
  destruct (chrome_conn (self w)) as [ | | c ]; try reflexivity.
  now destruct (Hc c).
Qed.





(** X4.  For an answer whose outer result is a dict, [get_dom] returns
    [None] when [exceptionDetails] is a non-empty dict, whatever value the
    answer carries; without [exceptionDetails], a result that has no value
    makes [get_dom] raise [KeyError], where [_js_runtime_evaluate] decodes
    the same answer to [None]. *)
Theorem get_dom_exception_and_missing_value
    (w : world) (c : DebugChromeInterface) (d outer : list (string * pyval)) :
  chrome_conn (self w) = Obj c ->
  send c "Runtime.evaluate" [("expression", PStr "document.documentElement.outerHTML")]
  = Ok (PDict d) ->
  dict_get "result" d = Some (PDict outer) ->
  (forall item details,
      dict_get "exceptionDetails" outer = Some (PDict (item :: details)) ->
      fst (get_dom w) = Ok PNone)
  /\ (forall inner,
        dict_get "exceptionDetails" outer = None ->
        dict_get "result" outer = Some (PDict inner) ->
        dict_get "value" inner = None ->
        fst (get_dom w) = Raise KeyError
        /\ decode_evaluate_result (PDict d) = Ok PNone).
Proof.
  intros Hc Hsend Hd.
  unfold get_dom, bind. rewrite (conn_command_run _ _ w c Hc), Hsend. cbn.
  rewrite Hd. split.
  - intros item details He. rewrite He. reflexivity.
  - intros inner He Hr Hv. rewrite He. cbn. unfold lift. cbn.
    rewrite Hr. cbn. rewrite Hv. cbn.
    split; reflexivity.
Qed.

Lemma get_dom_exception_and_missing_value_witness :
  fst (get_dom throwing_world) = Ok PNone
  /\ fst (get_dom no_value_world) = Raise KeyError
  /\ decode_evaluate_result no_value_answer = Ok PNone.
Proof.
  split.
  - refine (proj1 (get_dom_exception_and_missing_value throwing_world throwing_conn
                     _ _ eq_refl eq_refl eq_refl) _ _ eq_refl).
  - refine (proj2 (get_dom_exception_and_missing_value no_value_world no_value_conn
                     _ _ eq_refl eq_refl eq_refl) _ eq_refl eq_refl eq_refl).
Defined.

(** ** Navigation history *)

Lemma get_navigation_history_index_run (w : world) (c : DebugChromeInterface)
    (d history : list (string * pyval)) (entries index : pyval) :
  chrome_conn (self w) = Obj c ->
  send c "Page.getNavigationHistory" [] = Ok (PDict d) ->
  dict_get "result" d = Some (PDict history) ->
  dict_get "entries" history = Some entries ->
  dict_get "currentIndex" history = Some index ->
  fst (get_navigation_history_index w)
  = and_then (py_subscript entries index) (fun entry => py_getitem entry "id").
Proof.
  intros Hc Hsend Hd He Hi.
  unfold get_navigation_history_index, get_navigation_history, bind.
  rewrite (conn_command_run _ _ w c Hc), Hsend. unfold lift. cbn.
  rewrite Hd. cbn. rewrite He. cbn. rewrite Hi. cbn.
  destruct (py_subscript entries index) as [entry | e]; cbn; reflexivity.
Qed.

(** X5.  [get_navigation_history_index] returns the id of the entry at
    [currentIndex]; a negative [currentIndex] counts from the end of the
    entries, and one outside the entries raises [IndexError]. *)
Theorem get_navigation_history_index_entry
    (w : world) (c : DebugChromeInterface) (d history : list (string * pyval))
    (entries : list pyval) (index : Z) :
  chrome_conn (self w) = Obj c ->
  send c "Page.getNavigationHistory" [] = Ok (PDict d) ->
  dict_get "result" d = Some (PDict history) ->
  dict_get "entries" history = Some (PList entries) ->
  dict_get "currentIndex" history = Some (PInt index) ->
  let n := Z.of_nat (List.length entries) in
  (forall entry ident,
      0 <= index < n ->
      nth_error entries (Z.to_nat index) = Some (PDict entry) ->
      dict_get "id" entry = Some ident ->
      fst (get_navigation_history_index w) = Ok ident)
  /\ (forall entry ident,
        - n <= index < 0 ->
        nth_error entries (Z.to_nat (index + n)) = Some (PDict entry) ->
        dict_get "id" entry = Some ident ->
        fst (get_navigation_history_index w) = Ok ident)
  /\ (index < - n \/ n <= index ->
      fst (get_navigation_history_index w) = Raise IndexError).
Proof.
  intros Hc Hsend Hd He Hi n.
  rewrite (get_navigation_history_index_run w c d history _ _ Hc Hsend Hd He Hi).
  cbn [py_subscript]. unfold py_index_list. fold n.
  repeat split.
  - intros entry ident Hrange Hnth Hid.
    destruct (index <? 0) eqn:E1; [ apply Z.ltb_lt in E1; lia | ].
    replace ((index <? 0) || (n <=? index)) with false.
    2:{ symmetry. apply orb_false_iff. split; [ exact E1 | apply Z.leb_gt; lia ]. }
    rewrite Hnth. cbn. now rewrite Hid.
  - intros entry ident Hrange Hnth Hid.
    destruct (index <? 0) eqn:E1; [ | apply Z.ltb_ge in E1; lia ].
    replace ((index + n <? 0) || (n <=? index + n)) with false.
    2:{ symmetry. apply orb_false_iff. split; [ apply Z.ltb_ge | apply Z.leb_gt ]; lia. }
    rewrite Hnth. cbn. now rewrite Hid.
  - intros Hout.
    destruct (index <? 0) eqn:E1.
    + apply Z.ltb_lt in E1.
      replace ((index + n <? 0) || (n <=? index + n)) with true; [ reflexivity | ].
      symmetry. apply orb_true_iff. left. apply Z.ltb_lt. lia.
    + apply Z.ltb_ge in E1.
      replace ((index <? 0) || (n <=? index)) with true; [ reflexivity | ].
      symmetry. apply orb_true_iff. right. apply Z.leb_le. lia.
Qed.

Lemma get_navigation_history_index_entry_witness :
  chrome_conn (self history_world) = Obj history_conn
  /\ fst (get_navigation_history_index history_world) = Ok (PInt 5).
Proof.
  split; [ reflexivity | ].
  refine (proj1 (get_navigation_history_index_entry history_world history_conn
                   _ _ sample_entries 2 eq_refl eq_refl eq_refl eq_refl eq_refl)
            _ (PInt 5) _ eq_refl eq_refl).
  cbn. lia.
Defined.

(** ** Timer listings and the list forms of the iterators *)

Lemma _js_runtime_evaluate_run (expression : string) (timeout : Z) (w : world)
    (c : DebugChromeInterface) (answer : pyval) :
  chrome_conn (self w) = Obj c ->
  send c "Runtime.evaluate" (evaluate_params expression timeout) = Ok answer ->
  _js_runtime_evaluate expression timeout w
  = (decode_evaluate_result answer,
     add_effects w [Command "Runtime.evaluate" (evaluate_params expression timeout)]).
Proof.
  intros Hc Hsend. unfold _js_runtime_evaluate, bind.
  rewrite (conn_command_run _ _ w c Hc), Hsend. reflexivity.
Qed.

Lemma list_paginate_from_raise {A : Type} (page_count : Z) (fuel : nat)
    (functor : Z -> Z -> M (list A)) (start : Z) (w w1 : world) (e : pyexn) :
  functor start page_count w = (Raise e, w1) ->
  list_paginate_from page_count (S fuel) functor start w = (Raise e, w1).
Proof. intros H. cbn [list_paginate_from]. unfold bind at 1. now rewrite H. Qed.

Lemma list_paginate_from_step {A : Type} (page_count : Z) (fuel : nat)
    (functor : Z -> Z -> M (list A)) (start : Z) (w w1 : world) (page : list A) :
  functor start page_count w = (Ok page, w1) ->
  list_paginate_from page_count (S fuel) functor start w
  = if Z.of_nat (List.length page) <? page_count
    then (Ok (Some page), w1)
    else
      match list_paginate_from page_count fuel functor (start + page_count) w1 with
      | (Ok rest, w2) => (Ok (option_map (fun items => page ++ items)%list rest), w2)
      | (Raise e, w2) => (Raise e, w2)
      end.
Proof.
  intros H. cbn [list_paginate_from]. unfold bind at 1. rewrite H.
  destruct (Z.of_nat (List.length page) <? page_count); [ reflexivity | ].
  unfold bind, ret.
  destruct (list_paginate_from page_count fuel functor (start + page_count) w1)
    as [[rest | e] w2]; reflexivity.
Qed.

Lemma iterate_none (page : M pyval) (w : world) :
  fst (page w) = Ok PNone -> iterate page w = (Raise TypeError, snd (page w)).
Proof.
  intros H. unfold iterate, bind, lift.
  destruct (page w) as [[v | e] w1]; cbn in H; [ | discriminate H ].
  injection H as ->. reflexivity.
Qed.

(** X6.  At any cursor of [get_js_set_timeouts] or [get_js_set_intervals],
    an evaluation that gives [None] makes the listing raise [TypeError]: the
    page functions return [None] as it is and the loop iterates over it.
    The items of the pages before are not returned. *)
Theorem timer_listing_raises_on_no_result (fuel : nat) (start : Z) (w : world) :
  (fst (get_js_variable_value
          (timers_call "getSetTimeouts" start PAGINATION_PAGE_COUNT) w) = Ok PNone ->
   fst (list_paginate_from PAGINATION_PAGE_COUNT (S fuel)
          (fun start count => iterate (get_js_set_timeouts_paginated start count))
          start w) = Raise TypeError)
  /\ (fst (get_js_variable_value
             (timers_call "getSetIntervals" start PAGINATION_PAGE_COUNT) w) = Ok PNone ->
      fst (list_paginate_from PAGINATION_PAGE_COUNT (S fuel)
             (fun start count => iterate (get_js_set_intervals_paginated start count))
             start w) = Raise TypeError).
Proof.
  split; intros H;
    erewrite list_paginate_from_raise; [ reflexivity | | reflexivity | ];
    apply iterate_none; exact H.
Qed.

Lemma timer_listing_raises_on_no_result_witness :
  fst (get_js_variable_value (timers_call "getSetTimeouts" 0 PAGINATION_PAGE_COUNT)
         sample_world) = Ok PNone
  /\ fst (get_js_set_timeouts 1 sample_world) = Raise TypeError.
Proof.
  assert (H : fst (get_js_variable_value
                     (timers_call "getSetTimeouts" 0 PAGINATION_PAGE_COUNT)
                     sample_world) = Ok PNone) by (vm_compute; reflexivity).
  split; [ exact H | ].
  exact (proj1 (timer_listing_raises_on_no_result 0 0 sample_world) H).
Defined.

(** What an evaluation answers depends on the attributes alone, and what it
    adds to the effects has no yield. *)
Lemma get_js_variable_value_frame (expression : string) (w : world) :
  exists r es,
    filter is_yield es = []
    /\ forall w', self w' = self w ->
         get_js_variable_value expression w' = (r, add_effects w' es).
Proof.
  unfold get_js_variable_value, _js_runtime_evaluate, bind.
  destruct (chrome_conn (self w)) as [ | | c ] eqn:Hc.
  - exists (Raise AttributeError), []. split; [ reflexivity | ].
    intros w' Hw. rewrite conn_command_no_connection, add_effects_nil; [ reflexivity | ].
    intros c. rewrite Hw, Hc. discriminate.
  - exists (Raise AttributeError), []. split; [ reflexivity | ].
    intros w' Hw. rewrite conn_command_no_connection, add_effects_nil; [ reflexivity | ].
    intros c. rewrite Hw, Hc. discriminate.
  - destruct (send c "Runtime.evaluate" (evaluate_params expression 5))
      as [answer | e] eqn:Hs.
    + exists (decode_evaluate_result answer),
             [Command "Runtime.evaluate" (evaluate_params expression 5)].
      split; [ reflexivity | ].
      intros w' Hw. rewrite (conn_command_run _ _ w' c), Hs; [ reflexivity | ].
      now rewrite Hw.
    + exists (Raise e), [Command "Runtime.evaluate" (evaluate_params expression 5)].
      split; [ reflexivity | ].
      intros w' Hw. rewrite (conn_command_run _ _ w' c), Hs; [ reflexivity | ].
      now rewrite Hw.
Qed.

Lemma event_listeners_page_frame (function : string)
    (event_filter tag_name_filter : option (list string)) (start count : Z) (w : world) :
  exists r es,
    filter is_yield es = []
    /\ forall w', self w' = self w ->
         event_listeners_page function event_filter tag_name_filter start count w'
         = (r, add_effects w' es).
Proof.
  destruct (get_js_variable_value_frame
              (analyzer_call function event_filter tag_name_filter start count) w)
    as (r & es & Hes & Hrun).
  exists (match r with
          | Ok PNone => Ok []
          | Ok value => and_then (py_iter value)
                          (fun items => Ok (map Build_EventListener items))
          | Raise e => Raise e
          end), es.
  split; [ exact Hes | ].
  intros w' Hw. unfold event_listeners_page, bind. rewrite (Hrun w' Hw).
  destruct r as [value | e]; [ | reflexivity ].
  destruct value; try reflexivity; unfold lift, bind, ret; cbn;
    try reflexivity.
Qed.

Lemma no_yield_yielded (es : list effect) : filter is_yield es = [] -> yielded es = [].
Proof.
  induction es as [ | e es IH ]; [ reflexivity | ].
  destruct e; cbn; try exact IH. discriminate.
Qed.

Lemma no_yield_not_yield (es : list effect) :
  filter is_yield es = [] -> filter not_yield es = es.
Proof.
  induction es as [ | e es IH ]; [ reflexivity | ].
  destruct e; cbn; intros H; try (now rewrite (IH H)). discriminate H.
Qed.

Lemma not_yield_yields (items : list EventListener) :
  filter not_yield (map Yield items) = [].
Proof. induction items as [ | x items IH ]; [ reflexivity | exact IH ]. Qed.

Lemma list_paginate_matches_iterator (function : string)
    (event_filter tag_name_filter : option (list string)) (fuel : nat) :
  forall (start : Z) (w w' : world),
    self w = self w' ->
    let page := event_listeners_page function event_filter tag_name_filter in
    exists trace,
      snd (paginate_from PAGINATION_PAGE_COUNT fuel page start w) = add_effects w trace
      /\ snd (list_paginate_from PAGINATION_PAGE_COUNT fuel page start w')
         = add_effects w' (filter not_yield trace)
      /\ same_outcome (fst (paginate_from PAGINATION_PAGE_COUNT fuel page start w))
           (fst (list_paginate_from PAGINATION_PAGE_COUNT fuel page start w'))
           (yielded trace).
Proof.
  cbv zeta. induction fuel as [ | fuel IH ]; intros start w w' Hself.
  - exists []. cbn. rewrite !add_effects_nil. repeat split.
  - destruct (event_listeners_page_frame function event_filter tag_name_filter start
                PAGINATION_PAGE_COUNT w) as (r & es & Hes & Hrun).
    pose proof (Hrun w eq_refl) as Hw.
    pose proof (Hrun w' (eq_sym Hself)) as Hw'.
    destruct r as [page | e].
    + rewrite (paginate_from_step _ fuel _ start w _ page Hw).
      rewrite (list_paginate_from_step _ fuel _ start w' _ page Hw').
      destruct (Z.of_nat (List.length page) <? PAGINATION_PAGE_COUNT).
      * exists (es ++ map Yield page)%list. cbn [fst snd].
        rewrite add_effects_app, filter_app, not_yield_yields, app_nil_r.
        rewrite (no_yield_not_yield es Hes).
        rewrite yielded_app, (no_yield_yielded es Hes), yielded_yields.
        repeat split.
      * destruct (IH (start + PAGINATION_PAGE_COUNT)
                    (add_effects (add_effects w es) (map Yield page))
                    (add_effects w' es) Hself) as (trace & Ht & Ht' & Hsame).
        exists (es ++ map Yield page ++ trace)%list.
        destruct (paginate_from PAGINATION_PAGE_COUNT fuel _ _
                    (add_effects (add_effects w es) (map Yield page))) as [ri wi].
        destruct (list_paginate_from PAGINATION_PAGE_COUNT fuel _ _ (add_effects w' es))
          as [rl wl].
        cbn [fst snd] in *.
        rewrite !filter_app, not_yield_yields, (no_yield_not_yield es Hes).
        rewrite !yielded_app, (no_yield_yielded es Hes), yielded_yields. cbn [app].
        subst wi wl. rewrite !add_effects_app.
        destruct rl as [[rest | ] | e']; destruct ri as [[ | ] | e]; cbn in Hsame |- *;
          try contradiction; repeat split; try reflexivity; try assumption.
        now subst rest.
    + rewrite (paginate_from_raise _ fuel _ start w _ e Hw).
      rewrite (list_paginate_from_raise _ fuel _ start w' _ e Hw').
      exists es. cbn [fst snd]. rewrite (no_yield_not_yield es Hes). repeat split.
Qed.

(** The two ways the embedding writes [list(self.<iterator>(...))] agree:
    the list forms give the listeners that the iterators of the same name
    yield, in the same order, after the same commands, and raise when the
    iterator does, with the same exception. *)
Lemma event_listener_lists_match_iterators (fuel : nat)
    (event_filter tag_name_filter : option (list string)) (w : world) :
  (exists trace,
      snd (get_js_event_listeners_iter fuel event_filter tag_name_filter w)
      = add_effects w trace
      /\ snd (get_js_event_listeners fuel event_filter tag_name_filter w)
         = add_effects w (filter not_yield trace)
      /\ same_outcome (fst (get_js_event_listeners_iter fuel event_filter tag_name_filter w))
           (fst (get_js_event_listeners fuel event_filter tag_name_filter w))
           (yielded trace))
  /\ (exists trace,
        snd (get_html_event_listeners_iter fuel event_filter tag_name_filter w)
        = add_effects w trace
        /\ snd (get_html_event_listeners fuel event_filter tag_name_filter w)
           = add_effects w (filter not_yield trace)
        /\ same_outcome
             (fst (get_html_event_listeners_iter fuel event_filter tag_name_filter w))
             (fst (get_html_event_listeners fuel event_filter tag_name_filter w))
             (yielded trace)).
Proof.
  split.
  - exact (list_paginate_matches_iterator "getEventListeners" event_filter tag_name_filter
             fuel 0 w w eq_refl).
  - exact (list_paginate_matches_iterator "getElementsWithEventHandlers" event_filter
             tag_name_filter fuel 0 w w eq_refl).
Qed.

(** ** Both kinds of listeners, one after the other *)

Lemma event_listeners_page_list (function : string)
    (event_filter tag_name_filter : option (list string)) (start count : Z) (w : world)
    (c : DebugChromeInterface) (answer : pyval) (items : list pyval) :
  chrome_conn (self w) = Obj c ->
  send c "Runtime.evaluate"
    (evaluate_params (analyzer_call function event_filter tag_name_filter start count) 5)
  = Ok answer ->
  decode_evaluate_result answer = Ok (PList items) ->
  event_listeners_page function event_filter tag_name_filter start count w
  = (Ok (map Build_EventListener items),
     add_effects w
       [Command "Runtime.evaluate"
          (evaluate_params
             (analyzer_call function event_filter tag_name_filter start count) 5)]).
Proof.
  intros Hc Hsend Hdec.
  assert (H : fst (get_js_variable_value
                     (analyzer_call function event_filter tag_name_filter start count) w)
              = Ok (PList items)).
  { unfold get_js_variable_value.
    rewrite (_js_runtime_evaluate_run _ _ w c answer Hc Hsend). exact Hdec. }
  rewrite (event_listeners_page_run _ _ _ _ _ _ _ H). reflexivity.
Qed.

(** X8.  When the browser has fewer than twenty listeners of each kind,
    [get_all_event_listeners] makes two evaluations, first
    [getEventListeners] and then [getElementsWithEventHandlers], each at
    cursor 0, and yields the JavaScript listeners followed by the HTML
    listeners. *)
Theorem get_all_event_listeners_js_then_html
    (fuel : nat) (event_filter tag_name_filter : option (list string)) (w : world)
    (c : DebugChromeInterface) (js_answer html_answer : pyval) (js html : list pyval) :
  let js_cmd := analyzer_call "getEventListeners" event_filter tag_name_filter 0
                  PAGINATION_PAGE_COUNT in
  let html_cmd := analyzer_call "getElementsWithEventHandlers" event_filter
                    tag_name_filter 0 PAGINATION_PAGE_COUNT in
  chrome_conn (self w) = Obj c ->
  send c "Runtime.evaluate" (evaluate_params js_cmd 5) = Ok js_answer ->
  decode_evaluate_result js_answer = Ok (PList js) ->
  send c "Runtime.evaluate" (evaluate_params html_cmd 5) = Ok html_answer ->
  decode_evaluate_result html_answer = Ok (PList html) ->
  Z.of_nat (List.length js) < PAGINATION_PAGE_COUNT ->
  Z.of_nat (List.length html) < PAGINATION_PAGE_COUNT ->
  get_all_event_listeners (S fuel) event_filter tag_name_filter w
  = (Ok true,
     add_effects w
       ([Command "Runtime.evaluate" (evaluate_params js_cmd 5)]
          ++ map Yield (map Build_EventListener js)
          ++ [Command "Runtime.evaluate" (evaluate_params html_cmd 5)]
          ++ map Yield (map Build_EventListener html))).
Proof.
  cbv zeta. intros Hc Hjs Hjsd Hhtml Hhtmld Hljs Hlhtml.
  unfold get_all_event_listeners, get_js_event_listeners_iter,
    get_html_event_listeners_iter, _paginate, bind.
  pose proof (event_listeners_page_list "getEventListeners" event_filter tag_name_filter
                0 PAGINATION_PAGE_COUNT w c js_answer js Hc Hjs Hjsd) as Hpage.
  rewrite (paginate_from_step _ fuel
             (fun start count =>
                get_js_event_listeners_paginated start count event_filter tag_name_filter)
             0 w _ _ Hpage).
  rewrite length_map.
  apply Z.ltb_lt in Hljs. rewrite Hljs.
  set (w1 := add_effects (add_effects w _) _).
  pose proof (event_listeners_page_list "getElementsWithEventHandlers" event_filter
                tag_name_filter 0 PAGINATION_PAGE_COUNT w1 c html_answer html Hc Hhtml
                Hhtmld) as Hpage2.
  rewrite (paginate_from_step _ fuel
             (fun start count =>
                get_html_event_listeners_paginated start count event_filter
                  tag_name_filter)
             0 w1 _ _ Hpage2).
  rewrite length_map.
  apply Z.ltb_lt in Hlhtml. rewrite Hlhtml.
  unfold w1. rewrite !add_effects_app. reflexivity.
Qed.

Lemma get_all_event_listeners_js_then_html_witness :
  yielded (effects (snd (get_all_event_listeners 1 None None listing_world)))
  = map Build_EventListener (js_listeners ++ html_listeners).
Proof.
  rewrite (get_all_event_listeners_js_then_html 0 None None listing_world listing_conn
             (value_response (PList js_listeners)) (value_response (PList html_listeners))
             js_listeners html_listeners eq_refl eq_refl eq_refl eq_refl eq_refl
             ltac:(vm_compute; reflexivity) ltac:(vm_compute; reflexivity)).
  reflexivity.
Defined.

(** ** Navigation commands that fail *)

(** X9.  [load_url] and [navigate_to_history_index] set the page state to
    LOADING before they send their command: without a connection they raise
    [AttributeError] and send nothing, when the connection raises they
    raise what it raised, and in both cases the page state is left
    LOADING. *)
Theorem navigation_sets_loading_before_failing (w : world) (url : string) (index : Z) :
  ((forall c, chrome_conn (self w) <> Obj c) ->
   load_url url w
   = (Raise AttributeError, with_self w (set_page_state PAGE_STATE_LOADING (self w)))
   /\ navigate_to_history_index index w
      = (Raise AttributeError, with_self w (set_page_state PAGE_STATE_LOADING (self w))))
  /\ (forall c e,
        chrome_conn (self w) = Obj c ->
        (send c "Page.navigate" [("url", PStr url); ("timeout", PInt PAGE_LOAD_TIMEOUT)]
         = Raise e ->
         fst (load_url url w) = Raise e
         /\ _page_state (self (snd (load_url url w))) = PAGE_STATE_LOADING)
        /\ (send c "Page.navigateToHistoryEntry" [("entryId", PInt index)] = Raise e ->
            fst (navigate_to_history_index index w) = Raise e
            /\ _page_state (self (snd (navigate_to_history_index index w)))
               = PAGE_STATE_LOADING)).
Proof.
  split.
  - intros Hc.
    unfold load_url, navigate_to_history_index, bind, set_self.
    rewrite !conn_command_no_connection by exact Hc. split; reflexivity.
  - intros c e Hc. split; intros Hsend.
    + rewrite load_url_self. split; [ | reflexivity ].
      unfold load_url, bind, set_self.
      erewrite conn_command_run by exact Hc. rewrite Hsend. reflexivity.
    + rewrite navigate_to_history_index_self. split; [ | reflexivity ].
      unfold navigate_to_history_index, bind, set_self.
      erewrite conn_command_run by exact Hc. rewrite Hsend. reflexivity.
Qed.

Lemma navigation_sets_loading_before_failing_witness :
  (forall c, chrome_conn (self (snd (terminate sample_world))) <> Obj c)
  /\ fst (load_url "http://example.test/" (snd (terminate sample_world)))
     = Raise AttributeError
  /\ _page_state (self (snd (load_url "http://example.test/"
                               (snd (terminate sample_world)))))
     = PAGE_STATE_LOADING.
Proof.
  assert (Hc : forall c, chrome_conn (self (snd (terminate sample_world))) <> Obj c)
    by (intros c; discriminate).
  split; [ exact Hc | ].
  destruct (navigation_sets_loading_before_failing (snd (terminate sample_world))
              "http://example.test/" 0) as [H _].
  destruct (H Hc) as [-> _]. split; reflexivity.
Defined.

(** ** Outcomes of an event dispatch *)

(** X10.  For an event type that passes the check, [dispatch_js_event]
    sends one evaluation, with the selector escaped, and its answer is read
    off what the evaluation gave: [None] raises [EventTimeout], [False]
    raises [EventException], and every other value, zero and the empty
    string among them, gives [True]. *)
Theorem dispatch_js_event_outcome
    (selector event_type : string) (w : world) (c : DebugChromeInterface)
    (answer value : pyval) :
  let cmd := dispatch_cmd (_escape_js_string selector) event_type in
  _is_valid_event_type event_type = true ->
  chrome_conn (self w) = Obj c ->
  send c "Runtime.evaluate" (evaluate_params cmd 5) = Ok answer ->
  decode_evaluate_result answer = Ok value ->
  dispatch_js_event selector event_type w
  = (dispatch_outcome value,
     add_effects w [Command "Runtime.evaluate" (evaluate_params cmd 5)]).
Proof.
  cbv zeta. intros Hvalid Hc Hsend Hdec.
  unfold dispatch_js_event. rewrite Hvalid. cbn [negb]. unfold bind.
  rewrite (_js_runtime_evaluate_run _ _ w c answer Hc Hsend), Hdec.
  destruct value as [ | [ | ] | | | | ]; reflexivity.
Qed.

Lemma dispatch_js_event_outcome_witness :
  _is_valid_event_type "click" = true
  /\ fst (dispatch_js_event "#go" "click" sample_world) = Raise EventTimeout.
Proof.
  split; [ reflexivity | ].
  rewrite (dispatch_js_event_outcome "#go" "click" sample_world sample_conn PNone PNone
             eq_refl eq_refl eq_refl eq_refl).
  reflexivity.
Defined.

(** ** Fields of an event listener record *)

Lemma dict_get_set_same (key : string) (value : pyval) (d : list (string * pyval)) :
  dict_get key (dict_set key value d) = Some value.
Proof.
  induction d as [ | [k v] d IH ]; cbn.
  - now rewrite String.eqb_refl.
  - destruct (String.eqb k key) eqn:E; cbn; rewrite E; [ reflexivity | exact IH ].
Qed.

Lemma dict_get_set_other (key other : string) (value : pyval) (d : list (string * pyval)) :
  other <> key -> dict_get other (dict_set key value d) = dict_get other d.
Proof.
  intros Hne. induction d as [ | [k v] d IH ]; cbn.
  - destruct (String.eqb key other) eqn:E; [ | reflexivity ].
    apply String.eqb_eq in E. congruence.
  - destruct (String.eqb k key) eqn:E; cbn.
    + apply String.eqb_eq in E. subst k.
      destruct (String.eqb key other) eqn:E'; [ | reflexivity ].
      apply String.eqb_eq in E'. congruence.
    + destruct (String.eqb k other); [ reflexivity | exact IH ].
Qed.

Lemma dict_set_keys (key : string) (value : pyval) (d : list (string * pyval)) :
  map fst (dict_set key value d)
  = match dict_get key d with
    | Some _ => map fst d
    | None => (map fst d ++ [key])%list
    end.
Proof.
  induction d as [ | [k v] d IH ]; cbn; [ reflexivity | ].
  destruct (String.eqb k key) eqn:E; cbn; [ reflexivity | ].
  rewrite IH. destruct (dict_get key d); reflexivity.
Qed.

Lemma dict_get_none_not_key (key : string) (d : list (string * pyval)) :
  dict_get key d = None -> ~ In key (map fst d).
Proof.
  induction d as [ | [k v] d IH ]; cbn; [ tauto | ].
  destruct (String.eqb k key) eqn:E; [ discriminate | ].
  intros H [Hk | Hin]; [ | now apply IH ].
  subst k. now rewrite String.eqb_refl in E.
Qed.

(** X11.  After [record[key] = value] on a record backed by a dict, both
    [record[key]] and [record.get(key)] give [value], every other key reads
    as before, the record has one more field if [key] was absent and as
    many otherwise, and no key occurs twice if none did before.  On a
    record that is not backed by a dict the assignment raises
    [TypeError]. *)
Theorem setitem_then_read (d : list (string * pyval)) (key : string) (value : pyval) :
  let before := {| _event_as_dict := PDict d |} in
  let after := {| _event_as_dict := PDict (dict_set key value d) |} in
  EventListenerItems.__setitem__ before key value = Ok after
  /\ EventListener.__getitem__ after key = Ok value
  /\ EventListener.get after key = Ok value
  /\ (forall other, other <> key ->
        EventListener.__getitem__ after other = EventListener.__getitem__ before other
        /\ EventListener.get after other = EventListener.get before other)
  /\ EventListener.__len__ after
     = Ok (Z.of_nat (List.length d)
           + match dict_get key d with Some _ => 0 | None => 1 end)
  /\ (NoDup (map fst d) -> NoDup (map fst (dict_set key value d)))
  /\ (forall record,
        (forall items, _event_as_dict record <> PDict items) ->
        EventListenerItems.__setitem__ record key value = Raise TypeError).
Proof.
  cbv zeta.
  unfold EventListenerItems.__setitem__, EventListener.__getitem__, EventListener.get,
    EventListener.__len__. cbn.
  rewrite dict_get_set_same.
  repeat split.
  - cbn. now rewrite (dict_get_set_other key other value d H).
  - now rewrite (dict_get_set_other key other value d H).
  - f_equal.
    rewrite <- (length_map fst (dict_set key value d)), dict_set_keys.
    destruct (dict_get key d); rewrite ?length_app, length_map; cbn; lia.
  - intros Hnd. rewrite dict_set_keys.
    destruct (dict_get key d) eqn:E; [ exact Hnd | ].
    apply NoDup_app; [ exact Hnd | repeat constructor; intros [] | ].
    intros k Hk [<- | []]. now apply (dict_get_none_not_key key d E).
  - intros record Hnot. destruct (_event_as_dict record) as [ | | | | | items ];
      try reflexivity.
    now destruct (Hnot items).
Qed.

(** X12.  On a record backed by a dict, [record.get(key)] is [None] both
    when the field is absent and when it holds [None]; [record[key]] raises
    [KeyError] exactly when the field is absent and returns the value
    otherwise. *)
Theorem get_and_getitem (d : list (string * pyval)) (key : string) :
  let record := {| _event_as_dict := PDict d |} in
  (EventListener.get record key = Ok PNone
   <-> dict_get key d = None \/ dict_get key d = Some PNone)
  /\ (EventListener.__getitem__ record key = Raise KeyError <-> dict_get key d = None)
  /\ (forall value,
        dict_get key d = Some value ->
        EventListener.__getitem__ record key = Ok value
        /\ EventListener.get record key = Ok value).
Proof.
  cbv zeta. unfold EventListener.get, EventListener.__getitem__. cbn.
  destruct (dict_get key d) as [v | ]; (split; [ | split ]).
  - split.
    + intros H. injection H as ->. now right.
    + intros [H | H]; [ discriminate H | ]. injection H as ->. reflexivity.
  - split; discriminate.
  - intros value H. injection H as ->. split; reflexivity.
  - split; auto.
  - split; auto.
  - intros value H. discriminate H.
Qed.

(** ** A navigation resets the page state *)

(** X13.  Whatever the page state and the flags are, LOADED included, a
    navigation-scheduled event is handled without an exception and leaves
    the three sub-flags false, the scheduled flag true and the page state
    LOADING; nothing else of the world changes. *)
Theorem navigation_scheduled_resets (m : pyval) (w : world) :
  navigation_scheduled m ->
  fst (_page_state_handler m w) = Ok tt
  /\ page_flags (self (snd (_page_state_handler m w)))
     = (Some false, Some true, Some false, Some false)
  /\ _page_state (self (snd (_page_state_handler m w))) = PAGE_STATE_LOADING
  /\ effects (snd (_page_state_handler m w)) = effects w
  /\ logging_disable (snd (_page_state_handler m w)) = logging_disable w
  /\ proxy (self (snd (_page_state_handler m w))) = proxy (self w)
  /\ chrome_process (self (snd (_page_state_handler m w))) = chrome_process (self w)
  /\ chrome_conn (self (snd (_page_state_handler m w))) = chrome_conn (self w).
Proof.
  intros H. rewrite (handler_navigation_scheduled m w H).
  repeat split.
Qed.

Lemma navigation_scheduled_resets_witness :
  let loaded := deliver [msg_navigation_scheduled; msg_frame_stopped_loading;
                         msg_network_almost_idle; msg_execution_context_created]
                  sample_world in
  navigation_scheduled msg_navigation_scheduled
  /\ _page_state (self loaded) = PAGE_STATE_LOADED
  /\ _page_state (self (snd (_page_state_handler msg_navigation_scheduled loaded)))
     = PAGE_STATE_LOADING.
Proof.
  cbv zeta.
  assert (H : navigation_scheduled msg_navigation_scheduled)
    by (eexists; split; reflexivity).
  split; [ exact H | split; [ reflexivity | ] ].
  exact (proj1 (proj2 (proj2 (navigation_scheduled_resets msg_navigation_scheduled _ H)))).
Defined.

(** ** Construction *)

Ltac answer_all Hok c :=
  repeat match goal with
         | |- context [send c ?m ?ps] =>
             let H := fresh "Hanswer" in
             pose proof (Hok m ps) as H;
             destruct (send c m ps); [ clear H | discriminate H ]; cbn
         end.

(** X14.  When the proxy, the browser process and the connection come up
    and the connection answers the settings commands, [__init__] leaves
    every attribute assigned: the flags [None], the page state NONE, the
    three handles set, and the eight settings effects sent in order; what
    the attributes held before does not matter. *)
Theorem init_assigns_every_attribute
    (env : environment) (ident source : string)
    (p : LoggingProxy) (cp : ChromeProcess) (c : DebugChromeInterface) (w0 : world) :
  new_proxy env = Ok p ->
  new_chrome_process env (get_bind_port p) = Ok cp ->
  new_chrome_conn env (get_devtools_port cp) = Ok c ->
  (forall method params, is_ok (send c method params) = true) ->
  __init__ env ident source w0
  = (Ok tt,
     {| self := constructed ident p cp c;
        effects := effects w0 ++ settings_effects source;
        logging_disable := logging_disable w0 |}).
Proof.
  intros Hp Hcp Hc Hok.
  destruct w0 as [[fsl fsn nai ecc ps ident0 did p0 cp0 cn0] es ld].
  unfold __init__, start_proxy, start_chrome_process, connect_to_chrome,
    set_chrome_settings, set_dialog_handler, conn_command, bind, get_self, set_self,
    emit, lift, raise, ret.
  cbn. rewrite Hp. cbn. rewrite Hcp. cbn. rewrite Hc. cbn.
  answer_all Hok c.
  unfold constructed, settings_effects. rewrite <- !app_assoc. reflexivity.
Qed.

Lemma init_assigns_every_attribute_witness :
  self (snd (__init__ working_environment "a1b2c3d4" "/* analyzer */"
               (world_of fresh_object)))
  = sample_chrome.
Proof.
  rewrite (init_assigns_every_attribute working_environment "a1b2c3d4" "/* analyzer */"
             sample_proxy sample_process sample_conn (world_of fresh_object)
             eq_refl eq_refl eq_refl (fun _ _ => eq_refl)).
  reflexivity.
Defined.

Lemma terminate_without_connection (w : world) (p : LoggingProxy) (cp : ChromeProcess) :
  proxy (self w) = Obj p ->
  chrome_process (self w) = Obj cp ->
  chrome_conn (self w) = Unset ->
  fst (terminate w) = Ok tt
  /\ filter is_teardown (effects (snd (terminate w)))
     = (filter is_teardown (effects w) ++ [ProxyStop; ProcessTerminate])%list.
Proof.
  destruct w as [[fsl fsn nai ecc ps ident did p0 cp0 cn0] es ld]. cbn.
  intros -> -> ->.
  destruct p as [pport [[] | pe]]; destruct cp as [cport cpid [[] | cpe]];
    unfold terminate, try_except, AllLoggingDisabled, attr_call, set_logging_disable,
      bind, get_self, set_self, emit, lift, raise, ret;
    cbn -[fmt_opt_int fmt_opt_str String.append];
    rewrite ?filter_app; cbn [filter is_teardown app];
    rewrite ?app_nil_r, <- ?app_assoc; cbn [app];
    split; reflexivity.
Qed.

Lemma init_at_connection_run
    (env : environment) (ident source : string)
    (p : LoggingProxy) (cp : ChromeProcess) (e : pyexn) (w0 : world) :
  new_proxy env = Ok p ->
  new_chrome_process env (get_bind_port p) = Ok cp ->
  new_chrome_conn env (get_devtools_port cp) = Raise e ->
  __init__ env ident source w0
  = (Raise (connection_failure e),
     {| self :=
          {| _frame_stopped_loading_event := None;
             _frame_scheduled_navigation := None;
             _network_almost_idle_event := None;
             _execution_context_created := None;
             _page_state := PAGE_STATE_NONE;
             id := ident; debugging_id := None;
             proxy := Obj p; chrome_process := Obj cp;
             chrome_conn := chrome_conn (self w0) |};
        effects := effects w0;
        logging_disable := logging_disable w0 |}).
Proof.
  intros Hp Hcp Hc.
  destruct w0 as [[fsl fsn nai ecc ps ident0 did p0 cp0 cn0] es ld].
  unfold __init__, start_proxy, start_chrome_process, connect_to_chrome,
    bind, get_self, set_self, lift, raise, ret.
  cbn. rewrite Hp. cbn. rewrite Hcp. cbn. rewrite Hc.
  unfold connection_failure.
  destruct (is_ConnectionError e); reflexivity.
Qed.

(** X15.  When opening the connection fails, [__init__] raises
    [InstrumentedChromeException] when the failure is a [ConnectionError]
    or of a class that derives from it ([ProxyError], [SSLError],
    [ConnectTimeout]), and the failure itself when it is of any other
    class.  It has stopped nothing and sent nothing: the proxy and the
    browser process are assigned and running, the connection is not
    assigned.  [terminate] on what is left raises nothing and stops
    both. *)
Theorem init_fails_at_connection
    (env : environment) (ident source : string)
    (p : LoggingProxy) (cp : ChromeProcess) (e : pyexn) (w0 : world) :
  unassigned (self w0) ->
  new_proxy env = Ok p ->
  new_chrome_process env (get_bind_port p) = Ok cp ->
  new_chrome_conn env (get_devtools_port cp) = Raise e ->
  let left := snd (__init__ env ident source w0) in
  (is_ConnectionError e = true ->
   fst (__init__ env ident source w0) = Raise InstrumentedChromeException)
  /\ (is_ConnectionError e = false -> fst (__init__ env ident source w0) = Raise e)
  /\ is_ConnectionError ConnectionError = true
  /\ (forall name, In name ConnectionError_subclasses ->
                   is_ConnectionError (OtherException name) = true)
  /\ proxy (self left) = Obj p
  /\ chrome_process (self left) = Obj cp
  /\ chrome_conn (self left) = Unset
  /\ effects left = effects w0
  /\ fst (terminate left) = Ok tt
  /\ filter is_teardown (effects (snd (terminate left)))
     = (filter is_teardown (effects w0) ++ [ProxyStop; ProcessTerminate])%list.
Proof.
  intros (_ & _ & Hcn) Hp Hcp Hc. cbv zeta.
  rewrite (init_at_connection_run env ident source p cp e w0 Hp Hcp Hc).
  cbn [fst snd]. rewrite Hcn. unfold connection_failure.
  split; [ intros ->; reflexivity | ].
  split; [ intros ->; reflexivity | ].
  split; [ reflexivity | ].
  split.
  { intros name [<- | [<- | [<- | []]]]; reflexivity. }
  do 4 (split; [ reflexivity | ]).
  match goal with
  | |- fst (terminate ?left) = _ /\ _ =>
      exact (terminate_without_connection left p cp eq_refl eq_refl eq_refl)
  end.
Qed.

Lemma init_fails_at_connection_witness :
  unassigned (self (world_of fresh_object))
  /\ fst (__init__ no_connection_environment "a1b2c3d4" "/* analyzer */"
            (world_of fresh_object))
     = Raise InstrumentedChromeException
  /\ fst (__init__ proxy_error_environment "a1b2c3d4" "/* analyzer */"
            (world_of fresh_object))
     = Raise InstrumentedChromeException
  /\ fst (__init__ value_error_environment "a1b2c3d4" "/* analyzer */"
            (world_of fresh_object))
     = Raise (OtherException "ValueError").
Proof.
  assert (Hu : unassigned (self (world_of fresh_object))) by (repeat split).
  split; [ exact Hu | ].
  split; [ | split ].
  - exact (proj1 (init_fails_at_connection no_connection_environment "a1b2c3d4"
                    "/* analyzer */" sample_proxy sample_process ConnectionError
                    (world_of fresh_object) Hu eq_refl eq_refl eq_refl) eq_refl).
  - exact (proj1 (init_fails_at_connection proxy_error_environment "a1b2c3d4"
                    "/* analyzer */" sample_proxy sample_process
                    (OtherException "ProxyError")
                    (world_of fresh_object) Hu eq_refl eq_refl eq_refl) eq_refl).
  - exact (proj1 (proj2 (init_fails_at_connection value_error_environment "a1b2c3d4"
                    "/* analyzer */" sample_proxy sample_process
                    (OtherException "ValueError")
                    (world_of fresh_object) Hu eq_refl eq_refl eq_refl)) eq_refl).
Defined.

(** X16.  When the browser process fails to start, [__init__] raises what
    the start raised, with the proxy assigned and running and neither the
    process nor the connection assigned.  [terminate] on what is left
    raises [AttributeError] and changes nothing: the proxy is not
    stopped. *)
Theorem init_fails_at_process
    (env : environment) (ident source : string)
    (p : LoggingProxy) (e : pyexn) (w0 : world) :
  unassigned (self w0) ->
  new_proxy env = Ok p ->
  new_chrome_process env (get_bind_port p) = Raise e ->
  let left := snd (__init__ env ident source w0) in
  fst (__init__ env ident source w0) = Raise e
  /\ proxy (self left) = Obj p
  /\ chrome_process (self left) = Unset
  /\ chrome_conn (self left) = Unset
  /\ effects left = effects w0
  /\ terminate left = (Raise AttributeError, left).
Proof.
  intros (_ & Hcp0 & Hcn) Hp Hcp.
  destruct w0 as [[fsl fsn nai ecc ps ident0 did p0 cp0 cn0] es ld].
  cbn in Hcp0, Hcn. subst cp0 cn0. cbv zeta.
  unfold __init__, start_proxy, start_chrome_process, connect_to_chrome,
    bind, get_self, set_self, lift, raise, ret.
  cbn. rewrite Hp. cbn. rewrite Hcp. cbn.
  repeat split.
Qed.

Lemma init_fails_at_process_witness :
  unassigned (self (world_of fresh_object))
  /\ fst (__init__ no_browser_environment "a1b2c3d4" "/* analyzer */"
            (world_of fresh_object))
     = Raise (OtherException "ChromeProcessException")
  /\ self (snd (__init__ no_browser_environment "a1b2c3d4" "/* analyzer */"
                  (world_of fresh_object)))
     = construction_failed_at_process.
Proof.
  assert (Hu : unassigned (self (world_of fresh_object))) by (repeat split).
  split; [ exact Hu | ].
  split; [ | reflexivity ].
  exact (proj1 (init_fails_at_process no_browser_environment "a1b2c3d4" "/* analyzer */"
                  sample_proxy (OtherException "ChromeProcessException")
                  (world_of fresh_object) Hu eq_refl eq_refl)).
Defined.

(* ===================================================================== *)
(** * Properties of the scan log readers *)
(* ===================================================================== *)

Lemma append_assoc (a b c : string) : ((a ++ b) ++ c)%string = (a ++ (b ++ c))%string.
Proof. induction a as [ | x a IH ]; cbn; [ reflexivity | now rewrite IH ]. Qed.

Lemma append_empty_r (s : string) : (s ++ EmptyString)%string = s.
Proof. induction s as [ | x s IH ]; cbn; [ reflexivity | now rewrite IH ]. Qed.

Lemma count_char_append (c : ascii) (a b : string) :
  count_char c (a ++ b) = (count_char c a + count_char c b)%nat.
Proof. induction a as [ | x a IH ]; cbn; [ reflexivity | rewrite IH; lia ]. Qed.

Lemma drop_prefix_some (text s rest : string) :
  drop_prefix text s = Some rest -> s = (text ++ rest)%string.
Proof.
  revert s. induction text as [ | a text IH ]; intros s; cbn.
  - intros H. now injection H as ->.
  - destruct s as [ | b s ]; [ discriminate | ].
    destruct (Ascii.eqb a b) eqn:E; [ | discriminate ].
    apply Ascii.eqb_eq in E. subst b. intros H. now rewrite (IH s H).
Qed.

Lemma prefix_append (text rest : string) : prefix text (text ++ rest) = true.
Proof.
  induction text as [ | a text IH ]; cbn; [ now destruct rest | ].
  destruct (ascii_dec a a) as [ _ | Hne ]; [ exact IH | now destruct Hne ].
Qed.

(** A text that stands somewhere in a line is found by [in]. *)
Lemma str_contains_intro (needle before after : string) :
  str_contains needle (before ++ needle ++ after) = true.
Proof.
  unfold str_contains. induction before as [ | c before IH ].
  - cbn [append]. destruct (needle ++ after)%string as [ | b s ] eqn:E.
    + destruct needle; [ reflexivity | discriminate E ].
    + cbn [index]. rewrite <- E, prefix_append. reflexivity.
  - cbn [append index].
    destruct (prefix needle (String c (before ++ needle ++ after))); [ reflexivity | ].
    destruct (index 0 needle (before ++ needle ++ after)); [ reflexivity | exact IH ].
Qed.

Lemma lazy_run_sound (next : string -> option (list string * string)) (re : regex)
    (captured : bool) :
  (forall s groups matched,
      next s = Some (groups, matched) ->
      matches re matched groups /\ exists rest, s = (matched ++ rest)%string) ->
  forall s taken groups matched,
    lazy_run next captured s taken = Some (groups, matched) ->
    exists more matched' groups',
      matched = ((taken ++ more) ++ matched')%string
      /\ groups = (if captured then (taken ++ more)%string :: groups' else groups')
      /\ count_char newline more = O
      /\ matches re matched' groups'
      /\ exists rest, s = (more ++ matched' ++ rest)%string.
Proof.
  intros Hnext. induction s as [ | c s IH ]; intros taken groups matched; cbn [lazy_run].
  - destruct (next EmptyString) as [[gs m] | ] eqn:E; [ | discriminate ].
    intros H. injection H as <- <-.
    destruct (Hnext _ _ _ E) as (Hm & rest & Hrest).
    exists EmptyString, m, gs. rewrite append_empty_r. repeat split; try assumption.
    now exists rest.
  - destruct (next (String c s)) as [[gs m] | ] eqn:E.
    + intros H. injection H as <- <-.
      destruct (Hnext _ _ _ E) as (Hm & rest & Hrest).
      exists EmptyString, m, gs. rewrite append_empty_r. repeat split; try assumption.
      now exists rest.
    + destruct (Ascii.eqb c newline) eqn:Ec; [ discriminate | ].
      intros H.
      destruct (IH _ _ _ H) as (more & m' & gs' & Hmatched & Hgroups & Hnl & Hm & rest & Hs).
      exists (String c more), m', gs'.
      assert (Heq : ((taken ++ String c EmptyString) ++ more)%string
                    = (taken ++ String c more)%string)
        by (rewrite append_assoc; reflexivity).
      rewrite Heq in Hmatched, Hgroups.
      repeat split; try assumption.
      * cbn [count_char]. rewrite Ec. exact Hnl.
      * exists rest. cbn. now rewrite Hs.
Qed.

Lemma match_here_sound (re : regex) :
  forall s groups matched,
    match_here re s = Some (groups, matched) ->
    matches re matched groups /\ exists rest, s = (matched ++ rest)%string.
Proof.
  induction re as [ | [text | captured] re IH ]; intros s groups matched; cbn [match_here].
  - intros H. injection H as <- <-. split; [ constructor | now exists s ].
  - destruct (drop_prefix text s) as [rest | ] eqn:Ed; [ | discriminate ].
    destruct (match_here re rest) as [[gs m] | ] eqn:Em; [ | discriminate ].
    intros H. injection H as <- <-.
    destruct (IH _ _ _ Em) as (Hm & rest' & Hrest).
    split; [ now constructor | ].
    exists rest'. rewrite (drop_prefix_some _ _ _ Ed), Hrest. now rewrite append_assoc.
  - intros H.
    destruct (lazy_run_sound (match_here re) re captured IH _ _ _ _ H)
      as (more & m' & gs' & -> & -> & Hnl & Hm & rest & ->).
    cbn [append]. split; [ now constructor | ].
    exists rest. now rewrite append_assoc.
Qed.

Lemma search_sound (re : regex) (s : string) (groups : list string) (matched : string) :
  search re s = Some (groups, matched) ->
  matches re matched groups
  /\ exists before after, s = (before ++ matched ++ after)%string.
Proof.
  induction s as [ | c s IH ]; cbn [search].
  - destruct (match_here re EmptyString) as [[gs m] | ] eqn:E; [ | discriminate ].
    intros H. injection H as <- <-.
    destruct (match_here_sound re _ _ _ E) as (Hm & rest & Hrest).
    split; [ exact Hm | ]. now exists EmptyString, rest.
  - destruct (match_here re (String c s)) as [[gs m] | ] eqn:E.
    + intros H. injection H as <- <-.
      destruct (match_here_sound re _ _ _ E) as (Hm & rest & Hrest).
      split; [ exact Hm | ]. now exists EmptyString, rest.
    + intros H. destruct (IH H) as (Hm & before & after & ->).
      split; [ exact Hm | ]. now exists (String c before), after.
Qed.

Lemma matches_literal (re : regex) (matched : string) (groups : list string)
    (text : string) :
  matches re matched groups -> In (Lit text) re ->
  exists before after, matched = (before ++ text ++ after)%string.
Proof.
  induction 1 as [ | t re m gs Hm IH | cap re taken m gs Hnl Hm IH ]; intros Hin.
  - destruct Hin.
  - destruct Hin as [Heq | Hin].
    + injection Heq as ->. now exists EmptyString, m.
    + destruct (IH Hin) as (before & after & ->).
      exists (t ++ before)%string, after. now rewrite append_assoc.
  - destruct Hin as [Heq | Hin]; [ discriminate Heq | ].
    destruct (IH Hin) as (before & after & ->).
    exists (taken ++ before)%string, after. now rewrite append_assoc.
Qed.

(** A line that a pattern matches contains every text that stands inside
    one of the literals of the pattern. *)
Lemma search_contains (re : regex) (line : string) (m : list string * string)
    (text left needle right : string) :
  search re line = Some m ->
  In (Lit text) re ->
  text = (left ++ needle ++ right)%string ->
  str_contains needle line = true.
Proof.
  destruct m as [groups matched]. intros Hs Hin ->.
  destruct (search_sound re line groups matched Hs) as (Hm & before & after & ->).
  destruct (matches_literal re matched groups _ Hm Hin) as (b & a & ->).
  replace (before ++ (b ++ (left ++ needle ++ right) ++ a) ++ after)%string
    with ((before ++ b ++ left) ++ needle ++ (right ++ a ++ after))%string
    by (now rewrite !append_assoc).
  apply str_contains_intro.
Qed.

Lemma read_after_seek (scan : logfile) :
  read_lines (seek_start scan) = (log_lines scan, at_end scan).
Proof. reflexivity. Qed.








Lemma join_match_needs_words (line : string) :
  str_contains "seconds to join" line = false -> join_match line = [].
Proof.
  intros Hno. unfold join_match.
  destruct (search JOIN_TIMES line) as [m | ] eqn:E; [ | reflexivity ].
  rewrite (search_contains JOIN_TIMES line m " seconds to join()" " " "seconds to join"
             "()" E) in Hno; [ discriminate Hno | | reflexivity ].
  cbn. auto.
Qed.

Lemma join_times_unfiltered (lines : list string) :
  join_times_of lines = flat_map join_match lines.
Proof.
  unfold join_times_of. induction lines as [ | line lines IH ]; [ reflexivity | ].
  cbn [flat_map]. rewrite IH. f_equal.
  destruct (str_contains "seconds to join" line) eqn:E; [ reflexivity | ].
  cbn. symmetry. now apply join_match_needs_words.
Qed.



(** X19.  Every entry that [get_consumer_join_times] reports stands in a
    line of the log and reads: a consumer, the word took, a duration and
    the words seconds to join(), with no newline in the consumer or the
    duration. *)
Theorem join_time_entry_shape (scan : logfile) (entry : string) :
  In entry (join_times_of (log_lines scan)) ->
  exists line consumer seconds before after,
    In line (log_lines scan)
    /\ line = (before ++ entry ++ after)%string
    /\ entry = (consumer ++ " took " ++ seconds ++ " seconds to join()")%string
    /\ count_char newline consumer = O
    /\ count_char newline seconds = O.
Proof.
  rewrite join_times_unfiltered. intros Hin.
  apply in_flat_map in Hin as (line & Hline & Hentry).
  unfold join_match in Hentry.
  destruct (search JOIN_TIMES line) as [[groups matched] | ] eqn:E; [ | destruct Hentry ].
  destruct Hentry as [<- | []]. cbn [group0 snd].
  destruct (search_sound JOIN_TIMES line groups matched E) as (Hm & before & after & ->).
  unfold JOIN_TIMES in Hm.
  inversion Hm as [ | | cap1 re1 consumer m1 gs1 Hnl1 Hm1 ]; subst.
  inversion Hm1 as [ | t2 re2 m2 gs2 Hm2 | ]; subst.
  inversion Hm2 as [ | | cap3 re3 seconds m3 gs3 Hnl3 Hm3 ]; subst.
  inversion Hm3 as [ | t4 re4 m4 gs4 Hm4 | ]; subst.
  inversion Hm4; subst.
  exists (before ++ (consumer ++ " took " ++ seconds ++ " seconds to join()" ++ EmptyString)
            ++ after)%string, consumer, seconds, before, after.
  rewrite append_empty_r in *. repeat split; assumption.
Qed.

Lemma join_time_entry_shape_witness :
  In "CrawlInfra took 0.25 seconds to join()" (join_times_of (log_lines sample_log))
  /\ exists line consumer seconds before after,
       In line (log_lines sample_log)
       /\ line = (before ++ "CrawlInfra took 0.25 seconds to join()" ++ after)%string
       /\ "CrawlInfra took 0.25 seconds to join()"
          = (consumer ++ " took " ++ seconds ++ " seconds to join()")%string
       /\ count_char newline consumer = O
       /\ count_char newline seconds = O.
Proof.
  assert (H : In "CrawlInfra took 0.25 seconds to join()"
                (join_times_of (log_lines sample_log)))
    by (vm_compute; auto).
  split; [ exact H | ].
  exact (join_time_entry_shape sample_log _ H).
Defined.

Lemma count_max_reached_app (l1 l2 : list string) :
  count_max_reached (l1 ++ l2) = count_max_reached l1 + count_max_reached l2.
Proof.
  induction l1 as [ | line l1 IH ]; [ reflexivity | ].
  cbn [app count_max_reached fold_right]. fold (count_max_reached (l1 ++ l2)).
  fold (count_max_reached l1). rewrite IH. lia.
Qed.

Lemma count_max_reached_bounds (lines : list string) :
  0 <= count_max_reached lines <= Z.of_nat (List.length lines).
Proof.
  induction lines as [ | line lines IH ]; [ cbn; lia | ].
  cbn [count_max_reached fold_right List.length]. fold (count_max_reached lines).
  destruct (str_contains SQLITE_MAX_REACHED line); cbn [Z.b2z]; lia.
Qed.

Lemma count_max_reached_zero (lines : list string) :
  count_max_reached lines = 0
  <-> forall line, In line lines -> str_contains SQLITE_MAX_REACHED line = false.
Proof.
  induction lines as [ | line lines IH ].
  - split; [ intros _ l [] | reflexivity ].
  - cbn [count_max_reached fold_right]. fold (count_max_reached lines).
    pose proof (count_max_reached_bounds lines) as Hb.
    destruct (str_contains SQLITE_MAX_REACHED line) eqn:E; cbn [Z.b2z]; split.
    + intros H. lia.
    + intros H. specialize (H line (or_introl eq_refl)). congruence.
    + intros H l [<- | Hin]; [ exact E | ]. apply IH; [ lia | exact Hin ].
    + intros H. cut (count_max_reached lines = 0); [ lia | ].
      apply IH. intros l Hin. apply H. now right.
Qed.

(** X20.  [get_dbms_queue_size_exceeded] reports the number of lines of
    the whole log that contain the message: a number between zero and the
    number of lines, zero exactly when no line contains the message, and
    for a log that goes on the sum of the numbers of its two parts. *)
Theorem get_dbms_queue_size_exceeded_counts_lines (scan : logfile) :
  get_dbms_queue_size_exceeded scan
  = ({| kv_name := "sqlite_limit_reached";
        kv_title := "SQLite queue limit reached";
        kv_values := Some (PInt (count_max_reached (log_lines scan))) |},
     at_end scan)
  /\ 0 <= count_max_reached (log_lines scan) <= Z.of_nat (List.length (log_lines scan))
  /\ (count_max_reached (log_lines scan) = 0
      <-> forall line, In line (log_lines scan) ->
                       str_contains SQLITE_MAX_REACHED line = false)
  /\ (forall more,
        count_max_reached (log_lines scan ++ more)
        = count_max_reached (log_lines scan) + count_max_reached more).
Proof.
  repeat split.
  - apply count_max_reached_bounds.
  - apply count_max_reached_bounds.
  - apply count_max_reached_zero.
  - apply count_max_reached_zero.
  - intros more. apply count_max_reached_app.
Qed.

(** X21.  Each reader rewinds the file before it reads: its answer is the
    same for two files with the same lines, wherever they stand, so a
    reader run after another one on the same open file answers as it does
    on a file just opened. *)
Theorem readers_rewind (scan other : logfile) :
  log_lines other = log_lines scan ->
  fst (get_bruteforce_data other) = fst (get_bruteforce_data scan)
  /\ fst (get_consumer_join_times other) = fst (get_consumer_join_times scan)
  /\ fst (get_dbms_queue_size_exceeded other) = fst (get_dbms_queue_size_exceeded scan)
  /\ fst (get_bruteforce_data (snd (get_consumer_join_times scan)))
     = fst (get_bruteforce_data scan)
  /\ fst (get_consumer_join_times (snd (get_dbms_queue_size_exceeded scan)))
     = fst (get_consumer_join_times scan)
  /\ fst (get_dbms_queue_size_exceeded (snd (get_bruteforce_data scan)))
     = fst (get_dbms_queue_size_exceeded scan).
Proof.
  intros Hlines.
  assert (Hb : forall a b, log_lines a = log_lines b ->
                 fst (get_bruteforce_data a) = fst (get_bruteforce_data b)).
  { intros a b H. unfold get_bruteforce_data. rewrite !read_after_seek. cbn [fst].
    now rewrite H. }
  assert (Hj : forall a b, log_lines a = log_lines b ->
                 fst (get_consumer_join_times a) = fst (get_consumer_join_times b)).
  { intros a b H. unfold get_consumer_join_times. rewrite !read_after_seek. cbn [fst].
    now rewrite H. }
  assert (Hd : forall a b, log_lines a = log_lines b ->
                 fst (get_dbms_queue_size_exceeded a)
                 = fst (get_dbms_queue_size_exceeded b)).
  { intros a b H. unfold get_dbms_queue_size_exceeded. rewrite !read_after_seek.
    cbn [fst]. now rewrite H. }
  split; [ now apply Hb | ].
  split; [ now apply Hj | ].
  split; [ now apply Hd | ].
  split; [ apply Hb | split; [ apply Hj | apply Hd ] ].
  - unfold get_consumer_join_times. rewrite read_after_seek. reflexivity.
  - unfold get_dbms_queue_size_exceeded. rewrite read_after_seek. reflexivity.
  - unfold get_bruteforce_data. rewrite read_after_seek. reflexivity.
Qed.

Lemma readers_rewind_witness :
  log_lines (at_end sample_log) = log_lines sample_log
  /\ fst (get_dbms_queue_size_exceeded (at_end sample_log))
     = fst (get_dbms_queue_size_exceeded sample_log).
Proof.
  assert (H : log_lines (at_end sample_log) = log_lines sample_log) by reflexivity.
  split; [ exact H | ].
  exact (proj1 (proj2 (proj2 (readers_rewind sample_log (at_end sample_log) H)))).
Defined.

(* ===================================================================== *)
(** * More on the functions of the controller *)
(* ===================================================================== *)

(** X22.  The loop of [_paginate] stops on a short page only: when every
    fetch answers with at least a full page, the loop never reaches its
    [break], whatever the fuel, and raises nothing. *)
Theorem paginate_never_breaks_on_full_pages
    (page_count : Z) (functor : Z -> Z -> M (list EventListener)) :
  (forall start w, exists page w',
      functor start page_count w = (Ok page, w')
      /\ page_count <= Z.of_nat (List.length page)) ->
  forall fuel start w,
    fst (paginate_from page_count fuel functor start w) = Ok false.
Proof.
  intros Hfull. induction fuel as [ | fuel IH ]; intros start w; [ reflexivity | ].
  destruct (Hfull start w) as (page & w' & Hrun & Hlen).
  rewrite (paginate_from_step page_count fuel functor start w w' page Hrun).
  apply Z.ltb_ge in Hlen. rewrite Hlen. apply IH.
Qed.

Lemma paginate_never_breaks_on_full_pages_witness :
  (forall start w, exists page w',
      endless_page start PAGINATION_PAGE_COUNT w = (Ok page, w')
      /\ PAGINATION_PAGE_COUNT <= Z.of_nat (List.length page))
  /\ fst (_paginate 7 endless_page sample_world) = Ok false.
Proof.
  assert (H : forall start w, exists page w',
                endless_page start PAGINATION_PAGE_COUNT w = (Ok page, w')
                /\ PAGINATION_PAGE_COUNT <= Z.of_nat (List.length page)).
  { intros start w. eexists. eexists. split; [ reflexivity | ].
    rewrite length_map, length_seq. vm_compute. discriminate. }
  split; [ exact H | ].
  exact (paginate_never_breaks_on_full_pages PAGINATION_PAGE_COUNT endless_page H 7 0
           sample_world).
Defined.

(** X23.  What [_is_valid_event_type] accepts is decided by the first
    character alone: a string passes exactly when it starts with a letter
    or a dot.  A string that does not pass makes [dispatch_js_event] raise
    [AssertionError] with the world as it was. *)
Theorem event_type_check_reads_first_character
    (selector event_type : string) (w : world) :
  (_is_valid_event_type event_type = true
   <-> exists c rest, event_type = String c rest /\ EVENT_TYPE_class c = true)
  /\ (_is_valid_event_type event_type = false ->
      dispatch_js_event selector event_type w = (Raise AssertionError, w)).
Proof.
  split.
  - unfold _is_valid_event_type, EVENT_TYPE_RE_match, re_match_plus.
    rewrite <- span_nonempty.
    destruct (span EVENT_TYPE_class event_type); split; congruence.
  - apply dispatch_js_event_rejected.
Qed.

Lemma event_type_check_reads_first_character_witness :
  _is_valid_event_type "1click" = false
  /\ dispatch_js_event "#go" "1click" sample_world = (Raise AssertionError, sample_world).
Proof.
  assert (H : _is_valid_event_type "1click" = false) by reflexivity.
  split; [ exact H | ].
  exact (proj2 (event_type_check_reads_first_character "#go" "1click" sample_world) H).
Defined.

(** X24.  On an answer whose wrappers are dicts, the checks of
    [_js_runtime_evaluate] raise nothing: the value under result, result,
    value is returned when it is there, and [None] when a level is
    missing. *)
Theorem decode_total_on_dict_wrappers (d : list (string * pyval)) :
  wrappers_are_dicts d ->
  (forall od id value,
      dict_get "result" d = Some (PDict od) ->
      dict_get "result" od = Some (PDict id) ->
      dict_get "value" id = Some value ->
      decode_evaluate_result (PDict d) = Ok value)
  /\ ((dict_get "result" d = None
       \/ (exists od, dict_get "result" d = Some (PDict od)
                      /\ dict_get "result" od = None)
       \/ (exists od id, dict_get "result" d = Some (PDict od)
                         /\ dict_get "result" od = Some (PDict id)
                         /\ dict_get "value" id = None)) ->
      decode_evaluate_result (PDict d) = Ok PNone)
  /\ is_ok (decode_evaluate_result (PDict d)) = true.
Proof.
  intros Hwf. split; [ | split ].
  - intros od id value. apply decode_value.
  - intros [H | [(od & H1 & H2) | (od & id & H1 & H2 & H3)]].
    + now apply decode_missing_wrapper.
    + now apply (decode_missing_inner d od).
    + now apply (decode_missing_value d od id).
  - cbn. destruct (dict_get "result" d) as [outer | ] eqn:H1; [ | reflexivity ].
    destruct (Hwf outer H1) as (od & -> & Hinner). cbn.
    destruct (dict_get "result" od) as [inner | ] eqn:H2; [ | reflexivity ].
    destruct (Hinner inner eq_refl) as (id & ->). cbn.
    destruct (dict_get "value" id); reflexivity.
Qed.

Lemma decode_total_on_dict_wrappers_witness :
  decode_evaluate_result no_value_answer = Ok PNone.
Proof.
  assert (Hwf : wrappers_are_dicts
                  [("id", PInt 1);
                   ("result", PDict [("result", PDict [("type", PStr "undefined")])])]).
  { intros outer H. injection H as <-. eexists. split; [ reflexivity | ].
    intros inner H. injection H as <-. eexists. reflexivity. }
  apply (proj1 (proj2 (decode_total_on_dict_wrappers _ Hwf))).
  right. right. do 2 eexists. repeat split; reflexivity.
Defined.

(** X25.  [terminate] has no teardown of its own for a controller whose
    proxy or process attribute was never assigned: it raises
    [AttributeError] and leaves the world as it was, with no call made and
    no handle cleared. *)
Theorem terminate_raises_without_change (w : world) :
  proxy (self w) = Unset \/ chrome_process (self w) = Unset ->
  terminate w = (Raise AttributeError, w).
Proof.
  destruct w as [[fsl fsn nai ecc ps ident did p cp cn] es ld]. cbn.
  unfold terminate, bind, get_self, lift, __str__. cbn.
  intros [-> | ->]; [ reflexivity | ].
  destruct p; reflexivity.
Qed.

Lemma terminate_raises_without_change_witness :
  chrome_process (self (world_of construction_failed_at_process)) = Unset
  /\ effects (snd (terminate (world_of construction_failed_at_process))) = [].
Proof.
  split; [ reflexivity | ].
  rewrite (terminate_raises_without_change (world_of construction_failed_at_process)
             (or_intror eq_refl)).
  reflexivity.
Defined.

(** ** Equality of records, where it holds *)

Lemma eq_reflexive_witness :
  wf_pyval (PDict plain_record)
  /\ EventListener.__eq__ {| _event_as_dict := PDict plain_record |}
       {| _event_as_dict := PDict plain_record |} = Ok true.
Proof.
  assert (H : wf_pyval (PDict plain_record)).
  { constructor.
    - cbn. repeat constructor; cbn; intuition discriminate.
    - repeat constructor. }
  split; [ exact H | exact (eq_reflexive plain_record H) ].
Defined.

Lemma eq_field_order_witness :
  Permutation plain_record plain_record_reordered
  /\ NoDup (map fst plain_record)
  /\ EventListener.__eq__ {| _event_as_dict := PDict plain_record |} listener_with_text
     = EventListener.__eq__ {| _event_as_dict := PDict plain_record_reordered |}
         listener_with_text.
Proof.
  assert (Hp : Permutation plain_record plain_record_reordered).
  { unfold plain_record, plain_record_reordered.
    apply Permutation_sym.
    change (Permutation
              (("node_id", PInt 7) :: [("event_type", PStr "click"); ("selector", PStr "#go")])
              ([("event_type", PStr "click"); ("selector", PStr "#go")]
                 ++ [("node_id", PInt 7)])).
    apply Permutation_cons_append. }
  assert (Hn : NoDup (map fst plain_record)).
  { cbn. repeat constructor; cbn; intuition discriminate. }
  split; [ exact Hp | split; [ exact Hn | ] ].
  exact (proj1 (eq_field_order plain_record plain_record_reordered listener_with_text
                  Hp Hn)).
Defined.

Lemma eq_symmetric_on_plain_fields_witness :
  plain_fields plain_record
  /\ plain_fields plain_record_reordered
  /\ EventListener.__eq__ {| _event_as_dict := PDict plain_record |}
       {| _event_as_dict := PDict plain_record_reordered |}
     = EventListener.__eq__ {| _event_as_dict := PDict plain_record_reordered |}
         {| _event_as_dict := PDict plain_record |}.
Proof.
  assert (H1 : plain_fields plain_record).
  { split; [ cbn; repeat constructor; cbn; intuition discriminate | repeat constructor ]. }
  assert (H2 : plain_fields plain_record_reordered).
  { split; [ cbn; repeat constructor; cbn; intuition discriminate | repeat constructor ]. }
  split; [ exact H1 | split; [ exact H2 | ] ].
  exact (eq_symmetric_on_plain_fields plain_record plain_record_reordered H1 H2).
Defined.

Lemma setitem_then_read_witness :
  "tag_name"%string <> "selector"%string
  /\ EventListener.get {| _event_as_dict := PDict (dict_set "selector" (PStr "#ok") plain_record) |}
       "selector" = Ok (PStr "#ok")
  /\ EventListener.get {| _event_as_dict := PDict (dict_set "selector" (PStr "#ok") plain_record) |}
       "tag_name"
     = EventListener.get {| _event_as_dict := PDict plain_record |} "tag_name".
Proof.
  assert (Hne : "tag_name"%string <> "selector"%string) by discriminate.
  pose proof (setitem_then_read plain_record "selector" (PStr "#ok"))
    as (_ & _ & Hget & Hother & _).
  split; [ exact Hne | split; [ exact Hget | ] ].
  exact (proj2 (Hother "tag_name" Hne)).
Defined.

Lemma get_and_getitem_witness :
  dict_get "handler" [("event_type", PStr "click"); ("handler", PNone)] = Some PNone
  /\ EventListener.__getitem__
       {| _event_as_dict := PDict [("event_type", PStr "click"); ("handler", PNone)] |}
       "handler" = Ok PNone
  /\ EventListener.get
       {| _event_as_dict := PDict [("event_type", PStr "click"); ("handler", PNone)] |}
       "handler" = Ok PNone.
Proof.
  assert (H : dict_get "handler" [("event_type", PStr "click"); ("handler", PNone)]
              = Some PNone) by reflexivity.
  split; [ exact H | ].
  exact (proj2 (proj2 (get_and_getitem
                         [("event_type", PStr "click"); ("handler", PNone)] "handler"))
           PNone H).
Defined.
